(** * Duet / SimplyPrint connector: a shallow embedding of [virtual_client.py]

    The development follows the structure of the connector's
    [VirtualClient]: Python values and exceptions first, then the status
    mapper, the command filter, the identity check, the file-transfer
    pipeline and the webcam buffer and distribution task.

    Conventions.  A finite Python float is modelled by the rational it
    denotes ([Q]): the rounding of each operation to the nearest double is
    left out, while overflow to an infinity, the infinities and NaN are
    kept ([pyfloat]).  Python exceptions are modelled by the type [exn]; a
    method that mutates the client and may raise is a function from the
    state to an outcome and the state reached (the mutations made before a
    raise are kept, as in Python). *)

From Stdlib Require Import ZArith QArith Qabs Qround Qminmax List Sorted String Ascii Bool Lia Lqa.
Import ListNotations.

Set Implicit Arguments.
Set Warnings "-register-all".

(* ===================================================================== *)
(** * Python values, exceptions and the operators the client uses        *)
(* ===================================================================== *)

Module Py.

(** The object model is the JSON document decoded by the device client:
    [None], booleans, integers, floats, strings, lists and dictionaries
    with string keys (kept in insertion order).  [PFloat] is a finite
    float; the decoder also yields the infinities (for [Infinity],
    [-Infinity] and a literal beyond the range, such as [1e999]) and NaN. *)
Inductive pyval : Type :=
| PNone
| PBool (b : bool)
| PInt (z : Z)
| PFloat (q : Q)
| PStr (s : string)
| PList (l : list pyval)
| PDict (d : list (string * pyval))
| PInf (negative : bool)
| PNaN.

(** The exception classes that occur in the modelled code. *)
Inductive exn : Type :=
| KeyError
| IndexError
| TypeError
| ValueError
| AttributeError
| ZeroDivisionError
| TimeoutError
| CancelledError
| KeyboardInterrupt
| ClientConnectionError
| ClientResponseError (status : Z)
| RuntimeError
| OverflowError.

Inductive result (A : Type) : Type :=
| Ok (a : A)
| Raise (e : exn).
Arguments Ok {A} a.
Arguments Raise {A} e.

(** [except Exception] does not catch [CancelledError] nor
    [KeyboardInterrupt], which derive from [BaseException]. *)
Definition is_Exception (e : exn) : bool :=
  match e with
  | CancelledError | KeyboardInterrupt => false
  | _ => true
  end.

Definition rbind {A B} (r : result A) (k : A -> result B) : result B :=
  match r with
  | Ok a => k a
  | Raise e => Raise e
  end.

(** ** Dictionaries *)

Fixpoint dict_get (k : string) (d : list (string * pyval)) : option pyval :=
  match d with
  | [] => None
  | (k', v) :: tl => if String.eqb k k' then Some v else dict_get k tl
  end.

(** ** Sequences: Python indexing, with negative indices from the end *)

Definition seq_index {A} (l : list A) (i : Z) : option A :=
  let n := Z.of_nat (List.length l) in
  if (0 <=? i)%Z then nth_error l (Z.to_nat i)
  else if (0 <=? n + i)%Z then nth_error l (Z.to_nat (n + i))
  else None.

Fixpoint chars (s : string) : list ascii :=
  match s with
  | EmptyString => []
  | String c tl => c :: chars tl
  end.

(** An index is an [int]; [bool] is a subclass of [int]. *)
Definition as_index (k : pyval) : option Z :=
  match k with
  | PInt i => Some i
  | PBool b => Some (if b then 1%Z else 0%Z)
  | _ => None
  end.

(** [c[k]] *)
Definition getitem (c k : pyval) : result pyval :=
  match c with
  | PDict d =>
      match k with
      | PStr s => match dict_get s d with
                  | Some v => Ok v
                  | None => Raise KeyError
                  end
      | PList _ | PDict _ => Raise TypeError
      | _ => Raise KeyError
      end
  | PList l =>
      match as_index k with
      | Some i => match seq_index l i with
                  | Some v => Ok v
                  | None => Raise IndexError
                  end
      | None => Raise TypeError
      end
  | PStr s =>
      match as_index k with
      | Some i => match seq_index (chars s) i with
                  | Some ch => Ok (PStr (String ch EmptyString))
                  | None => Raise IndexError
                  end
      | None => Raise TypeError
      end
  | _ => Raise TypeError
  end.

(** ** Equality ([==]) *)

(** The value of a finite number; an integer and a float are compared by
    their exact values.  An infinity equals only itself and NaN equals
    nothing. *)
Definition num_of (v : pyval) : option Q :=
  match v with
  | PBool b => Some (if b then 1 else 0)
  | PInt z => Some (inject_Z z)
  | PFloat q => Some q
  | _ => None
  end.

Fixpoint py_eq (a b : pyval) {struct a} : bool :=
  match a, b with
  | PNone, PNone => true
  | PStr s, PStr t => String.eqb s t
  | PBool x, _ =>
      match num_of b with
      | Some q => Qeq_bool (if x then 1 else 0) q
      | None => false
      end
  | PInt x, _ =>
      match num_of b with
      | Some q => Qeq_bool (inject_Z x) q
      | None => false
      end
  | PFloat x, _ =>
      match num_of b with
      | Some q => Qeq_bool x q
      | None => false
      end
  | PInf x, PInf y => Bool.eqb x y
  | PList l1, PList l2 =>
      (fix go (xs ys : list pyval) {struct xs} : bool :=
         match xs, ys with
         | [], [] => true
         | x :: xs', y :: ys' => py_eq x y && go xs' ys'
         | _, _ => false
         end) l1 l2
  | PDict d1, PDict d2 =>
      Nat.eqb (List.length d1) (List.length d2) &&
      (fix go (xs : list (string * pyval)) {struct xs} : bool :=
         match xs with
         | [] => true
         | (k, v) :: xs' =>
             match dict_get k d2 with
             | Some w => py_eq v w && go xs'
             | None => false
             end
         end) d1
  | _, _ => false
  end.

(** ** Membership ([x in c]) *)

Fixpoint prefix_of (p s : list ascii) : bool :=
  match p, s with
  | [], _ => true
  | a :: p', b :: s' => Ascii.eqb a b && prefix_of p' s'
  | _ :: _, [] => false
  end.

Fixpoint substring_of (p s : list ascii) : bool :=
  prefix_of p s ||
  match s with
  | [] => false
  | _ :: s' => substring_of p s'
  end.

Definition contains (x c : pyval) : result bool :=
  match c with
  | PDict d =>
      match x with
      | PStr s => Ok (match dict_get s d with Some _ => true | None => false end)
      | PList _ | PDict _ => Raise TypeError
      | _ => Ok false
      end
  | PList l => Ok (existsb (py_eq x) l)
  | PStr s =>
      match x with
      | PStr p => Ok (substring_of (chars p) (chars s))
      | _ => Raise TypeError
      end
  | _ => Raise TypeError
  end.

(** ** Floats *)

(** A float: finite, an infinity or NaN. *)
Inductive pyfloat : Type :=
| Finite (q : Q)
| Infinity (negative : bool)
| NaN.

Bind Scope Q_scope with pyfloat.
Coercion Finite : Q >-> pyfloat.

(** The magnitude from which a value rounds to an infinity:
    [2**1024 - 2**970]. *)
Definition float_limit : Q := inject_Z (2 ^ 1024 - 2 ^ 970).

Definition Qneg (q : Q) : bool := if Qlt_le_dec q 0 then true else false.

(** The result of an operation on finite floats. *)
Definition overflow (q : Q) : pyfloat :=
  if Qlt_le_dec (Qabs q) float_limit then Finite q else Infinity (Qneg q).

(** [float(z)] of an integer: [OverflowError] beyond the range. *)
Definition int_to_float (z : Z) : result pyfloat :=
  if Qlt_le_dec (Qabs (inject_Z z)) float_limit
  then Ok (Finite (inject_Z z))
  else Raise OverflowError.

Definition fadd (a b : pyfloat) : pyfloat :=
  match a, b with
  | NaN, _ | _, NaN => NaN
  | Finite x, Finite y => overflow (x + y)
  | Infinity n, Finite _ | Finite _, Infinity n => Infinity n
  | Infinity n, Infinity m => if Bool.eqb n m then Infinity n else NaN
  end.

Definition fmul (a b : pyfloat) : pyfloat :=
  match a, b with
  | NaN, _ | _, NaN => NaN
  | Finite x, Finite y => overflow (x * y)
  | Infinity n, Finite y | Finite y, Infinity n =>
      if Qeq_bool y 0 then NaN else Infinity (xorb n (Qneg y))
  | Infinity n, Infinity m => Infinity (xorb n m)
  end.

(** [a / b] on floats: a zero divisor raises whatever the dividend is. *)
Definition fdiv (a b : pyfloat) : result pyfloat :=
  match b with
  | Finite y =>
      if Qeq_bool y 0 then Raise ZeroDivisionError
      else Ok match a with
              | Finite x => overflow (x / y)
              | Infinity n => Infinity (xorb n (Qneg y))
              | NaN => NaN
              end
  | Infinity _ =>
      Ok match a with
         | Finite _ => Finite 0
         | _ => NaN
         end
  | NaN => Ok NaN
  end.

(** [min(a, 100.0)]: the first argument unless the second is smaller. *)
Definition fmin_100 (a : pyfloat) : pyfloat :=
  match a with
  | Finite x => Finite (Qmin x 100)
  | Infinity false => Finite 100
  | Infinity true => Infinity true
  | NaN => NaN
  end.

(** A number: an integer of any size, or a float. *)
Inductive number : Type :=
| NInt (z : Z)
| NFloat (x : pyfloat).

Definition number_of (v : pyval) : option number :=
  match v with
  | PBool b => Some (NInt (if b then 1 else 0))
  | PInt z => Some (NInt z)
  | PFloat q => Some (NFloat (Finite q))
  | PInf n => Some (NFloat (Infinity n))
  | PNaN => Some (NFloat NaN)
  | _ => None
  end.

(** The float an operation on a float and a number works with. *)
Definition to_float (n : number) : result pyfloat :=
  match n with
  | NInt z => int_to_float z
  | NFloat x => Ok x
  end.

(** [a + b]: exact on integers; an integer added to a float is converted
    first. *)
Definition number_add (a b : number) : result number :=
  match a, b with
  | NInt x, NInt y => Ok (NInt (x + y))
  | _, _ =>
      rbind (to_float a) (fun x =>
      rbind (to_float b) (fun y => Ok (NFloat (fadd x y))))
  end.

(** ** [sum(xs)] over the elements of an iterable, starting from [0] *)

Fixpoint sum_from (acc : number) (l : list pyval) : result number :=
  match l with
  | [] => Ok acc
  | x :: tl =>
      match number_of x with
      | Some n => rbind (number_add acc n) (fun acc' => sum_from acc' tl)
      | None => Raise TypeError
      end
  end.

(** Iterating a dictionary yields its keys, iterating a string its
    characters; adding a string to [0] raises [TypeError]. *)
Definition py_sum (v : pyval) : result number :=
  match v with
  | PList l => sum_from (NInt 0) l
  | PDict [] => Ok (NInt 0)
  | PDict (_ :: _) => Raise TypeError
  | PStr EmptyString => Ok (NInt 0)
  | PStr (String _ _) => Raise TypeError
  | _ => Raise TypeError
  end.

(** ** Methods

    A method reads and writes the state [S] of the object it belongs to
    and either returns or raises; what it wrote before raising stays. *)
Definition eff (S A : Type) : Type := S -> result A * S.

Definition ret {S A} (a : A) : eff S A := fun s => (Ok a, s).

Definition bind {S A B} (m : eff S A) (k : A -> eff S B) : eff S B :=
  fun s => match m s with
           | (Ok a, s') => k a s'
           | (Raise e, s') => (Raise e, s')
           end.

Definition lift {S A} (r : result A) : eff S A := fun s => (r, s).

Definition modify {S} (f : S -> S) : eff S unit := fun s => (Ok tt, f s).

Definition gets {S A} (f : S -> A) : eff S A := fun s => (Ok (f s), s).

(** [try: m except <classes>: handler] *)
Definition try_except {S A} (m : eff S A) (caught : exn -> bool)
  (handler : eff S A) : eff S A :=
  fun s => match m s with
           | (Ok a, s') => (Ok a, s')
           | (Raise e, s') => if caught e then handler s' else (Raise e, s')
           end.

Declare Scope eff_scope.
Delimit Scope eff_scope with eff.
Notation "x <- m ;; k" := (bind m (fun x => k))
  (at level 61, m at next level, right associativity) : eff_scope.
Notation "m ;;; k" := (bind m (fun _ => k))
  (at level 61, right associativity) : eff_scope.

End Py.

(* ===================================================================== *)
(** * The session state and the status mapper                            *)
(* ===================================================================== *)

Module Client.
Import Py.

Local Open Scope string_scope.

(** The members of the client library's [PrinterStatus] that the
    connector assigns or tests. *)
Inductive PrinterStatus : Type :=
| OFFLINE | NOT_READY | ERROR | PAUSING | PAUSED | RESUMING
| CANCELLING | PRINTING | OPERATIONAL.

Definition duet_state_simplyprint_status_mapping : list (string * PrinterStatus) :=
  [ ("disconnected", OFFLINE);
    ("starting", NOT_READY);
    ("updating", NOT_READY);
    ("off", OFFLINE);
    ("halted", ERROR);
    ("pausing", PAUSING);
    ("paused", PAUSED);
    ("resuming", RESUMING);
    ("cancelling", CANCELLING);
    ("processing", PRINTING);
    ("simulating", OPERATIONAL);
    ("busy", OPERATIONAL);
    ("changingTool", OPERATIONAL);
    ("idle", OPERATIONAL) ].

Definition duet_state_simplyprint_status_while_printing_mapping
  : list (string * PrinterStatus) :=
  [ ("disconnected", OFFLINE);
    ("starting", NOT_READY);
    ("updating", NOT_READY);
    ("off", OFFLINE);
    ("halted", ERROR);
    ("pausing", PAUSING);
    ("paused", PAUSED);
    ("resuming", RESUMING);
    ("cancelling", CANCELLING);
    ("processing", PRINTING);
    ("simulating", NOT_READY);
    ("busy", PRINTING);
    ("changingTool", PRINTING);
    ("idle", OPERATIONAL) ].

Fixpoint table_find (k : string) (t : list (string * PrinterStatus))
  : option PrinterStatus :=
  match t with
  | [] => None
  | (k', v) :: tl => if String.eqb k k' then Some v else table_find k tl
  end.

(** [t.get(key, default)] on a table whose keys are strings: a key of
    another hashable type is never found, an unhashable one raises. *)
Definition table_get (t : list (string * PrinterStatus)) (key : pyval)
  (default : PrinterStatus) : result PrinterStatus :=
  match key with
  | PStr s => Ok (match table_find s t with Some v => v | None => default end)
  | PList _ | PDict _ => Raise TypeError
  | _ => Ok default
  end.

Record temperature : Type := mk_temperature {
  actual : pyval;
  target : pyval
}.

(** The fields of [self.printer] written by the modelled methods. *)
Record printer : Type := mk_printer {
  status : PrinterStatus;
  bed_temperature : temperature;
  tool_temperatures : list temperature;
  ambient : pyval;
  job_progress : pyfloat;
  job_filament : Z
}.

Definition set_status (s : PrinterStatus) (p : printer) : printer :=
  mk_printer s (bed_temperature p) (tool_temperatures p) (ambient p)
             (job_progress p) (job_filament p).

Definition set_bed (t : temperature) (p : printer) : printer :=
  mk_printer (status p) t (tool_temperatures p) (ambient p)
             (job_progress p) (job_filament p).

Definition set_tools (ts : list temperature) (p : printer) : printer :=
  mk_printer (status p) (bed_temperature p) ts (ambient p)
             (job_progress p) (job_filament p).

Definition set_ambient (v : pyval) (p : printer) : printer :=
  mk_printer (status p) (bed_temperature p) (tool_temperatures p) v
             (job_progress p) (job_filament p).

Definition set_job_progress (q : pyfloat) (p : printer) : printer :=
  mk_printer (status p) (bed_temperature p) (tool_temperatures p) (ambient p)
             q (job_filament p).

Definition set_job_filament (z : Z) (p : printer) : printer :=
  mk_printer (status p) (bed_temperature p) (tool_temperatures p) (ambient p)
             (job_progress p) z.

Definition set_actual (v : pyval) (t : temperature) : temperature :=
  mk_temperature v (target t).

Definition set_target (v : pyval) (t : temperature) : temperature :=
  mk_temperature (actual t) v.

(** A method of the client works on [self.printer]. *)
Definition M (A : Type) : Type := eff printer A.

Local Open Scope eff_scope.

(** ** [_is_printing] *)

Definition in_printing_states (s : PrinterStatus) : bool :=
  match s with
  | PRINTING | PAUSED | PAUSING | RESUMING => true
  | _ => false
  end.

Definition is_None (v : pyval) : bool :=
  match v with PNone => true | _ => false end.

(** The body of the [try] block of [_is_printing]. *)
Definition job_file_has_filename (om : pyval) : result bool :=
  rbind (getitem om (PStr "job")) (fun job =>
  rbind (getitem job (PStr "file")) (fun job_status =>
  rbind (contains (PStr "filename") job_status) (fun has =>
  if has
  then rbind (getitem job_status (PStr "filename")) (fun v => Ok (negb (is_None v)))
  else Ok false))).

Definition key_or_type_error (e : exn) : bool :=
  match e with KeyError | TypeError => true | _ => false end.

Definition _is_printing (om : pyval) : M bool :=
  fun p =>
    if in_printing_states (status p) then (Ok true, p)
    else match job_file_has_filename om with
         | Ok b => (Ok b, p)
         | Raise e => if key_or_type_error e then (Ok false, p) else (Raise e, p)
         end.

(** ** [_map_duet_state_to_printer_status] *)

Definition read_printer_state (om : pyval) : result pyval :=
  match rbind (getitem om (PStr "state")) (fun st => getitem st (PStr "status")) with
  | Ok v => Ok v
  | Raise e => if key_or_type_error e then Ok (PStr "disconnected") else Raise e
  end.

Definition select_status_mapping (printing : bool) : list (string * PrinterStatus) :=
  if printing
  then duet_state_simplyprint_status_while_printing_mapping
  else duet_state_simplyprint_status_mapping.

Definition _map_duet_state_to_printer_status (om : pyval) : M unit :=
  printer_state <- lift (read_printer_state om) ;;
  printing <- _is_printing om ;;
  new_status <- lift (table_get (select_status_mapping printing) printer_state OFFLINE) ;;
  modify (set_status new_status).

End Client.

(* ===================================================================== *)
(** * Telemetry: temperatures and job progress                           *)
(* ===================================================================== *)

Module Telemetry.
Import Py Client.

Local Open Scope string_scope.
Local Open Scope eff_scope.

(** [tool_temperatures[idx].field = v], for an index the list has. *)
Fixpoint update_nth {A} (n : nat) (f : A -> A) (l : list A) : list A :=
  match l, n with
  | [], _ => []
  | x :: tl, O => f x :: tl
  | x :: tl, S n' => x :: update_nth n' f tl
  end.

Definition modify_tool (idx : nat) (f : temperature -> temperature) : M unit :=
  modify (fun p => set_tools (update_nth idx f (tool_temperatures p)) p).

Definition modify_bed (f : temperature -> temperature) : M unit :=
  modify (fun p => set_bed (f (bed_temperature p)) p).

(** [heaters[idx]['active'] if heaters[probe]['state'] != 'off' else 0.0]:
    the condition is evaluated first. *)
Definition target_of (heaters idx : pyval) (probe : Z) : result pyval :=
  rbind (getitem heaters (PInt probe)) (fun h =>
  rbind (getitem h (PStr "state")) (fun st =>
  if negb (py_eq st (PStr "off"))
  then rbind (getitem heaters idx) (fun own => getitem own (PStr "active"))
  else Ok (PFloat 0))).

(** One turn of the loop over [enumerate(self.printer.tool_temperatures)]. *)
Definition update_tool (om heaters : pyval) (tool_idx : nat) : M unit :=
  heater_idx <- lift (rbind (getitem om (PStr "tools")) (fun tools =>
                      rbind (getitem tools (PInt (Z.of_nat tool_idx))) (fun tool =>
                      rbind (getitem tool (PStr "heaters")) (fun hs =>
                      getitem hs (PInt 0))))) ;;
  cur <- lift (rbind (getitem heaters heater_idx) (fun h => getitem h (PStr "current"))) ;;
  modify_tool tool_idx (set_actual cur) ;;;
  tgt <- lift (target_of heaters heater_idx 1) ;;
  modify_tool tool_idx (set_target tgt).

Fixpoint update_tools (om heaters : pyval) (tool_idx count : nat) : M unit :=
  match count with
  | O => ret tt
  | S count' =>
      update_tool om heaters tool_idx ;;;
      update_tools om heaters (S tool_idx) count'
  end.

Definition _update_temperatures (om : pyval) : M unit :=
  heaters <- lift (rbind (getitem om (PStr "heat")) (fun heat =>
                   getitem heat (PStr "heaters"))) ;;
  bed_heater_index <- lift (rbind (getitem om (PStr "heat")) (fun heat =>
                            rbind (getitem heat (PStr "bedHeaters")) (fun bh =>
                            getitem bh (PInt 0)))) ;;
  cur <- lift (rbind (getitem heaters bed_heater_index) (fun h =>
               getitem h (PStr "current"))) ;;
  modify_bed (set_actual cur) ;;;
  tgt <- lift (target_of heaters bed_heater_index 0) ;;
  modify_bed (set_target tgt) ;;;
  n <- gets (fun p => List.length (tool_temperatures p)) ;;
  update_tools om heaters 0 n ;;;
  modify (set_ambient (PInt 20)).

Definition is_KeyError (e : exn) : bool :=
  match e with KeyError => true | _ => false end.

(** The handler executed by [_duet_on_objectmodel] on [KeyError]:
    [tool_temperatures[0]] raises [IndexError] on an empty list. *)
Definition reset_actuals : M unit :=
  modify_bed (set_actual (PFloat 0)) ;;;
  ts <- gets tool_temperatures ;;
  match ts with
  | [] => lift (Raise IndexError)
  | _ :: _ => modify_tool 0 (set_actual (PFloat 0))
  end.

(** The temperature step of [_duet_on_objectmodel]. *)
Definition objectmodel_temperature_step (om : pyval) : M unit :=
  try_except (_update_temperatures om) is_KeyError reset_actuals.

(** ** Job progress *)

(** [round(x)] to an integer, halves to the even neighbour. *)
Definition py_round (x : Q) : Z :=
  let f := Qfloor x in
  match ((x - inject_Z f) ?= (1 # 2))%Q with
  | Lt => f
  | Gt => (f + 1)%Z
  | Eq => if Z.even f then f else (f + 1)%Z
  end.

(** [round(x, None)] of a float. *)
Definition py_round_float (x : pyfloat) : result Z :=
  match x with
  | Finite q => Ok (py_round q)
  | Infinity _ => Raise OverflowError
  | NaN => Raise ValueError
  end.

Section JobProgress.

(** [float(s)] for a string: the float it denotes ([float('1e999')] is an
    infinity), or nothing when the text is no number ([ValueError]). *)
Variable float_of_string : string -> option pyfloat.

Definition py_float (v : pyval) : result pyfloat :=
  match v with
  | PBool b => Ok (Finite (if b then 1 else 0))
  | PInt z => int_to_float z
  | PFloat q => Ok (Finite q)
  | PInf n => Ok (Infinity n)
  | PNaN => Ok NaN
  | PStr s => match float_of_string s with
              | Some x => Ok x
              | None => Raise ValueError
              end
  | _ => Raise TypeError
  end.

(** [a / b] for a float [a]: an integer divisor is converted first. *)
Definition py_div (a : pyfloat) (b : number) : result pyfloat :=
  rbind (to_float b) (fdiv a).

Definition progress_caught (e : exn) : bool :=
  match e with
  | TypeError | KeyError | ZeroDivisionError => true
  | _ => false
  end.

Definition _update_job_progress (job_status : pyval) : M unit :=
  try_except
    (total_filament_required <-
       lift (rbind (getitem job_status (PStr "file")) (fun file =>
             rbind (getitem file (PStr "filament")) py_sum)) ;;
     current_filament <-
       lift (rbind (getitem job_status (PStr "rawExtrusion")) py_float) ;;
     ratio <- lift (py_div (fmul current_filament (Finite 100))
                           total_filament_required) ;;
     modify (set_job_progress (fmin_100 ratio)) ;;;
     filament <- lift (py_round_float current_filament) ;;
     modify (set_job_filament filament))
    progress_caught
    (modify (set_job_progress (Finite 0))).

End JobProgress.

End Telemetry.

(* ===================================================================== *)
(** * The command filter ([deferred_gcode])                              *)
(* ===================================================================== *)

Module CommandFilter.
Import Py.

Local Open Scope string_scope.

(** A parsed G-code token: [item.code] and the text [item.compress()]
    sent to the device. *)
Record gcode_item : Type := mk_item {
  code : string;
  compress : string
}.

Definition allowed_commands : list string :=
  [ "M17"; "M18"; "M104"; "M106"; "M107"; "M109"; "M112"; "M140"; "M190";
    "M220"; "M221"; "G1"; "G28"; "G29"; "G90"; "G91" ].

Definition mem (x : string) (l : list string) : bool :=
  existsb (String.eqb x) l.

(** The part of the client the command handler reads and writes:
    the configuration, the commands handed to [self.duet.gcode] (oldest
    first) and the number of self-upgrades started. *)
Record session : Type := mk_session {
  in_setup : bool;
  short_id : string;
  sent : list string;
  upgrades : nat
}.

Definition quote : string := String "034"%char EmptyString.

(** [f'M291 P"Simplyprint.io Code: {short_id}" R"Simplyprint Identification" S2'] *)
Definition identification_prompt (s : session) : string :=
  "M291 P" ++ quote ++ "Simplyprint.io Code: " ++ short_id s ++ quote
  ++ " R" ++ quote ++ "Simplyprint Identification" ++ quote ++ " S2".

(** ['{!s} G-Code blocked'.format(item.code)] *)
Definition blocked_message (item : gcode_item) : string :=
  code item ++ " G-Code blocked".

Section Device.

(** What the device answers to a command, given the commands it was sent
    before: a response text, or an exception of the transport. *)
Variable duet_reply : list string -> string -> result string.

Definition duet_gcode (cmd : string) : eff session string :=
  fun s => (duet_reply (sent s) cmd,
            mk_session (in_setup s) (short_id s) (sent s ++ [cmd]) (upgrades s)).

(** [_perform_self_upgrade]: the upgrade is run, a failure of it is
    logged, and the process is terminated by [KeyboardInterrupt]. *)
Definition _perform_self_upgrade : eff session unit :=
  fun s => (Raise KeyboardInterrupt,
            mk_session (in_setup s) (short_id s) (sent s) (S (upgrades s))).

(** The loop [for item in gcode.code], with the list [response] built so
    far; the list is returned with the outcome to make it observable. *)
Fixpoint process_items (items : list gcode_item) (response : list string)
  (s : session) : result unit * session * list string :=
  match items with
  | [] => (Ok tt, s, response)
  | item :: rest =>
      if mem (code item) allowed_commands && negb (in_setup s) then
        match duet_gcode (compress item) s with
        | (Ok r, s') => process_items rest (response ++ [r]) s'
        | (Raise e, s') => (Raise e, s', response)
        end
      else if String.eqb (code item) "M300" && in_setup s then
        match duet_gcode (identification_prompt s) s with
        | (Ok r, s') => process_items rest (response ++ [r]) s'
        | (Raise e, s') => (Raise e, s', response)
        end
      else if String.eqb (code item) "M997" then
        match _perform_self_upgrade s with
        | (Ok _, s') => process_items rest response s'
        | (Raise e, s') => (Raise e, s', response)
        end
      else
        process_items rest (response ++ [blocked_message item]) s
  end.

Definition deferred_gcode (items : list gcode_item) (s : session)
  : result unit * session * list string :=
  process_items items [] s.

End Device.

(** ** What the filter is meant to do, token by token *)

Definition is_allowed (item : gcode_item) : bool :=
  mem (code item) allowed_commands.


End CommandFilter.

(* ===================================================================== *)
(** * The identity check on connect ([_duet_on_connect])                 *)
(* ===================================================================== *)

Module Identity.
Import Py.

Local Open Scope string_scope.
Local Open Scope eff_scope.

Inductive event : Type :=
| ClientConfigChangedEvent.

(** The configuration and printer fields that connecting reads or
    writes, the events emitted on the event bus (oldest first) and the
    number of error lines logged. *)
Record client : Type := mk_client {
  in_setup : bool;
  duet_unique_id : pyval;
  status : Client.PrinterStatus;
  machine_name : pyval;
  firmware_name : pyval;
  firmware_version : pyval;
  emitted : list event;
  error_log : nat
}.

Definition set_duet_unique_id (v : pyval) (c : client) : client :=
  mk_client (in_setup c) v (status c) (machine_name c) (firmware_name c)
            (firmware_version c) (emitted c) (error_log c).

Definition set_status (v : Client.PrinterStatus) (c : client) : client :=
  mk_client (in_setup c) (duet_unique_id c) v (machine_name c) (firmware_name c)
            (firmware_version c) (emitted c) (error_log c).

Definition set_machine_name (v : pyval) (c : client) : client :=
  mk_client (in_setup c) (duet_unique_id c) (status c) v (firmware_name c)
            (firmware_version c) (emitted c) (error_log c).

Definition set_firmware (n v : pyval) (c : client) : client :=
  mk_client (in_setup c) (duet_unique_id c) (status c) (machine_name c) n
            v (emitted c) (error_log c).

Definition emit (e : event) : eff client unit :=
  modify (fun c => mk_client (in_setup c) (duet_unique_id c) (status c)
                     (machine_name c) (firmware_name c) (firmware_version c)
                     (emitted c ++ [e]) (error_log c)).

Definition log_error : eff client unit :=
  modify (fun c => mk_client (in_setup c) (duet_unique_id c) (status c)
                     (machine_name c) (firmware_name c) (firmware_version c)
                     (emitted c) (S (error_log c))).

Definition _set_duet_unique_id (board : pyval) : eff client unit :=
  uid <- lift (getitem board (PStr "uniqueId")) ;;
  modify (set_duet_unique_id uid).

(** [raise ValueError('Unique ID mismatch')] after forcing the status. *)
Definition _validate_duet_unique_id (board : pyval) : eff client unit :=
  stored <- gets duet_unique_id ;;
  uid <- lift (getitem board (PStr "uniqueId")) ;;
  if negb (py_eq stored uid) then
    (* the message formats board['uniqueId'] once more *)
    _again <- lift (getitem board (PStr "uniqueId")) ;;
    log_error ;;;
    modify (set_status Client.OFFLINE) ;;;
    lift (Raise ValueError)
  else ret tt.

Section Connect.

(** The outcomes of the device dialogue that opens [_duet_on_connect]:
    the setup prompt [M291] while in setup, checking and writing the
    cookie file otherwise. *)
Variable setup_prompt : result unit.
Variable _check_and_set_cookie : result unit.

(** The regular expression of [_set_printer_name]: the model name found in
    a machine name (group 3, dashes replaced, stripped), if it matches. *)
Variable meltingplot_model : string -> option string.

Definition _set_printer_name (network : pyval) : eff client unit :=
  name <- lift (getitem network (PStr "name")) ;;
  match name with
  | PStr n =>
      match meltingplot_model n with
      | Some printer_name =>
          modify (set_machine_name (PStr ("Meltingplot " ++ printer_name)))
      | None =>
          (* AttributeError on the missing match, caught *)
          again <- lift (getitem network (PStr "name")) ;;
          modify (set_machine_name again)
      end
  | _ => lift (Raise TypeError)
  end.

Definition _set_firmware_info (board : pyval) : eff client unit :=
  n <- lift (getitem board (PStr "firmwareName")) ;;
  modify (fun c => set_firmware n (firmware_version c) c) ;;;
  v <- lift (getitem board (PStr "firmwareVersion")) ;;
  modify (fun c => set_firmware (firmware_name c) v c).

Definition _duet_on_connect (om : pyval) : eff client unit :=
  setup <- gets in_setup ;;
  lift (if setup then setup_prompt else _check_and_set_cookie) ;;;
  board <- lift (rbind (getitem om (PStr "boards")) (fun bs => getitem bs (PInt 0))) ;;
  network <- lift (getitem om (PStr "network")) ;;
  stored <- gets duet_unique_id ;;
  (if Client.is_None stored
   then _set_duet_unique_id board ;;; emit ClientConfigChangedEvent
   else _validate_duet_unique_id board) ;;;
  _set_printer_name network ;;;
  _set_firmware_info board.

End Connect.

End Identity.

(* ===================================================================== *)
(** * The file-transfer pipeline                                         *)
(* ===================================================================== *)

Module FileTransfer.
Import Py.

Local Open Scope string_scope.
Local Open Scope Q_scope.

(** The members of [FileProgressStateEnum]. *)
Inductive FileProgressStateEnum : Type :=
| PENDING | STARTED | DOWNLOADING | ERROR | READY.

Definition is_terminal (s : FileProgressStateEnum) : bool :=
  match s with
  | READY | ERROR => true
  | _ => false
  end.

(** What the pipeline does to its collaborators, in order. *)
Inductive action : Type :=
| Upload (attempt : nat)
| Reconnect
| StartPrint
| CloseDuet
| LogException (e : exn).

(** [self.printer.file_progress] with the history of the values assigned
    to [percent] (oldest first), the job file name and the actions. *)
Record transfer : Type := mk_transfer {
  state : FileProgressStateEnum;
  percent : Q;
  percents : list Q;
  job_filename : option string;
  actions : list action
}.

Definition set_state (v : FileProgressStateEnum) (t : transfer) : transfer :=
  mk_transfer v (percent t) (percents t) (job_filename t) (actions t).

Definition set_percent (v : Q) (t : transfer) : transfer :=
  mk_transfer (state t) v (percents t ++ [v]) (job_filename t) (actions t).

Definition set_job_filename (v : string) (t : transfer) : transfer :=
  mk_transfer (state t) (percent t) (percents t) (Some v) (actions t).

Definition act (a : action) (t : transfer) : transfer :=
  mk_transfer (state t) (percent t) (percents t) (job_filename t) (actions t ++ [a]).

(** [lambda x: float(max(0.0, min(50.0, x / 2.0)))] *)
Definition clamp_progress (x : Q) : Q := Qmax 0 (Qmin 50 (x / 2)).

(** [_upload_file_progress]:
    [min(round(50 + max(0, min(50, progress / 2)), 0), 90.0)] *)
Definition upload_percent (progress : Q) : Q :=
  Qmin (inject_Z (Telemetry.py_round (50 + Qmax 0 (Qmin 50 (progress / 2))))) 90.

Definition _upload_file_progress (progress : Q) (t : transfer) : transfer :=
  set_percent (upload_percent progress) t.

(** ** The collaborators of one run *)

Record FileDemandData : Type := mk_demand {
  file_name : string;
  auto_start : bool
}.

(** The download: the progress values the downloader passes through
    [clamp_progress] into [file_progress.percent], then its outcome. *)
Record download_run : Type := mk_download {
  download_progress : list Q;
  download_outcome : result unit
}.

(** One call of [rr_upload_stream]: the values given to the progress
    callback, the outcome of the call, and the outcome of
    [duet.api.reconnect] should it be called afterwards. *)
Record upload_attempt : Type := mk_attempt {
  upload_progress : list Q;
  upload_outcome : result pyval;
  reconnect_outcome : result unit
}.

(** One turn of the readiness loop: the clock read by the loop
    condition, the outcome of [rr_fileinfo], the clock read for the
    progress value. *)
Record poll : Type := mk_poll {
  t_check : Q;
  fileinfo : result pyval;
  t_progress : Q
}.

Record collaborators : Type := mk_collaborators {
  download : download_run;
  uploads : nat -> upload_attempt;
  t_start : Q;
  polls : list poll;
  t_final : Q
}.

(** ** The upload loop *)

Inductive loop_exit : Type :=
| Uploaded      (* [break] *)
| Rejected      (* [return] after setting ERROR *)
| Exhausted.    (* the condition [retries > 0] failed *)

Definition retryable (status : Z) : bool :=
  (status =? 401)%Z || (status =? 500)%Z.

Fixpoint upload_loop (uploads : nat -> upload_attempt) (retries attempt : nat)
  (t : transfer) : result loop_exit * transfer :=
  match retries with
  | O => (Ok Exhausted, t)
  | S retries' =>
      let a := uploads attempt in
      let t1 := fold_left (fun acc x => _upload_file_progress x acc)
                          (upload_progress a) (act (Upload attempt) t) in
      match upload_outcome a with
      | Ok response =>
          match getitem response (PStr "err") with
          | Ok err =>
              if negb (py_eq err (PInt 0))
              then (Ok Rejected, set_state ERROR t1)
              else (Ok Uploaded, t1)
          | Raise e => (Raise e, t1)
          end
      | Raise (ClientResponseError status) =>
          if retryable status then
            match reconnect_outcome a with
            | Ok _ => upload_loop uploads retries' (S attempt) (act Reconnect t1)
            | Raise e => (Raise e, act Reconnect t1)
            end
          else (Raise (ClientResponseError status), t1)
      | Raise e => (Raise e, t1)
      end
  end.

(** ** Waiting for the file and starting the job ([_auto_start_file]) *)

Definition transient (e : exn) : bool :=
  match e with
  | ClientConnectionError | TimeoutError => true
  | _ => false
  end.

(** [min(99.9, 90.0 + (10 - (timeout - now) * 0.025))] *)
Definition waiting_percent (timeout now : Q) : Q :=
  Qmin (999 # 10) (90 + (10 - (timeout - now) * (25 # 1000))).

(** The loop [while timeout > time.time()].  [None]: the recorded clock
    readings end before the loop does. *)
Fixpoint wait_ready (timeout : Q) (ps : list poll) (t_last : Q) (t : transfer)
  : option (result unit * transfer) :=
  match ps with
  | [] => if Qlt_le_dec t_last timeout then None
          else Some (Raise TimeoutError, t)
  | p :: rest =>
      if Qlt_le_dec (t_check p) timeout then
        let continue_ :=
          wait_ready timeout rest t_last
                     (set_percent (waiting_percent timeout (t_progress p)) t) in
        match fileinfo p with
        | Ok response =>
            match getitem response (PStr "err") with
            | Ok err => if py_eq err (PInt 0) then Some (Ok tt, t) else continue_
            | Raise e => Some (Raise e, t)
            end
        | Raise e => if transient e then continue_ else Some (Raise e, t)
        end
      else Some (Raise TimeoutError, t)
  end.

Definition _auto_start_file (event : FileDemandData) (c : collaborators)
  (t : transfer) : option (result unit * transfer) :=
  let t1 := set_job_filename (file_name event) t in
  match wait_ready (t_start c + 400) (polls c) (t_final c) t1 with
  | Some (Ok _, t2) => Some (Ok tt, act StartPrint t2)
  | other => other
  end.

(** ** [_download_file_from_sp_and_upload_to_duet] *)

(** The start of the transfer and the download, up to its outcome. *)
Definition downloaded (c : collaborators) (t : transfer) : transfer :=
  fold_left (fun acc x => set_percent (clamp_progress x) acc)
            (download_progress (download c))
            (set_percent 0 (set_state DOWNLOADING t)).

Definition pipeline_body (event : FileDemandData) (c : collaborators)
  (t : transfer) : option (result unit * transfer) :=
  let t1 := downloaded c t in
  match download_outcome (download c) with
  | Raise e => Some (Raise e, t1)
  | Ok _ =>
      match upload_loop (uploads c) 3 0 t1 with
      | (Raise e, t2) => Some (Raise e, t2)
      | (Ok Rejected, t2) => Some (Ok tt, t2)
      | (Ok _, t2) =>
          let finish t3 := Some (Ok tt, set_state READY (set_percent 100 t3)) in
          if auto_start event then
            match _auto_start_file event c t2 with
            | Some (Ok _, t3) => finish t3
            | other => other
            end
          else finish t2
      end
  end.

(** The decorator [async_supress]. *)
Definition async_supress (body : transfer -> option (result unit * transfer))
  (t : transfer) : option (result unit * transfer) :=
  match body t with
  | Some (Raise CancelledError, t') => Some (Raise CancelledError, act CloseDuet t')
  | Some (Raise e, t') =>
      if is_Exception e then Some (Ok tt, act (LogException e) t')
      else Some (Raise e, t')
  | other => other
  end.

Definition _download_file_from_sp_and_upload_to_duet (event : FileDemandData)
  (c : collaborators) : transfer -> option (result unit * transfer) :=
  async_supress (pipeline_body event c).

(** The state of [file_progress] before any transfer. *)
Definition idle : transfer := mk_transfer PENDING 0 [] None [].

End FileTransfer.

(* ===================================================================== *)
(** * The webcam: frame buffer and distribution task                     *)
(* ===================================================================== *)

Module Webcam.

Section FrameBuffer.

(** A frame is the raw content read from the camera. *)
Variable frame : Type.

(** [asyncio.Queue(maxsize)]: the items, oldest first.  [maxsize <= 0]
    means unbounded. *)
Record queue : Type := mk_queue {
  maxsize : nat;
  items : list frame
}.

Definition qsize (q : queue) : nat := List.length (items q).

Definition full (q : queue) : bool :=
  match maxsize q with
  | O => false
  | S _ => Nat.leb (maxsize q) (qsize q)
  end.

(** [await q.get()]: [None] when the caller has to wait for an item. *)
Definition get (q : queue) : option (frame * queue) :=
  match items q with
  | [] => None
  | x :: tl => Some (x, mk_queue (maxsize q) tl)
  end.

(** [await q.put(x)]: [None] when the caller has to wait for room. *)
Definition put (x : frame) (q : queue) : option queue :=
  if full q then None else Some (mk_queue (maxsize q) (items q ++ [x])).

(** [self._webcam_frame = asyncio.Queue(maxsize=3)] *)
Definition _webcam_frame_init : queue := mk_queue 3 [].

(** The producer, as in [_handle_image_content] and in the loop body of
    [_handle_multipart_content]:
    [if full(): await get()] and then [await put(memoryview(content))]. *)
Definition store_frame (content : frame) (q : queue) : option queue :=
  if full q then
    match get q with
    | Some (_, q') => put content q'
    | None => None
    end
  else put content q.

(** The operations performed on the buffer: the receive task stores a
    frame, [_fetch_webcam_image] takes one. *)
Inductive buffer_op : Type :=
| Store (content : frame)
| Fetch.

(** One operation; [None] when the task performing it is suspended. *)
Definition buffer_step (q : queue) (op : buffer_op) : option queue :=
  match op with
  | Store content => store_frame content q
  | Fetch => match get q with
             | Some (_, q') => Some q'
             | None => None
             end
  end.

(** A run of operations; a consumer that finds the buffer empty waits
    and leaves it unchanged. *)
Fixpoint buffer_run (q : queue) (ops : list buffer_op) : option queue :=
  match ops with
  | [] => Some q
  | op :: rest =>
      match buffer_step q op with
      | Some q' => buffer_run q' rest
      | None =>
          match op with
          | Store _ => None
          | Fetch => buffer_run q rest
          end
      end
  end.

(** The last [n] elements of a list. *)
Definition lastn {A} (n : nat) (l : list A) : list A :=
  skipn (List.length l - n) l.

End FrameBuffer.

(** ** The distribution task *)

Local Open Scope Q_scope.

(** The fields that decide about the distribution task: the stored
    handle, the tasks created by [_webcam_distribution_task] that have not
    finished (the newest first), the next fresh task identity, the end of
    the stream window, the stop flag, whether a camera address is
    configured, and the number of queued snapshot requests. *)
Record webcam : Type := mk_webcam {
  _webcam_distribution_task_handle : option nat;
  running : list nat;
  next_task : nat;
  _webcam_timeout : Q;
  _is_stopped : bool;
  webcam_uri : bool;
  requested : nat
}.

(** [_initialize_webcam], [_initialize_tasks] *)
Definition init (uri : bool) : webcam :=
  mk_webcam None [] 0 0 false uri 0.

(** [await self._webcam_distribution_task()]: the decorator creates the
    task and returns its handle without suspending. *)
Definition spawn_distribution_task (w : webcam) : nat * webcam :=
  (next_task w,
   mk_webcam (_webcam_distribution_task_handle w) (next_task w :: running w)
             (S (next_task w)) (_webcam_timeout w) (_is_stopped w)
             (webcam_uri w) (requested w)).

Definition set_handle (h : option nat) (w : webcam) : webcam :=
  mk_webcam h (running w) (next_task w) (_webcam_timeout w) (_is_stopped w)
            (webcam_uri w) (requested w).

Definition is_none {A} (o : option A) : bool :=
  match o with None => true | Some _ => false end.

(** [on_webcam_snapshot] at clock reading [now]. *)
Definition on_webcam_snapshot (now : Q) (w : webcam) : webcam :=
  let w1 := mk_webcam (_webcam_distribution_task_handle w) (running w)
                      (next_task w) (now + 10) (_is_stopped w)
                      (webcam_uri w) (requested w) in
  let w2 := if is_none (_webcam_distribution_task_handle w1) && webcam_uri w1
            then let (h, w') := spawn_distribution_task w1 in set_handle (Some h) w'
            else w1 in
  mk_webcam (_webcam_distribution_task_handle w2) (running w2) (next_task w2)
            (_webcam_timeout w2) (_is_stopped w2) (webcam_uri w2)
            (S (requested w2)).

Definition remove_task (t : nat) (l : list nat) : list nat :=
  filter (fun x => negb (Nat.eqb x t)) l.

(** The loop condition of the distribution task at clock reading [now]. *)
Definition window_open (now : Q) (w : webcam) : bool :=
  negb (_is_stopped w) && (if Qlt_le_dec now (_webcam_timeout w) then true else false).

(** The steps of the cooperative schedule that touch these fields.
    Between two suspension points a task runs alone. *)
Inductive step : webcam -> webcam -> Prop :=
| step_snapshot now w :
    (* a snapshot demand arrives *)
    step w (on_webcam_snapshot now w)
| step_serve t now w served :
    (* task [t] finds the window open and runs the loop body once:
       it takes a request, or none, from the queue *)
    In t (running w) ->
    window_open now w = true ->
    (served <= 1)%nat ->
    step w (mk_webcam (_webcam_distribution_task_handle w) (running w)
                      (next_task w) (_webcam_timeout w) (_is_stopped w)
                      (webcam_uri w) (requested w - served)%nat)
| step_exit t now w :
    (* task [t] finds the window closed, resets the handle and returns *)
    In t (running w) ->
    window_open now w = false ->
    step w (mk_webcam None (remove_task t (running w))
                      (next_task w) (_webcam_timeout w) (_is_stopped w)
                      (webcam_uri w) (requested w))
| step_cancelled t w :
    (* task [t] is cancelled at a suspension point: it ends without
       reaching the last statement *)
    In t (running w) ->
    step w (mk_webcam (_webcam_distribution_task_handle w)
                      (remove_task t (running w))
                      (next_task w) (_webcam_timeout w) (_is_stopped w)
                      (webcam_uri w) (requested w))
| step_stop w :
    (* [on_remove_connection] and [halt] set the stop flag *)
    step w (mk_webcam (_webcam_distribution_task_handle w) (running w)
                      (next_task w) (_webcam_timeout w) true
                      (webcam_uri w) (requested w))
| step_restart w :
    (* [on_connected] clears the stop flag *)
    step w (mk_webcam (_webcam_distribution_task_handle w) (running w)
                      (next_task w) (_webcam_timeout w) false
                      (webcam_uri w) (requested w)).

Inductive reachable (uri : bool) : webcam -> Prop :=
| reach_init : reachable uri (init uri)
| reach_step w w' : reachable uri w -> step w w' -> reachable uri w'.

End Webcam.

From Stdlib Require Import Permutation.

(* ===================================================================== *)
(** * More Python operators: [.get], truth values and ordering            *)
(* ===================================================================== *)

Module PyMore.
Import Py.

Local Open Scope string_scope.

(** [c.get(k, default)]: a method of dictionaries only. *)
Definition py_get (c : pyval) (k : string) (default : pyval) : result pyval :=
  match c with
  | PDict d => Ok (match dict_get k d with Some v => v | None => default end)
  | _ => Raise AttributeError
  end.

(** The truth value of an object, as [if], [and] and [or] take it. *)
Definition truthy (v : pyval) : bool :=
  match v with
  | PNone => false
  | PBool b => b
  | PInt z => negb (z =? 0)%Z
  | PFloat q => negb (Qeq_bool q 0)
  | PStr s => negb (String.eqb s "")
  | PList l => match l with [] => false | _ :: _ => true end
  | PDict d => match d with [] => false | _ :: _ => true end
  | PInf _ | PNaN => true
  end.

(** [a or b], with [b] evaluated only when [a] is false. *)
Definition py_or (a : pyval) (b : result pyval) : result pyval :=
  if truthy a then Ok a else b.

(** [a < b]: numbers with numbers (an infinity below or above every
    finite number, NaN below nothing and nothing below NaN), strings with
    strings, lists with lists by their first differing elements;
    everything else raises [TypeError]. *)
Fixpoint py_lt (a b : pyval) {struct a} : result bool :=
  match a, b with
  | PStr s, PStr t => Ok (String.ltb s t)
  | PList l1, PList l2 =>
      (fix go (xs ys : list pyval) {struct xs} : result bool :=
         match xs, ys with
         | [], [] => Ok false
         | [], _ :: _ => Ok true
         | _ :: _, [] => Ok false
         | x :: xs', y :: ys' => if py_eq x y then go xs' ys' else py_lt x y
         end) l1 l2
  | PBool _, _ | PInt _, _ | PFloat _, _ =>
      match num_of a, num_of b with
      | Some x, Some y => Ok (if Qlt_le_dec x y then true else false)
      | _, _ =>
          match b with
          | PInf negative => Ok (negb negative)
          | PNaN => Ok false
          | _ => Raise TypeError
          end
      end
  | PInf negative, _ =>
      match b with
      | PInf negative' => Ok (negative && negb negative')
      | PNaN => Ok false
      | _ => match num_of b with
             | Some _ => Ok negative
             | None => Raise TypeError
             end
      end
  | PNaN, _ =>
      match b with
      | PInf _ | PNaN => Ok false
      | _ => match num_of b with
             | Some _ => Ok false
             | None => Raise TypeError
             end
      end
  | _, _ => Raise TypeError
  end.

(** [a > b] *)
Definition py_gt (a b : pyval) : result bool := py_lt b a.

(** The elements a [for] loop takes from an object: the items of a list,
    the keys of a dictionary, the characters of a string. *)
Definition iterate (v : pyval) : result (list pyval) :=
  match v with
  | PList l => Ok l
  | PDict d => Ok (map (fun kv => PStr (fst kv)) d)
  | PStr s => Ok (map (fun c => PStr (String c EmptyString)) (chars s))
  | _ => Raise TypeError
  end.

End PyMore.

(* ===================================================================== *)
(** * The filament sensor ([_update_filament_sensor])                    *)
(* ===================================================================== *)

Module Sensors.
Import Py PyMore.

Local Open Scope string_scope.
Local Open Scope eff_scope.

Inductive FilamentSensorEnum : Type :=
| LOADED | RUNOUT.

(** [self.printer.filament_sensor.state] ([None] before the first
    update) and [self.printer.settings.has_filament_settings]. *)
Record sensor_state : Type := mk_sensor_state {
  filament_sensor : option FilamentSensorEnum;
  has_filament_settings : bool
}.

Definition set_filament_sensor (v : FilamentSensorEnum) (s : sensor_state)
  : sensor_state :=
  mk_sensor_state (Some v) (has_filament_settings s).

Definition set_has_filament_settings (s : sensor_state) : sensor_state :=
  mk_sensor_state (filament_sensor s) true.

Definition is_PAUSED (st : Client.PrinterStatus) : bool :=
  match st with Client.PAUSED => true | _ => false end.

(** How the body of the loop is left. *)
Inductive loop_control : Type :=
| Next
| Break.

(** [calibrated.get(key, 0) < configured.get(key, 0)] *)
Definition below_configured (calibrated configured : pyval) (key : string)
  : result bool :=
  rbind (py_get calibrated key (PInt 0)) (fun a =>
  rbind (py_get configured key (PInt 0)) (fun b =>
  py_lt a b)).

(** The body of the loop over the filament monitors. *)
Definition check_monitor (status : Client.PrinterStatus) (monitor : pyval)
  : eff sensor_state loop_control :=
  enabled <- lift (rbind (py_get monitor "enableMode" (PInt 0))
                         (fun mode => py_gt mode (PInt 0))) ;;
  if enabled then
    modify set_has_filament_settings ;;;
    monitor_status <- lift (py_get monitor "status" PNone) ;;
    if py_eq monitor_status (PStr "ok") then
      modify (set_filament_sensor LOADED) ;;;
      calibrated <- lift (py_get monitor "calibrated" PNone) ;;
      configured <- lift (py_get monitor "configured" (PDict [])) ;;
      if truthy calibrated && is_PAUSED status then
        low <- lift (below_configured calibrated configured "percentMin") ;;
        if low then
          modify (set_filament_sensor RUNOUT) ;;; ret Break
        else
          high <- lift (below_configured calibrated configured "percentMax") ;;
          if high then
            modify (set_filament_sensor RUNOUT) ;;; ret Break
          else ret Next
      else ret Next
    else
      modify (set_filament_sensor RUNOUT) ;;; ret Break
  else ret Next.

Fixpoint check_monitors (status : Client.PrinterStatus) (monitors : list pyval)
  : eff sensor_state unit :=
  match monitors with
  | [] => ret tt
  | monitor :: rest =>
      control <- check_monitor status monitor ;;
      match control with
      | Break => ret tt
      | Next => check_monitors status rest
      end
  end.

Definition _update_filament_sensor (status : Client.PrinterStatus) (om : pyval)
  : eff sensor_state unit :=
  filament_monitors <-
    lift (rbind (py_get om "sensors" (PDict [])) (fun sensors =>
          py_get sensors "filamentMonitors" (PList []))) ;;
  monitors <- lift (iterate filament_monitors) ;;
  check_monitors status monitors.

End Sensors.

(* ===================================================================== *)
(** * The job information                                                *)
(* ===================================================================== *)

Module Jobs.
Import Py PyMore.

Local Open Scope string_scope.
Local Open Scope eff_scope.

(** The fields of [self.printer.job_info] kept beside the printer; the
    progress and the filament length are fields of [Client.printer]. *)
Record job_info : Type := mk_job_info {
  cancelled : bool;
  finished : bool;
  started : bool;
  time : pyval;
  filename : pyval;
  layer : pyval
}.

Record tracked : Type := mk_tracked {
  printer : Client.printer;
  job : job_info
}.

Definition set_printer (p : Client.printer) (s : tracked) : tracked :=
  mk_tracked p (job s).

Definition set_job (j : job_info) (s : tracked) : tracked :=
  mk_tracked (printer s) j.

Definition set_cancelled (j : job_info) : job_info :=
  mk_job_info true (finished j) (started j) (time j) (filename j) (layer j).

Definition set_finished (j : job_info) : job_info :=
  mk_job_info (cancelled j) true (started j) (time j) (filename j) (layer j).

Definition set_started (j : job_info) : job_info :=
  mk_job_info (cancelled j) (finished j) true (time j) (filename j) (layer j).

Definition set_time (v : pyval) (j : job_info) : job_info :=
  mk_job_info (cancelled j) (finished j) (started j) v (filename j) (layer j).

Definition set_filename (v : pyval) (j : job_info) : job_info :=
  mk_job_info (cancelled j) (finished j) (started j) (time j) v (layer j).

Definition set_layer (v : pyval) (j : job_info) : job_info :=
  mk_job_info (cancelled j) (finished j) (started j) (time j) (filename j) v.

(** A method written on the printer alone, run on the whole state. *)
Definition on_printer {A} (m : eff Client.printer A) : eff tracked A :=
  fun s => let (r, p) := m (printer s) in (r, set_printer p s).

Definition modify_job (f : job_info -> job_info) : eff tracked unit :=
  modify (fun s => set_job (f (job s)) s).

Definition is_status (a b : Client.PrinterStatus) : bool :=
  match a, b with
  | Client.OFFLINE, Client.OFFLINE | Client.NOT_READY, Client.NOT_READY
  | Client.ERROR, Client.ERROR | Client.PAUSING, Client.PAUSING
  | Client.PAUSED, Client.PAUSED | Client.RESUMING, Client.RESUMING
  | Client.CANCELLING, Client.CANCELLING | Client.PRINTING, Client.PRINTING
  | Client.OPERATIONAL, Client.OPERATIONAL => true
  | _, _ => false
  end.

Definition _mark_job_as_finished : eff tracked unit :=
  modify_job set_finished ;;;
  on_printer (modify (Client.set_job_progress 100)).

Definition _update_printer_status (om : pyval) : eff tracked unit :=
  old_printer_state <- gets (fun s => Client.status (printer s)) ;;
  on_printer (Client._map_duet_state_to_printer_status om) ;;;
  new_status <- gets (fun s => Client.status (printer s)) ;;
  if is_status new_status Client.CANCELLING
     && is_status old_printer_state Client.PRINTING then
    modify_job set_cancelled
  else if is_status new_status Client.OPERATIONAL then
    job_started <- gets (fun s => started (job s)) ;;
    if job_started || is_status old_printer_state Client.PRINTING then
      _mark_job_as_finished
    else ret tt
  else ret tt.

(** [_update_times_left]:
    [times_left.get('filament') or times_left.get('slicer')
     or times_left.get('file') or 0] *)
Definition _update_times_left (times_left : pyval) : eff tracked unit :=
  v <- lift (rbind (py_get times_left "filament" PNone) (fun a =>
             py_or a (rbind (py_get times_left "slicer" PNone) (fun b =>
             py_or b (rbind (py_get times_left "file" PNone) (fun c =>
             py_or c (Ok (PInt 0)))))))) ;;
  modify_job (set_time v).

Definition type_or_key_error (e : exn) : bool :=
  match e with TypeError | KeyError => true | _ => false end.

Definition _update_job_times_left (job_status : pyval) : eff tracked unit :=
  try_except
    (times_left <- lift (getitem job_status (PStr "timesLeft")) ;;
     _update_times_left times_left)
    type_or_key_error
    (modify_job (set_time (PInt 0))).

Section Paths.

(** [pathlib.PurePath(path).name]: the last component of a path. *)
Variable path_name : string -> string.

Definition _update_job_filename (job_status : pyval) : eff tracked unit :=
  try_except
    (filepath <- lift (rbind (getitem job_status (PStr "file")) (fun file =>
                       getitem file (PStr "fileName"))) ;;
     name <- lift (match filepath with
                   | PStr path => Ok (PStr (path_name path))
                   | _ => Raise TypeError
                   end) ;;
     modify_job (set_filename name) ;;;
     early <- lift (rbind (py_get job_status "duration" (PInt 0)) (fun d =>
                    py_lt d (PInt 10))) ;;
     if early then modify_job set_started else ret tt)
    type_or_key_error
    (ret tt).

Definition _update_job_layer (job_status : pyval) : eff tracked unit :=
  v <- lift (py_get job_status "layer" (PInt 0)) ;;
  modify_job (set_layer v).

(** [float(s)] for a string, as in the progress update. *)
Variable float_of_string : string -> option pyfloat.

Definition _update_job_info (om : pyval) : eff tracked unit :=
  job_status <- lift (py_get om "job" (PDict [])) ;;
  on_printer (Telemetry._update_job_progress float_of_string job_status) ;;;
  _update_job_times_left job_status ;;;
  _update_job_filename job_status ;;;
  _update_job_layer job_status.

End Paths.

End Jobs.

(* ===================================================================== *)
(** * The object-model handler ([_duet_on_objectmodel])                  *)
(* ===================================================================== *)

Module ObjectModel.
Import Py PyMore.

Local Open Scope string_scope.
Local Open Scope eff_scope.

(** What the handler reads and writes: the printer with its job, the
    filament sensor, and the mesh checks started as background tasks (each
    with the object model it was given as [old_om]). *)
Record session : Type := mk_session {
  tracked : Jobs.tracked;
  sensors : Sensors.sensor_state;
  mesh_checks : list pyval
}.

Definition on_tracked {A} (m : eff Jobs.tracked A) : eff session A :=
  fun s => let (r, t) := m (tracked s) in (r, mk_session t (sensors s) (mesh_checks s)).

Definition on_sensors {A} (m : eff Sensors.sensor_state A) : eff session A :=
  fun s => let (r, f) := m (sensors s) in (r, mk_session (tracked s) f (mesh_checks s)).

(** [_mesh_compensation_status] is wrapped by [async_task]: the call
    creates the task and returns; the body runs later. *)
Definition _mesh_compensation_status (old_om : pyval) : eff session unit :=
  modify (fun s => mk_session (tracked s) (sensors s) (mesh_checks s ++ [old_om])).

Section Handler.

Variable path_name : string -> string.
Variable float_of_string : string -> option pyfloat.

Definition _duet_on_objectmodel (old_om om : pyval) : eff session unit :=
  on_tracked (Jobs._update_printer_status om) ;;;
  status <- gets (fun s => Client.status (Jobs.printer (tracked s))) ;;
  on_sensors (Sensors._update_filament_sensor status om) ;;;
  _mesh_compensation_status old_om ;;;
  on_tracked (Jobs.on_printer (Telemetry.objectmodel_temperature_step om)) ;;;
  printing <- on_tracked (Jobs.on_printer (Client._is_printing om)) ;;
  if printing
  then on_tracked (Jobs._update_job_info path_name float_of_string om)
  else ret tt.

End Handler.

End ObjectModel.

(* ===================================================================== *)
(** * The printer task ([_duet_printer_task], [_ensure_duet_connection]) *)
(* ===================================================================== *)

Module Watchdog.
Import Py.

Local Open Scope eff_scope.
Local Open Scope Q_scope.

(** What the task does to the device and the session, in order. *)
Inductive call : Type :=
| SetOffline
| Close
| Connect
| Tick
| Sleep (seconds : Q)
| LogException (e : exn).

Record watch : Type := mk_watch {
  _printer_timeout : Q;
  calls : list call
}.

(** What one turn of the loop meets: the value of [_is_stopped] at the
    loop test, the two readings of [time.time()], the answer of
    [duet.connected()] and the outcome of every awaited call.
    [asyncio.TimeoutError] is the builtin [TimeoutError]. *)
Record turn : Type := mk_turn {
  stopped : bool;
  now : Q;
  close_outcome : result unit;
  connected : bool;
  connect_outcome : result unit;
  close_after_failure : result unit;
  sleep_after_failure : result unit;
  tick_outcome : result unit;
  now_after_tick : Q;
  pause_outcome : result unit;
  close_on_cancel : result unit;
  sleep_after_exception : result unit
}.

Definition record_call (c : call) : eff watch unit :=
  modify (fun s => mk_watch (_printer_timeout s) (calls s ++ [c])).

Definition set_printer_timeout (q : Q) : eff watch unit :=
  modify (fun s => mk_watch q (calls s)).

(** An awaited call: it is made, and returns or raises. *)
Definition await (c : call) (outcome : result unit) : eff watch unit :=
  record_call c ;;; lift outcome.

Definition connection_errors (e : exn) : bool :=
  match e with
  | ClientConnectionError | ClientResponseError _ | TimeoutError => true
  | _ => false
  end.

Definition _ensure_duet_connection (t : turn) : eff watch unit :=
  try_except
    (if negb (connected t) then await Connect (connect_outcome t) else ret tt)
    connection_errors
    (await Close (close_after_failure t) ;;;
     await (Sleep 30) (sleep_after_failure t) ;;;
     lift (Raise TimeoutError)).

(** The [try] block of the loop. *)
Definition tick_device (t : turn) : eff watch unit :=
  timeout <- gets _printer_timeout ;;
  (if Qlt_le_dec timeout (now t)
   then record_call SetOffline ;;; await Close (close_outcome t)
   else ret tt) ;;;
  _ensure_duet_connection t ;;;
  await Tick (tick_outcome t) ;;;
  set_printer_timeout (now_after_tick t + 60 * 5) ;;;
  await (Sleep (1 # 2)) (pause_outcome t).

(** One turn of the loop, with its three [except] clauses in order. *)
Definition printer_task_turn (t : turn) : eff watch unit :=
  fun s =>
    match tick_device t s with
    | (Ok a, s') => (Ok a, s')
    | (Raise e, s') =>
        match e with
        | TimeoutError => (Ok tt, s')
        | CancelledError =>
            (await Close (close_on_cancel t) ;;; lift (Raise CancelledError)) s'
        | _ =>
            if is_Exception e
            then (record_call (LogException e) ;;;
                  await (Sleep 10) (sleep_after_exception t)) s'
            else (Raise e, s')
        end
    end.

(** [while not self._is_stopped: ...] over the turns the task gets. *)
Fixpoint _duet_printer_task (turns : list turn) : eff watch unit :=
  match turns with
  | [] => ret tt
  | t :: rest =>
      if stopped t then ret tt
      else printer_task_turn t ;;; _duet_printer_task rest
  end.

End Watchdog.

(* ===================================================================== *)
(** * The distribution loop ([_webcam_distribution_task])                *)
(* ===================================================================== *)

Module Distribution.
Import Py.

Local Open Scope eff_scope.

Record WebcamSnapshotRequest : Type := mk_request {
  snapshot_id : option string;
  endpoint : option string
}.

Section Loop.

(** The raw content read from the camera and the encoded JPEG image. *)
Variable frame : Type.
Variable image : Type.

(** [iio.imread] followed by [iio.imwrite]. *)
Variable reencode : frame -> result image.

(** What leaves the client: a snapshot posted for a request, or a
    [StreamMsg] with the image. *)
Inductive delivery : Type :=
| PostSnapshot (img : option image) (request : WebcamSnapshotRequest)
| Stream (img : image).

Record cam : Type := mk_cam {
  _requested_webcam_snapshots : list WebcamSnapshotRequest;
  _webcam_frame : Webcam.queue frame;
  deliveries : list delivery;
  logged : list exn
}.

(** What one turn of the loop meets: the value of the loop test, the
    outcome of waiting for a frame when the buffer is empty
    ([TimeoutError] after 60 s), the answer of
    [intervals.is_ready('webcam')] and the outcome of every other awaited
    call. *)
Record turn : Type := mk_turn {
  loop_test : bool;
  waiting : result frame;
  is_ready : bool;
  post_outcome : result unit;
  limiter_outcome : result unit;
  send_outcome : result unit;
  wait_for_outcome : result unit;
  idle_outcome : result unit;
  sleep_after_exception : result unit
}.

Definition set_requests (l : list WebcamSnapshotRequest) (s : cam) : cam :=
  mk_cam l (_webcam_frame s) (deliveries s) (logged s).

Definition set_frames (q : Webcam.queue frame) (s : cam) : cam :=
  mk_cam (_requested_webcam_snapshots s) q (deliveries s) (logged s).

Definition deliver (d : delivery) : eff cam unit :=
  modify (fun s => mk_cam (_requested_webcam_snapshots s) (_webcam_frame s)
                          (deliveries s ++ [d]) (logged s)).

Definition log_exception (e : exn) : eff cam unit :=
  modify (fun s => mk_cam (_requested_webcam_snapshots s) (_webcam_frame s)
                          (deliveries s) (logged s ++ [e])).

(** [await asyncio.wait_for(self._webcam_frame.get(), timeout=60)] *)
Definition next_frame (t : turn) : eff cam frame :=
  fun s => match Webcam.get (_webcam_frame s) with
           | Some (raw_data, q) => (Ok raw_data, set_frames q s)
           | None => (waiting t, s)
           end.

Definition is_TimeoutError (e : exn) : bool :=
  match e with TimeoutError => true | _ => false end.

Definition _fetch_webcam_image (t : turn) : eff cam (option image) :=
  raw <- try_except (raw_data <- next_frame t ;; ret (Some raw_data))
                    is_TimeoutError (ret None) ;;
  match raw with
  | None => ret None
  | Some raw_data => jpg_encoded <- lift (reencode raw_data) ;; ret (Some jpg_encoded)
  end.

(** [base64.b64encode(None)] raises [TypeError]. *)
Definition _send_webcam_snapshot (t : turn) (img : option image) : eff cam unit :=
  match img with
  | None => lift (Raise TypeError)
  | Some jpg_encoded =>
      lift (limiter_outcome t) ;;;
      deliver (Stream jpg_encoded) ;;;
      lift (send_outcome t)
  end.

Definition _send_webcam_snapshot_to_endpoint (t : turn) (img : option image)
  (request : WebcamSnapshotRequest) : eff cam unit :=
  deliver (PostSnapshot img request) ;;;
  lift (post_outcome t).

(** The [try] block of the loop. *)
Definition distribute (t : turn) : eff cam unit :=
  pending <- gets _requested_webcam_snapshots ;;
  match pending with
  | request :: rest =>
      modify (set_requests rest) ;;;
      match snapshot_id request with
      | Some _ =>
          img <- _fetch_webcam_image t ;;
          _send_webcam_snapshot_to_endpoint t img request
      | None =>
          if is_ready t then
            img <- _fetch_webcam_image t ;;
            _send_webcam_snapshot t img
          else
            modify (fun s => set_requests (_requested_webcam_snapshots s ++ [request]) s) ;;;
            lift (wait_for_outcome t)
      end
  | [] => lift (idle_outcome t)
  end.

(** One turn of the loop: [except Exception] logs and pauses 10 s. *)
Definition distribution_turn (t : turn) : eff cam unit :=
  fun s =>
    match distribute t s with
    | (Ok a, s') => (Ok a, s')
    | (Raise e, s') =>
        if is_Exception e
        then (log_exception e ;;; lift (sleep_after_exception t)) s'
        else (Raise e, s')
    end.

(** [while not self._is_stopped and time.time() < self._webcam_timeout]
    over the turns the task gets. *)
Fixpoint distribution_loop (turns : list turn) : eff cam unit :=
  match turns with
  | [] => ret tt
  | t :: rest =>
      if loop_test t
      then distribution_turn t ;;; distribution_loop rest
      else ret tt
  end.

End Loop.

End Distribution.

(* ===================================================================== *)
(** * The properties stated about the model                              *)
(* ===================================================================== *)

Module Properties.
Import Py.

Local Open Scope string_scope.

(** The object model reports a job file name that is not null:
    [om['job']['file']] is a dictionary with a key ['filename'] whose
    value is not [None]. *)
Definition reports_job_filename (om : pyval) : Prop :=
  exists job file v,
    getitem om (PStr "job") = Ok job /\
    getitem job (PStr "file") = Ok (PDict file) /\
    dict_get "filename" file = Some v /\
    v <> PNone.

(** ** Object models used as concrete inputs *)

Definition heater (current active : pyval) (state : string) : pyval :=
  PDict [("current", current); ("active", active); ("state", PStr state)].

(** A machine whose heater 0 is the nozzle (heating to 210) and whose
    heater 1 is the bed (set to 60 but switched off). *)
Definition nozzle_first_om : pyval :=
  PDict [("heat", PDict [("heaters", PList [heater (PFloat (2053 # 10)) (PInt 210) "active";
                                            heater (PInt 24) (PInt 60) "off"]);
                         ("bedHeaters", PList [PInt 1])]);
         ("tools", PList [PDict [("heaters", PList [PInt 0])]])].

(** A machine with a bed heater and a second heater but no tool defined. *)
Definition no_tool_om : pyval :=
  PDict [("heat", PDict [("heaters", PList [heater (PInt 24) (PInt 0) "off";
                                            heater (PInt 22) (PInt 0) "off"]);
                         ("bedHeaters", PList [PInt 0])]);
         ("tools", PList [])].

(** A machine that reports no record for heater 0 ([null]) and a nozzle
    as heater 1. *)
Definition null_heater_om : pyval :=
  PDict [("heat", PDict [("heaters", PList [PNone;
                                            heater (PInt 22) (PInt 0) "off"]);
                         ("bedHeaters", PList [PInt 0])]);
         ("tools", PList [PDict [("heaters", PList [PInt 1])]])].

(** A session with one tool whose last reported temperatures are kept. *)
Definition one_tool_printer : Client.printer :=
  Client.mk_printer Client.OPERATIONAL
    (Client.mk_temperature (PFloat 55) (PFloat 60))
    [Client.mk_temperature (PFloat 200) (PFloat 210)]
    (PInt 20) 0 0.





(** ** The command filter *)

Definition is_M300 (item : CommandFilter.gcode_item) : bool :=
  String.eqb (CommandFilter.code item) "M300".



(** A batch with two tokens on the allow-list around one that is not. *)
Definition mixed_batch : list CommandFilter.gcode_item :=
  [ CommandFilter.mk_item "G28" "G28 X Y";
    CommandFilter.mk_item "M999" "M999";
    CommandFilter.mk_item "G1" "G1 X10" ].

Definition paired_session : CommandFilter.session :=
  CommandFilter.mk_session false "A1B2" [] 0.

(** A batch whose first token is the self-upgrade code. *)
Definition upgrade_first_batch : list CommandFilter.gcode_item :=
  [ CommandFilter.mk_item "M997" "M997";
    CommandFilter.mk_item "G1" "G1 X10" ].

(** A device that acknowledges every command. *)
Definition acknowledging : list string -> string -> result string :=
  fun _ _ => Ok "ok".

(** ** Connecting *)

(** The object model of a board that reports the unique id [uid]. *)
Definition board_om (uid : string) : pyval :=
  PDict [("boards", PList [PDict [("uniqueId", PStr uid);
                                  ("firmwareName", PStr "RepRapFirmware");
                                  ("firmwareVersion", PStr "3.5.1")]]);
         ("network", PDict [("name", PStr "duet-one")])].

(** A configured client whose stored unique id is [stored]. *)
Definition client_with_id (stored : pyval) : Identity.client :=
  Identity.mk_client false stored Client.OPERATIONAL PNone PNone PNone [] 0.

(** ** The webcam *)

(** The frame buffer as the receive task keeps it: created with room
    for three frames and never holding more. *)
Definition bounded {frame : Type} (q : Webcam.queue frame) : Prop :=
  Webcam.maxsize q = 3%nat /\ (Webcam.qsize q <= 3)%nat.

(** Either no distribution task is running, or exactly one is and the
    stored handle is that task. *)
Definition single_task (w : Webcam.webcam) : Prop :=
  Webcam.running w = [] \/
  exists t, Webcam.running w = [t] /\
            Webcam._webcam_distribution_task_handle w = Some t.

(** ** The file transfer *)

(** The values handed to the progress callback by the upload attempts
    [attempt], [attempt + 1], ... ([retries] of them), in order. *)
Fixpoint scripted_progress (uploads : nat -> FileTransfer.upload_attempt)
  (retries attempt : nat) : list Q :=
  match retries with
  | O => []
  | S retries' =>
      FileTransfer.upload_progress (uploads attempt)
      ++ scripted_progress uploads retries' (S attempt)
  end.

(** The body of the pipeline returns: nothing is raised inside it. *)
Definition body_returns (event : FileTransfer.FileDemandData)
  (c : FileTransfer.collaborators) (t0 : FileTransfer.transfer) : Prop :=
  exists t, FileTransfer.pipeline_body event c t0 = Some (Ok tt, t).

(** How the upload loop of a run is left, once the download is done. *)
Definition upload_exit (c : FileTransfer.collaborators)
  (t0 : FileTransfer.transfer) : result FileTransfer.loop_exit :=
  fst (FileTransfer.upload_loop (FileTransfer.uploads c) 3 0
         (FileTransfer.downloaded c t0)).

(** The device answers one of the three uploads with an error code that
    is not zero. *)
Definition device_rejects (c : FileTransfer.collaborators) : Prop :=
  exists k response err,
    (k < 3)%nat /\
    FileTransfer.upload_outcome (FileTransfer.uploads c k) = Ok response /\
    getitem response (PStr "err") = Ok err /\
    py_eq err (PInt 0) = false.

(** An upload refused with status 401 or 500, the reconnect that follows
    having returned: the loop goes on with the next attempt. *)
Definition refused_and_reconnected (a : FileTransfer.upload_attempt) : Prop :=
  exists status,
    FileTransfer.upload_outcome a = Raise (ClientResponseError status) /\
    (status = 401 \/ status = 500)%Z /\
    FileTransfer.reconnect_outcome a = Ok tt.

(** The device answers the upload of attempt [k], one of the three, all
    attempts before it having been refused and retried. *)
Definition answered (c : FileTransfer.collaborators) (k : nat) (response : pyval)
  : Prop :=
  (k < 3)%nat /\
  (forall j, (j < k)%nat -> refused_and_reconnected (FileTransfer.uploads c j)) /\
  FileTransfer.upload_outcome (FileTransfer.uploads c k) = Ok response.

(** The device-rejection path: the download succeeds and the device
    answers an upload with an error code that is not zero. *)
Definition device_rejection_path (c : FileTransfer.collaborators) : Prop :=
  FileTransfer.download_outcome (FileTransfer.download c) = Ok tt /\
  exists k response err,
    answered c k response /\
    getitem response (PStr "err") = Ok err /\
    py_eq err (PInt 0) = false.

(** A poll of the file after which the wait goes on: made before the
    deadline, and failed by a connection error or a timeout, or answered
    with an error code that is not zero. *)
Definition poll_goes_on (deadline : Q) (p : FileTransfer.poll) : Prop :=
  (FileTransfer.t_check p < deadline)%Q /\
  ((exists e, FileTransfer.fileinfo p = Raise e /\
              (e = ClientConnectionError \/ e = TimeoutError)) \/
   (exists response err,
      FileTransfer.fileinfo p = Ok response /\
      getitem response (PStr "err") = Ok err /\
      py_eq err (PInt 0) = false)).

(** The device reports the file ready at a poll made before the deadline
    of 400 seconds. *)
Definition file_becomes_ready (c : FileTransfer.collaborators) : Prop :=
  exists before p after response err,
    FileTransfer.polls c = (before ++ p :: after)%list /\
    Forall (poll_goes_on (FileTransfer.t_start c + 400)) before /\
    (FileTransfer.t_check p < FileTransfer.t_start c + 400)%Q /\
    FileTransfer.fileinfo p = Ok response /\
    getitem response (PStr "err") = Ok err /\
    py_eq err (PInt 0) = true.

(** A success path: the download succeeds, the device answers an upload
    with the error code zero and, when the demand asks for the print to be
    started, reports the file ready in time. *)
Definition success_path (event : FileTransfer.FileDemandData)
  (c : FileTransfer.collaborators) : Prop :=
  FileTransfer.download_outcome (FileTransfer.download c) = Ok tt /\
  (exists k response err,
     answered c k response /\
     getitem response (PStr "err") = Ok err /\
     py_eq err (PInt 0) = true) /\
  (FileTransfer.auto_start event = true -> file_becomes_ready c).

Definition is_upload (a : FileTransfer.action) : bool :=
  match a with FileTransfer.Upload _ => true | _ => false end.

(** A non-decreasing list of values between [lo] and [hi]. *)
Definition banded (lo hi : Q) (l : list Q) : Prop :=
  StronglySorted Qle l /\ Forall (fun x => (lo <= x <= hi)%Q) l.

(** Collaborators for concrete runs: a download reporting 0, 50 and 100
    percent, and an upload that reports 0, 50 and 100 percent. *)
Definition steady_download : FileTransfer.download_run :=
  FileTransfer.mk_download [0; 50; 100]%Q (Ok tt).

Definition accepted : FileTransfer.upload_attempt :=
  FileTransfer.mk_attempt [0; 50; 100]%Q (Ok (PDict [("err", PInt 0)])) (Ok tt).

Definition silent (outcome : result pyval) : FileTransfer.upload_attempt :=
  FileTransfer.mk_attempt [] outcome (Ok tt).

Definition failing (status : Z) : FileTransfer.upload_attempt :=
  FileTransfer.mk_attempt [0; 50]%Q (Raise (ClientResponseError status)) (Ok tt).

(** The first upload succeeds. *)
Definition smooth_run : FileTransfer.collaborators :=
  FileTransfer.mk_collaborators steady_download
    (fun k => match k with O => accepted | _ => silent (Raise TimeoutError) end)
    1000 [] 1400.

(** The device refuses the upload with [err = 1]. *)
Definition rejected_run : FileTransfer.collaborators :=
  FileTransfer.mk_collaborators steady_download
    (fun _ => FileTransfer.mk_attempt [0; 50]%Q (Ok (PDict [("err", PInt 1)])) (Ok tt))
    1000 [] 1400.

(** Every upload fails with status 401. *)
Definition unauthorized_run : FileTransfer.collaborators :=
  FileTransfer.mk_collaborators steady_download (fun _ => failing 401) 1000 [] 1400.

(** The first upload fails with status 404. *)
Definition not_found_run : FileTransfer.collaborators :=
  FileTransfer.mk_collaborators steady_download (fun _ => failing 404) 1000 [] 1400.

(** The first upload fails with 401 half way, the second with 404. *)
Definition retried_then_refused_run : FileTransfer.collaborators :=
  FileTransfer.mk_collaborators steady_download
    (fun k => match k with O => failing 401 | _ => failing 404 end)
    1000 [] 1400.

(** The first upload fails with 401 half way, the second succeeds. *)
Definition retried_run : FileTransfer.collaborators :=
  FileTransfer.mk_collaborators steady_download
    (fun k => match k with O => failing 401 | _ => accepted end)
    1000 [] 1400.

(** The file is ready at the third poll, 20 seconds after the upload. *)
Definition polled_run : FileTransfer.collaborators :=
  FileTransfer.mk_collaborators steady_download
    (fun k => match k with O => accepted | _ => silent (Raise TimeoutError) end)
    1000
    [ FileTransfer.mk_poll 1000 (Raise TimeoutError) 1010;
      FileTransfer.mk_poll 1011 (Ok (PDict [("err", PInt 1)])) 1011;
      FileTransfer.mk_poll 1020 (Ok (PDict [("err", PInt 0)])) 1020 ]
    1400.

(** What a run leaves behind, with the fractions reduced. *)
Definition summary (run : option (result unit * FileTransfer.transfer))
  : option (result unit * FileTransfer.FileProgressStateEnum * Q * list Q
            * list FileTransfer.action) :=
  match run with
  | Some (r, t) =>
      Some (r, FileTransfer.state t, Qred (FileTransfer.percent t),
            map Qred (FileTransfer.percents t), FileTransfer.actions t)
  | None => None
  end.

Definition plain_demand : FileTransfer.FileDemandData :=
  FileTransfer.mk_demand "part.gcode" false.

Definition auto_start_demand : FileTransfer.FileDemandData :=
  FileTransfer.mk_demand "part.gcode" true.

End Properties.

(* ===================================================================== *)
(** * Further properties stated about the model                          *)
(* ===================================================================== *)

Module Shapes.
Import Py.

Local Open Scope string_scope.

(** The calls an upload loop can make from attempt [k] on with [r]
    attempts left: an upload, a reconnect, the next upload, ... *)
Definition alternating (k r : nat) : list FileTransfer.action :=
  flat_map (fun i => [FileTransfer.Upload i; FileTransfer.Reconnect]) (seq k r).

(** ** Filament monitors as the firmware reports them *)

(** A monitor: its enable mode, its status text, the calibrated minimum
    and maximum percentages (absent before calibration) and the
    configured ones. *)
Record monitor : Type := mk_monitor {
  enable_mode : Z;
  status_text : string;
  calibrated : option (Q * Q);
  configured : Q * Q
}.

Definition percentages (lo hi : Q) : pyval :=
  PDict [("percentMin", PFloat lo); ("percentMax", PFloat hi)].

Definition monitor_om (m : monitor) : pyval :=
  PDict [("enableMode", PInt (enable_mode m));
         ("status", PStr (status_text m));
         ("calibrated", match calibrated m with
                        | Some (lo, hi) => percentages lo hi
                        | None => PNone
                        end);
         ("configured", percentages (fst (configured m)) (snd (configured m)))].

Definition monitors_om (ms : list monitor) : pyval :=
  PDict [("sensors", PDict [("filamentMonitors", PList (map monitor_om ms))])].

Definition Qltb (x y : Q) : bool := if Qlt_le_dec x y then true else false.

Definition enabled (m : monitor) : bool := (0 <? enable_mode m)%Z.

(** The calibrated minimum or maximum lies below the configured one. *)
Definition drifted (m : monitor) : bool :=
  match calibrated m with
  | Some (lo, hi) => Qltb lo (fst (configured m)) || Qltb hi (snd (configured m))
  | None => false
  end.

(** An enabled monitor reports a run-out when its status is not ["ok"],
    or when the printer is paused and its calibration has drifted. *)
Definition runs_out (status : Client.PrinterStatus) (m : monitor) : bool :=
  enabled m &&
  (negb (String.eqb (status_text m) "ok") || (Sensors.is_PAUSED status && drifted m)).

(** ** The job information *)

(** The value under a key of a dictionary, [None] when the key is absent. *)
Definition entry (k : string) (d : list (string * pyval)) : pyval :=
  match dict_get k d with Some v => v | None => PNone end.

(** The first value of a list that counts as true, 0 when there is none. *)
Definition first_truthy (vs : list pyval) : pyval :=
  match find PyMore.truthy vs with Some v => v | None => PInt 0 end.

(** An object model that reports a machine state and nothing else. *)
Definition status_om (state : string) : pyval :=
  PDict [("state", PDict [("status", PStr state)])].

(** A started job on a paused printer. *)
Definition paused_job : Jobs.tracked :=
  Jobs.mk_tracked
    (Client.mk_printer Client.PAUSED
       (Client.mk_temperature (PFloat 55) (PFloat 60))
       [Client.mk_temperature (PFloat 200) (PFloat 210)]
       (PInt 20) 40 0)
    (Jobs.mk_job_info false false true (PInt 600) (PStr "part.gcode") (PInt 12)).

(** What an update of the job information leaves alone: the status, the
    cancelled and finished marks, and a started mark once it is set. *)
Definition keeps (s s' : Jobs.tracked) : Prop :=
  Client.status (Jobs.printer s') = Client.status (Jobs.printer s) /\
  Jobs.cancelled (Jobs.job s') = Jobs.cancelled (Jobs.job s) /\
  Jobs.finished (Jobs.job s') = Jobs.finished (Jobs.job s) /\
  (Jobs.started (Jobs.job s) = true -> Jobs.started (Jobs.job s') = true).

(** An outcome that is a return, an [AttributeError], a [ValueError] or
    an [OverflowError]. *)
Definition escapes_as_expected {A} (r : result A) : Prop :=
  forall e, r = Raise e ->
    e = AttributeError \/ e = ValueError \/ e = OverflowError.

(** ** The object-model handler *)

(** The fields of the printer that belong to the job and the status. *)
Definition same_job (p p' : Client.printer) : Prop :=
  Client.status p' = Client.status p /\
  Client.job_progress p' = Client.job_progress p /\
  Client.job_filament p' = Client.job_filament p.

(** What only the job update writes: the time, the file name, the layer,
    the started mark and the filament length. *)
Definition same_job_details (s s' : Jobs.tracked) : Prop :=
  Jobs.time (Jobs.job s') = Jobs.time (Jobs.job s) /\
  Jobs.filename (Jobs.job s') = Jobs.filename (Jobs.job s) /\
  Jobs.layer (Jobs.job s') = Jobs.layer (Jobs.job s) /\
  Jobs.started (Jobs.job s') = Jobs.started (Jobs.job s) /\
  Client.job_filament (Jobs.printer s') = Client.job_filament (Jobs.printer s).

(** The end of a print as the session shows it. *)
Definition print_ended (s : Jobs.tracked) : Prop :=
  Client.status (Jobs.printer s) = Client.OPERATIONAL /\
  Jobs.finished (Jobs.job s) = true /\
  Client.job_progress (Jobs.printer s) = 100.

(** A session in the middle of a print. *)
Definition printing_session : ObjectModel.session :=
  ObjectModel.mk_session
    (Jobs.mk_tracked
       (Client.mk_printer Client.PRINTING
          (Client.mk_temperature (PFloat 55) (PFloat 60))
          [Client.mk_temperature (PFloat 200) (PFloat 210)]
          (PInt 20) 40 120)
       (Jobs.mk_job_info false false true (PInt 600) (PStr "part.gcode") (PInt 12)))
    (Sensors.mk_sensor_state None false)
    [].

(** ** The printer task *)




(** A turn at time [now] with a device that answers. *)
Definition quiet_turn (now : Q) : Watchdog.turn :=
  Watchdog.mk_turn false now (Ok tt) true (Ok tt) (Ok tt) (Ok tt) (Ok tt)
    (now + 1) (Ok tt) (Ok tt) (Ok tt).

(** A turn with a device that cannot be reached. *)
Definition unreachable_turn (now : Q) : Watchdog.turn :=
  Watchdog.mk_turn false now (Ok tt) false (Raise ClientConnectionError)
    (Ok tt) (Ok tt) (Ok tt) (now + 1) (Ok tt) (Ok tt) (Ok tt).


(** A turn cancelled while the device is ticked. *)
Definition cancelled_turn (now : Q) : Watchdog.turn :=
  Watchdog.mk_turn false now (Ok tt) true (Ok tt) (Ok tt) (Ok tt)
    (Raise CancelledError) (now + 1) (Ok tt) (Ok tt) (Ok tt).

(** A turn cancelled during the pause that follows a logged exception. *)
Definition cancelled_in_pause_turn (now : Q) : Watchdog.turn :=
  Watchdog.mk_turn false now (Ok tt) true (Ok tt) (Ok tt) (Ok tt)
    (Raise KeyError) (now + 1) (Ok tt) (Ok tt) (Raise CancelledError).

Definition fresh_watch : Watchdog.watch := Watchdog.mk_watch 300 [].

(** ** The distribution loop *)

(** The requests [taken] off the queue account for what a run of the
    distribution loop changed: the requests pending before are those
    pending after and the taken ones; there is at most one delivery and at
    most one frame out of the buffer for each taken request; and every
    taken request is matched by a delivery, by a logged exception, or by
    the exception that ended the run. *)
Definition accounts {frame image : Type} (s : Distribution.cam frame image)
  (r : result unit * Distribution.cam frame image)
  (taken : list Distribution.WebcamSnapshotRequest) : Prop :=
  Permutation (Distribution._requested_webcam_snapshots s)
              (Distribution._requested_webcam_snapshots (snd r) ++ taken) /\
  (List.length (Distribution.deliveries (snd r))
   <= List.length (Distribution.deliveries s) + List.length taken)%nat /\
  (List.length taken + List.length (Distribution.deliveries s)
     + List.length (Distribution.logged s)
   <= List.length (Distribution.deliveries (snd r))
      + List.length (Distribution.logged (snd r))
      + match fst r with Ok _ => 0 | Raise _ => 1 end)%nat /\
  (Webcam.qsize (Distribution._webcam_frame s)
   <= Webcam.qsize (Distribution._webcam_frame (snd r)) + List.length taken)%nat.

End Shapes.

(* ===================================================================== *)
(** * Facts about Python subscripts                                      *)
(* ===================================================================== *)

Unset Implicit Arguments.

Module PyFacts.
Import Py.

Lemma getitem_str_key_raises (c : pyval) (k : string) (e : exn) :
  getitem c (PStr k) = Raise e -> e = KeyError \/ e = TypeError.
Proof.
  destruct c; simpl; intros H; try (inversion H; auto; fail).
  destruct (dict_get k d); inversion H; auto.
Qed.

Lemma contains_raises (x c : pyval) (e : exn) :
  contains x c = Raise e -> e = TypeError.
Proof.
  destruct c; simpl; intros H; try (inversion H; auto; fail);
    destruct x; inversion H; auto.
Qed.

Lemma rbind_ok {A B} (r : result A) (k : A -> result B) (b : B) :
  rbind r k = Ok b -> exists a, r = Ok a /\ k a = Ok b.
Proof.
  destruct r; simpl; intros H; [eauto | discriminate].
Qed.

Lemma rbind_raise {A B} (r : result A) (k : A -> result B) (e : exn) :
  rbind r k = Raise e -> r = Raise e \/ exists a, r = Ok a /\ k a = Raise e.
Proof.
  destruct r; simpl; intros H; [eauto | left; congruence].
Qed.

End PyFacts.

(* ===================================================================== *)
(** * The status mapper                                                  *)
(* ===================================================================== *)

Module StatusMapperFacts.
Import Py Client Properties PyFacts.

Local Open Scope string_scope.

Lemma key_or_type_error_true (e : exn) :
  e = KeyError \/ e = TypeError -> key_or_type_error e = true.
Proof. intros [-> | ->]; reflexivity. Qed.

(** The [try] block of [_is_printing] raises nothing but what its
    [except] clause catches. *)
Lemma job_file_has_filename_raises (om : pyval) (e : exn) :
  job_file_has_filename om = Raise e -> key_or_type_error e = true.
Proof.
  unfold job_file_has_filename. intros H.
  apply key_or_type_error_true.
  apply rbind_raise in H as [H | (job & _ & H)];
    [eapply getitem_str_key_raises; eassumption |].
  apply rbind_raise in H as [H | (js & _ & H)];
    [eapply getitem_str_key_raises; eassumption |].
  apply rbind_raise in H as [H | (has & _ & H)];
    [right; eapply contains_raises; eassumption |].
  destruct has; [| discriminate].
  apply rbind_raise in H as [H | (v & _ & H)];
    [eapply getitem_str_key_raises; eassumption | discriminate].
Qed.

Lemma job_file_has_filename_true (om : pyval) :
  job_file_has_filename om = Ok true <-> reports_job_filename om.
Proof.
  unfold job_file_has_filename, reports_job_filename. split.
  - intros H.
    apply rbind_ok in H as (job & Hjob & H).
    apply rbind_ok in H as (js & Hjs & H).
    apply rbind_ok in H as (has & Hhas & H).
    destruct has; [| discriminate].
    apply rbind_ok in H as (v & Hv & H).
    destruct js; simpl in Hv; try discriminate.
    destruct (dict_get "filename" d) eqn:E; [| discriminate].
    inversion Hv; subst. exists job, d, v. repeat split; auto.
    intros ->. discriminate.
  - intros (job & file & v & Hjob & Hfile & Hget & Hv).
    rewrite Hjob. simpl. rewrite Hfile. simpl. rewrite !Hget. simpl.
    destruct v; simpl; auto. contradiction.
Qed.

Lemma _is_printing_returns (om : pyval) (p : printer) :
  exists b, _is_printing om p = (Ok b, p) /\
    (b = true <-> in_printing_states (status p) = true \/ reports_job_filename om).
Proof.
  unfold _is_printing.
  destruct (in_printing_states (status p)) eqn:Hs.
  - exists true. split; [reflexivity | tauto].
  - destruct (job_file_has_filename om) as [b | e] eqn:Hj.
    + exists b. split; [reflexivity |].
      rewrite <- job_file_has_filename_true, Hj.
      split; [intros ->; auto | intros [H | H]; [discriminate | congruence]].
    + rewrite (job_file_has_filename_raises om e Hj).
      exists false. split; [reflexivity |].
      rewrite <- job_file_has_filename_true, Hj.
      split; [discriminate | intros [H | H]; discriminate].
Qed.






Example map_busy_while_paused :
  status (snd (_map_duet_state_to_printer_status
                 (PDict [("state", PDict [("status", PStr "busy")])])
                 (mk_printer PAUSED (mk_temperature PNone PNone) [] PNone 0 0)))
  = PRINTING.
Proof. reflexivity. Qed.

Example map_unknown_state_offline :
  status (snd (_map_duet_state_to_printer_status
                 (PDict [("state", PDict [("status", PStr "melting")])])
                 (mk_printer OPERATIONAL (mk_temperature PNone PNone) [] PNone 0 0)))
  = OFFLINE.
Proof. reflexivity. Qed.

(** The key read is ['filename']: a job file reported under ['fileName'],
    the key [_update_job_filename] reads, does not count as printing. *)
Example is_printing_reads_lowercase_key :
  let p := mk_printer OPERATIONAL (mk_temperature PNone PNone) [] PNone 0 0 in
  _is_printing (PDict [("job", PDict [("file",
                  PDict [("fileName", PStr "0:/gcodes/part.gcode")])])]) p
    = (Ok false, p) /\
  _is_printing (PDict [("job", PDict [("file",
                  PDict [("filename", PStr "part.gcode")])])]) p
    = (Ok true, p).
Proof. split; reflexivity. Qed.

End StatusMapperFacts.

(* ===================================================================== *)
(** * Temperatures                                                       *)
(* ===================================================================== *)

Module TemperatureFacts.
Import Py Client Telemetry Properties.

Local Open Scope string_scope.

(** The target of a heater follows the state of the heater at the probed
    index, whatever the heater's own index is. *)
Lemma target_of_probe_off (heaters idx : pyval) (probe : Z) (h : pyval) :
  getitem heaters (PInt probe) = Ok h ->
  getitem h (PStr "state") = Ok (PStr "off") ->
  target_of heaters idx probe = Ok (PFloat 0).
Proof.
  intros Hh Hs. unfold target_of. rewrite Hh. simpl. rewrite Hs. reflexivity.
Qed.

Lemma target_of_probe_on (heaters idx : pyval) (probe : Z) (h st : pyval) :
  getitem heaters (PInt probe) = Ok h ->
  getitem h (PStr "state") = Ok st ->
  py_eq st (PStr "off") = false ->
  target_of heaters idx probe
  = rbind (getitem heaters idx) (fun own => getitem own (PStr "active")).
Proof.
  intros Hh Hs Hne. unfold target_of. rewrite Hh. simpl. rewrite Hs. simpl.
  rewrite Hne. reflexivity.
Qed.

(** C2, at a machine whose nozzle is heater 0 and whose bed is heater 1.
    The bed heater is off, yet the bed target is its [active] value 60,
    because the state read is that of heater 0; the tool's heater is
    active, yet the tool target is 0.0, because the state read is that of
    heater 1. *)
Theorem update_temperatures_reads_state_of_heaters_0_and_1 :
  let heaters := PList [heater (PFloat (2053 # 10)) (PInt 210) "active";
                        heater (PInt 24) (PInt 60) "off"] in
  let r := _update_temperatures nozzle_first_om one_tool_printer in
  (* the bed's own heater is heater 1 and is off *)
  rbind (getitem nozzle_first_om (PStr "heat")) (fun heat =>
    rbind (getitem heat (PStr "bedHeaters")) (fun bh => getitem bh (PInt 0)))
    = Ok (PInt 1) /\
  rbind (getitem heaters (PInt 1)) (fun h => getitem h (PStr "state"))
    = Ok (PStr "off") /\
  (* the tool's own heater is heater 0 and is active *)
  rbind (getitem heaters (PInt 0)) (fun h => getitem h (PStr "state"))
    = Ok (PStr "active") /\
  fst r = Ok tt /\
  target (bed_temperature (snd r)) = PInt 60 /\
  map target (tool_temperatures (snd r)) = [PFloat 0].
Proof.
  vm_compute. repeat split; reflexivity.
Qed.

(** When the update raises [KeyError] and the session has a tool, the
    handler sets the actual temperature of the bed and of tool 0 to 0.0
    and the step returns. *)
Lemma temperature_step_on_KeyError (om : pyval) (p p' : printer) :
  _update_temperatures om p = (Raise KeyError, p') ->
  tool_temperatures p' <> [] ->
  exists p'',
    objectmodel_temperature_step om p = (Ok tt, p'') /\
    actual (bed_temperature p'') = PFloat 0 /\
    option_map actual (nth_error (tool_temperatures p'') 0) = Some (PFloat 0).
Proof.
  intros Hup Hne.
  unfold objectmodel_temperature_step, try_except. rewrite Hup. simpl.
  unfold reset_actuals, bind, gets, modify_bed, modify_tool, modify. simpl.
  destruct (tool_temperatures p') as [| t ts] eqn:Hts; [contradiction |].
  eexists. split; [reflexivity |]. simpl. rewrite Hts. simpl. auto.
Qed.

(** C8, at a machine whose heater 0 has no record ([null]).  The lookup
    [heaters[0]['current']] raises [TypeError], which the handler does
    not catch: the exception leaves the step, and the bed and the tool
    keep their last reported temperatures instead of 0.0. *)
Theorem temperature_step_lets_TypeError_escape :
  let r := objectmodel_temperature_step null_heater_om one_tool_printer in
  fst r = Raise TypeError /\
  actual (bed_temperature (snd r)) = PFloat 55 /\
  map actual (tool_temperatures (snd r)) = [PFloat 200].
Proof.
  vm_compute. repeat split; reflexivity.
Qed.

(** The same at a machine that defines no tool: [om['tools'][0]] raises
    [IndexError], the bed keeps the temperature just read and the tool
    its last reported one. *)
Example temperature_step_lets_IndexError_escape :
  let r := objectmodel_temperature_step no_tool_om one_tool_printer in
  fst r = Raise IndexError /\
  actual (bed_temperature (snd r)) = PInt 24 /\
  map actual (tool_temperatures (snd r)) = [PFloat 200].
Proof.
  vm_compute. repeat split; reflexivity.
Qed.

(** A missing key is caught. *)
Example temperature_step_catches_KeyError :
  let r := objectmodel_temperature_step (PDict []) one_tool_printer in
  fst r = Ok tt /\
  actual (bed_temperature (snd r)) = PFloat 0 /\
  map actual (tool_temperatures (snd r)) = [PFloat 0].
Proof.
  vm_compute. repeat split; reflexivity.
Qed.

End TemperatureFacts.

(* ===================================================================== *)
(** * Job progress                                                       *)
(* ===================================================================== *)

Module JobProgressFacts.
Import Py Client Telemetry Properties PyFacts.

Local Open Scope string_scope.
Local Open Scope Q_scope.

Lemma to_float_raises (n : number) (e : exn) :
  to_float n = Raise e -> e = OverflowError.
Proof.
  destruct n as [z | x]; cbn [to_float]; [| discriminate].
  unfold int_to_float. destruct (Qlt_le_dec _ _); congruence.
Qed.

Lemma number_add_raises (a b : number) (e : exn) :
  number_add a b = Raise e -> e = OverflowError.
Proof.
  unfold number_add. intros H.
  assert (Hgen : rbind (to_float a) (fun x =>
                 rbind (to_float b) (fun y => Ok (NFloat (fadd x y)))) = Raise e ->
                 e = OverflowError).
  { intros H'. apply rbind_raise in H' as [H' | (x & _ & H')];
      [eapply to_float_raises; eassumption |].
    apply rbind_raise in H' as [H' | (y & _ & H')];
      [eapply to_float_raises; eassumption | discriminate]. }
  destruct a, b; auto. discriminate.
Qed.

Lemma sum_from_raises (l : list pyval) (acc : number) (e : exn) :
  sum_from acc l = Raise e -> e = TypeError \/ e = OverflowError.
Proof.
  revert acc. induction l as [| x tl IH]; cbn [sum_from]; intros acc H.
  - discriminate.
  - destruct (number_of x) as [n |]; [| left; congruence].
    apply rbind_raise in H as [H | (acc' & _ & H)].
    + right. eapply number_add_raises; eassumption.
    + eauto.
Qed.

Lemma py_sum_raises (v : pyval) (e : exn) :
  py_sum v = Raise e -> e = TypeError \/ e = OverflowError.
Proof.
  destruct v; cbn [py_sum]; intros H; try (left; congruence).
  - destruct s; [discriminate | left; congruence].
  - eapply sum_from_raises; eassumption.
  - destruct d; [discriminate | left; congruence].
Qed.

Lemma py_float_raises (fos : string -> option pyfloat) (v : pyval) (e : exn) :
  py_float fos v = Raise e ->
  e = TypeError \/ e = ValueError \/ e = OverflowError.
Proof.
  destruct v; cbn [py_float]; intros H; try (left; congruence); try discriminate.
  - right; right. eapply (to_float_raises (NInt z)). exact H.
  - destruct (fos s); [discriminate | right; left; congruence].
Qed.

(** The filament total of a job status: [sum(job_status['file']['filament'])]. *)
Lemma total_raises (js : pyval) (e : exn) :
  rbind (getitem js (PStr "file"))
        (fun file => rbind (getitem file (PStr "filament")) py_sum) = Raise e ->
  progress_caught e = true \/ e = OverflowError.
Proof.
  intros H.
  apply rbind_raise in H as [H | (f & _ & H)].
  - apply getitem_str_key_raises in H as [-> | ->]; auto.
  - apply rbind_raise in H as [H | (l & _ & H)].
    + apply getitem_str_key_raises in H as [-> | ->]; auto.
    + apply py_sum_raises in H as [-> | ->]; auto.
Qed.

Lemma current_raises (fos : string -> option pyfloat) (js : pyval) (e : exn) :
  rbind (getitem js (PStr "rawExtrusion")) (py_float fos) = Raise e ->
  progress_caught e = true \/ e = ValueError \/ e = OverflowError.
Proof.
  intros H.
  apply rbind_raise in H as [H | (f & _ & H)].
  - apply getitem_str_key_raises in H as [-> | ->]; auto.
  - apply py_float_raises in H as [-> | [-> | ->]]; auto.
Qed.

Lemma py_div_raises (a : pyfloat) (t : number) (e : exn) :
  py_div a t = Raise e -> e = OverflowError \/ e = ZeroDivisionError.
Proof.
  unfold py_div. intros H. apply rbind_raise in H as [H | (x & _ & H)].
  - left. eapply to_float_raises; eassumption.
  - right. unfold fdiv in H. destruct x as [y | n |]; try discriminate.
    destruct (Qeq_bool y 0); congruence.
Qed.

(** The update, by the outcome of its reads and of its arithmetic. *)
Lemma update_job_progress_cases (fos : string -> option pyfloat) (js : pyval)
  (p : printer) :
  _update_job_progress fos js p =
  match rbind (getitem js (PStr "file"))
              (fun file => rbind (getitem file (PStr "filament")) py_sum) with
  | Raise e => if progress_caught e then (Ok tt, set_job_progress 0 p)
               else (Raise e, p)
  | Ok t =>
      match rbind (getitem js (PStr "rawExtrusion")) (py_float fos) with
      | Raise e => if progress_caught e then (Ok tt, set_job_progress 0 p)
                   else (Raise e, p)
      | Ok c =>
          match py_div (fmul c 100) t with
          | Raise e => if progress_caught e then (Ok tt, set_job_progress 0 p)
                       else (Raise e, p)
          | Ok ratio =>
              match c with
              | Finite q =>
                  (Ok tt, set_job_filament (py_round q)
                            (set_job_progress (fmin_100 ratio) p))
              | Infinity _ =>
                  (Raise OverflowError, set_job_progress (fmin_100 ratio) p)
              | NaN =>
                  (Raise ValueError, set_job_progress (fmin_100 ratio) p)
              end
          end
      end
  end.
Proof.
  unfold _update_job_progress, try_except, bind, lift, modify.
  destruct (rbind (getitem js (PStr "file")) _) as [t | e]; [| reflexivity].
  destruct (rbind (getitem js (PStr "rawExtrusion")) _) as [c | e]; [| reflexivity].
  destruct (py_div (fmul c 100) t) as [ratio | e]; [| reflexivity].
  destruct c; reflexivity.
Qed.








Example job_progress_half :
  exists q,
    job_progress (snd (_update_job_progress (fun _ => None)
      (PDict [("file", PDict [("filament", PList [PFloat 10; PInt 10])]);
              ("rawExtrusion", PInt 10)]) one_tool_printer)) = Finite q /\
    q == 50.
Proof. vm_compute. eexists. split; reflexivity. Qed.

Example job_progress_zero_total :
  _update_job_progress (fun _ => None)
    (PDict [("file", PDict [("filament", PList [])]);
            ("rawExtrusion", PInt 10)]) one_tool_printer
  = (Ok tt, one_tool_printer).
Proof. vm_compute. reflexivity. Qed.

Example job_progress_text_escapes :
  fst (_update_job_progress (fun _ => None)
    (PDict [("file", PDict [("filament", PList [PInt 10])]);
            ("rawExtrusion", PStr "n/a")]) one_tool_printer)
  = Raise ValueError.
Proof. vm_compute. reflexivity. Qed.

(** A filament length beyond the range of the floats: [OverflowError]
    leaves the update and the progress is not written. *)
Example job_progress_huge_total_escapes :
  _update_job_progress (fun _ => None)
    (PDict [("file", PDict [("filament", PList [PInt (10 ^ 400)])]);
            ("rawExtrusion", PFloat 1)]) one_tool_printer
  = (Raise OverflowError, one_tool_printer).
Proof. vm_compute. reflexivity. Qed.

(** An infinite extrusion: the progress is written, then [round] raises. *)
Example job_progress_infinite_extrusion_escapes :
  _update_job_progress (fun _ => None)
    (PDict [("file", PDict [("filament", PList [PInt 10])]);
            ("rawExtrusion", PInf false)]) one_tool_printer
  = (Raise OverflowError, set_job_progress 100 one_tool_printer).
Proof. vm_compute. reflexivity. Qed.

End JobProgressFacts.

(* ===================================================================== *)
(** * The command filter                                                 *)
(* ===================================================================== *)

Module CommandFilterFacts.
Import Py CommandFilter Properties.

Local Open Scope string_scope.
Local Open Scope list_scope.



(** The loop, one token at a time. *)
Lemma process_items_cons
  (reply : list string -> string -> result string)
  (item : gcode_item) (rest : list gcode_item) (response : list string) (s : session) :
  process_items reply (item :: rest) response s =
  if is_allowed item && negb (in_setup s) then
    match duet_gcode reply (compress item) s with
    | (Ok r, s') => process_items reply rest (response ++ [r]) s'
    | (Raise e, s') => (Raise e, s', response)
    end
  else if is_M300 item && in_setup s then
    match duet_gcode reply (identification_prompt s) s with
    | (Ok r, s') => process_items reply rest (response ++ [r]) s'
    | (Raise e, s') => (Raise e, s', response)
    end
  else if String.eqb (code item) "M997" then
    match _perform_self_upgrade s with
    | (Ok _, s') => process_items reply rest response s'
    | (Raise e, s') => (Raise e, s', response)
    end
  else process_items reply rest (response ++ [blocked_message item]) s.
Proof. reflexivity. Qed.







Example deferred_gcode_mixed_batch :
  deferred_gcode acknowledging mixed_batch paired_session
  = (Ok tt,
     mk_session false "A1B2" ["G28 X Y"; "G1 X10"] 0,
     ["ok"; "M999 G-Code blocked"; "ok"]).
Proof. reflexivity. Qed.

Example deferred_gcode_in_setup_blocks_allowed :
  deferred_gcode acknowledging mixed_batch (mk_session true "A1B2" [] 0)
  = (Ok tt,
     mk_session true "A1B2" [] 0,
     ["G28 G-Code blocked"; "M999 G-Code blocked"; "G1 G-Code blocked"]).
Proof. reflexivity. Qed.

(** The self-upgrade code ends the batch: the tokens after it are not
    looked at. *)
Example deferred_gcode_self_upgrade_ends_batch :
  deferred_gcode acknowledging upgrade_first_batch paired_session
  = (Raise KeyboardInterrupt, mk_session false "A1B2" [] 1, []).
Proof. reflexivity. Qed.

End CommandFilterFacts.

(* ===================================================================== *)
(** * The identity check                                                 *)
(* ===================================================================== *)

Module IdentityFacts.
Import Py Identity Properties.

Local Open Scope string_scope.
Local Open Scope list_scope.

(** C7.  Let the opening dialogue with the device succeed and the object
    model hold a board that reports the unique id [rid].  If an id is
    stored and differs from [rid], [_duet_on_connect] raises [ValueError]
    with the status forced to OFFLINE, the stored id kept and nothing
    emitted.  If no id is stored ([None]), [rid] becomes the stored id and
    exactly one [ClientConfigChangedEvent] is emitted; no exception is
    raised when the report also carries the machine name and the firmware
    name and version. *)
Theorem duet_on_connect_checks_identity
  (setup_prompt cookie : result unit) (model : string -> option string)
  (om board network rid : pyval) (c : client) :
  (if in_setup c then setup_prompt else cookie) = Ok tt ->
  rbind (getitem om (PStr "boards")) (fun bs => getitem bs (PInt 0)) = Ok board ->
  getitem om (PStr "network") = Ok network ->
  getitem board (PStr "uniqueId") = Ok rid ->
  let r := _duet_on_connect setup_prompt cookie model om c in
  (Client.is_None (duet_unique_id c) = false ->
   py_eq (duet_unique_id c) rid = false ->
     fst r = Raise ValueError /\
     status (snd r) = Client.OFFLINE /\
     duet_unique_id (snd r) = duet_unique_id c /\
     emitted (snd r) = emitted c) /\
  (Client.is_None (duet_unique_id c) = true ->
     duet_unique_id (snd r) = rid /\
     emitted (snd r) = emitted c ++ [ClientConfigChangedEvent] /\
     status (snd r) = status c /\
     (forall n fn fv,
        getitem network (PStr "name") = Ok (PStr n) ->
        getitem board (PStr "firmwareName") = Ok fn ->
        getitem board (PStr "firmwareVersion") = Ok fv ->
        fst r = Ok tt)).
Proof.
  intros Hgreet Hboard Hnet Hrid r. subst r.
  unfold _duet_on_connect, bind, gets, lift. simpl.
  rewrite Hgreet, Hboard, Hnet.
  split.
  - intros Hstored Hdiff. rewrite Hstored.
    unfold _validate_duet_unique_id, bind, gets, lift, log_error, modify. simpl.
    rewrite Hrid, Hdiff. simpl. auto.
  - intros Hnone. rewrite Hnone.
    unfold _set_duet_unique_id, emit, bind, lift, modify. simpl.
    rewrite Hrid. simpl.
    unfold _set_printer_name, _set_firmware_info, bind, lift, modify.
    destruct (getitem network (PStr "name")) as [name | e] eqn:Hname; simpl.
    + destruct name; simpl; try (repeat split; auto; intros; discriminate).
      destruct (model s) eqn:Hmodel; simpl.
      * destruct (getitem board (PStr "firmwareName")) eqn:Hfn; simpl;
          [| repeat split; auto; intros; discriminate].
        destruct (getitem board (PStr "firmwareVersion")) eqn:Hfv; simpl;
          repeat split; auto; intros; discriminate.
      * destruct (getitem board (PStr "firmwareName")) eqn:Hfn; simpl;
          [| repeat split; auto; intros; discriminate].
        destruct (getitem board (PStr "firmwareVersion")) eqn:Hfv; simpl;
          repeat split; auto; intros; discriminate.
    + repeat split; auto; intros; discriminate.
Qed.

(** A stored id ["A"] against a board reporting ["B"], and a first
    connection to the same board. *)
Lemma duet_on_connect_checks_identity_witness :
  let mismatch := _duet_on_connect (Ok tt) (Ok tt) (fun _ => None)
                    (board_om "B") (client_with_id (PStr "A")) in
  let first := _duet_on_connect (Ok tt) (Ok tt) (fun _ => None)
                 (board_om "B") (client_with_id PNone) in
  (fst mismatch = Raise ValueError /\
   status (snd mismatch) = Client.OFFLINE /\
   duet_unique_id (snd mismatch) = PStr "A" /\
   emitted (snd mismatch) = []) /\
  (duet_unique_id (snd first) = PStr "B" /\
   emitted (snd first) = [ClientConfigChangedEvent] /\
   fst first = Ok tt).
Proof.
  intros mismatch first. split.
  - apply (duet_on_connect_checks_identity (Ok tt) (Ok tt) (fun _ => None)
             (board_om "B")
             (PDict [("uniqueId", PStr "B");
                     ("firmwareName", PStr "RepRapFirmware");
                     ("firmwareVersion", PStr "3.5.1")])
             (PDict [("name", PStr "duet-one")])
             (PStr "B") (client_with_id (PStr "A")));
      reflexivity.
  - destruct (duet_on_connect_checks_identity (Ok tt) (Ok tt) (fun _ => None)
             (board_om "B")
             (PDict [("uniqueId", PStr "B");
                     ("firmwareName", PStr "RepRapFirmware");
                     ("firmwareVersion", PStr "3.5.1")])
             (PDict [("name", PStr "duet-one")])
             (PStr "B") (client_with_id PNone)
             eq_refl eq_refl eq_refl eq_refl) as [_ Hfirst].
    destruct (Hfirst eq_refl) as (Hid & Hev & _ & Hok).
    split; [exact Hid | split; [exact Hev |]].
    apply (Hok "duet-one" (PStr "RepRapFirmware") (PStr "3.5.1")); reflexivity.
Defined.

End IdentityFacts.

(* ===================================================================== *)
(** * The webcam frame buffer                                            *)
(* ===================================================================== *)

Module FrameBufferFacts.
Import Webcam Properties.

Local Open Scope list_scope.

Section Frames.

Variable frame : Type.

(** The content of the buffer after a frame is stored. *)
Lemma store_frame_items (content : frame) (q : queue frame) :
  bounded q ->
  exists q',
    store_frame content q = Some q' /\
    bounded q' /\
    items q' = lastn 3 (items q ++ [content]) /\
    (qsize q = 3%nat -> items q' = tl (items q) ++ [content]).
Proof.
  intros [Hmax Hsize]. destruct q as [m l]. simpl in Hmax. subst m.
  unfold qsize in *. simpl in Hsize.
  destruct l as [| a [| b [| c [| d l]]]]; simpl in Hsize; try lia;
    (eexists; split; [reflexivity |]);
    unfold bounded, qsize; simpl; repeat split; auto; try lia; discriminate.
Qed.

Lemma buffer_step_bounded (q : queue frame) (op : buffer_op frame) :
  bounded q ->
  match buffer_step q op with
  | Some q' => bounded q'
  | None => op = Fetch frame
  end.
Proof.
  intros Hq. destruct op as [content |]; simpl.
  - destruct (store_frame_items content q Hq) as (q' & -> & Hq' & _). exact Hq'.
  - destruct Hq as [Hmax Hsize]. destruct q as [m l].
    unfold get. simpl in *. destruct l; [reflexivity |].
    unfold bounded, qsize in *. simpl in *. split; [assumption | lia].
Qed.

Lemma buffer_run_bounded (ops : list (buffer_op frame)) (q : queue frame) :
  bounded q -> exists q', buffer_run q ops = Some q' /\ bounded q'.
Proof.
  revert q. induction ops as [| op rest IH]; intros q Hq; simpl.
  - eauto.
  - pose proof (buffer_step_bounded q op Hq) as Hstep.
    destruct (buffer_step q op) as [q' |].
    + apply IH. exact Hstep.
    + subst op. apply IH. exact Hq.
Qed.

Lemma lastn_shift (a b c x : frame) (l : list frame) :
  lastn 3 ([b; c; x] ++ l) = lastn 3 ([a; b; c] ++ x :: l).
Proof.
  unfold lastn. simpl. rewrite Nat.sub_0_r. reflexivity.
Qed.

Lemma store_run_keeps_latest (frames : list frame) (q : queue frame) :
  bounded q ->
  buffer_run q (map (@Store frame) frames)
  = Some (mk_queue 3 (lastn 3 (items q ++ frames))).
Proof.
  revert q. induction frames as [| x rest IH]; intros q Hq.
  - simpl. rewrite app_nil_r. destruct Hq as [Hmax Hsize].
    destruct q as [m l]. simpl in *. subst m. unfold lastn.
    unfold qsize in Hsize. simpl in Hsize.
    replace (List.length l - 3)%nat with 0%nat by lia. reflexivity.
  - simpl.
    destruct (store_frame_items x q Hq) as (q' & Hst & Hq' & Hitems & Hfull).
    rewrite Hst, (IH q' Hq'). f_equal. f_equal.
    destruct Hq as [Hmax Hsize]. destruct q as [m l]. simpl in *.
    unfold qsize in *. simpl in *.
    destruct l as [| a [| b [| c [| d l]]]]; simpl in Hsize; try lia;
      rewrite Hitems; unfold lastn; simpl; rewrite ?Nat.sub_0_r; reflexivity.
Qed.

End Frames.

(** C9.  Whatever the receive task stores and the consumers fetch, from
    the empty buffer on: no store waits, and the buffer holds at most
    three frames.  Storing into a full buffer drops the oldest frame and
    appends the new one.  After a run of stores the buffer holds the
    last three frames stored. *)
Theorem webcam_frame_buffer_keeps_latest_three (frame : Type) :
  (forall ops : list (buffer_op frame),
     exists q, buffer_run (_webcam_frame_init frame) ops = Some q /\
               maxsize q = 3%nat /\ (qsize q <= 3)%nat) /\
  (forall (a b c content : frame),
     full (mk_queue 3 [a; b; c]) = true /\
     store_frame content (mk_queue 3 [a; b; c]) = Some (mk_queue 3 [b; c; content])) /\
  (forall frames : list frame,
     buffer_run (_webcam_frame_init frame) (map (@Store frame) frames)
     = Some (mk_queue 3 (lastn 3 frames))).
Proof.
  assert (Hinit : bounded (_webcam_frame_init frame)).
  { unfold bounded, qsize. simpl. split; [reflexivity | lia]. }
  repeat split.
  - intros ops.
    destruct (buffer_run_bounded frame ops _ Hinit) as (q & Hrun & Hmax & Hsize).
    exists q. auto.
  - intros frames. apply (store_run_keeps_latest frame frames _ Hinit).
Qed.

Example fourth_frame_evicts_first :
  buffer_run (_webcam_frame_init nat) [Store 1; Store 2; Store 3; Store 4]%nat
  = Some (mk_queue 3 [2; 3; 4]%nat).
Proof. reflexivity. Qed.

End FrameBufferFacts.

(* ===================================================================== *)
(** * The webcam distribution task                                       *)
(* ===================================================================== *)

Module DistributionFacts.
Import Webcam Properties.

Local Open Scope list_scope.

Lemma remove_task_single (t : nat) : remove_task t [t] = [].
Proof. unfold remove_task. simpl. rewrite Nat.eqb_refl. reflexivity. Qed.

Lemma single_task_in (w : webcam) (t : nat) :
  single_task w -> In t (running w) ->
  running w = [t] /\ _webcam_distribution_task_handle w = Some t.
Proof.
  intros [Hnil | (t' & Hone & Hh)] Hin.
  - rewrite Hnil in Hin. contradiction.
  - rewrite Hone in Hin. destruct Hin as [-> | []]. auto.
Qed.

Lemma on_webcam_snapshot_single (now : Q) (w : webcam) :
  single_task w -> single_task (on_webcam_snapshot now w).
Proof.
  intros Hw. unfold on_webcam_snapshot, single_task. simpl.
  destruct (_webcam_distribution_task_handle w) as [h |] eqn:Hh; simpl.
  - destruct Hw as [Hnil | (t & Hone & Ht)]; [left; assumption |].
    right. exists t. split; [assumption | congruence].
  - destruct (webcam_uri w); simpl.
    + destruct Hw as [Hnil | (t & Hone & Ht)]; [| congruence].
      right. exists (next_task w). rewrite Hnil. auto.
    + destruct Hw as [Hnil | (t & Hone & Ht)]; [left; assumption | congruence].
Qed.

Lemma step_single (w w' : webcam) :
  step w w' -> single_task w -> single_task w'.
Proof.
  intros Hstep Hw. destruct Hstep.
  - apply on_webcam_snapshot_single. exact Hw.
  - exact Hw.
  - destruct (single_task_in w t Hw H) as [Hone _].
    left. simpl. rewrite Hone. apply remove_task_single.
  - destruct (single_task_in w t Hw H) as [Hone _].
    left. simpl. rewrite Hone. apply remove_task_single.
  - exact Hw.
  - exact Hw.
Qed.

Lemma reachable_single (uri : bool) (w : webcam) :
  reachable uri w -> single_task w.
Proof.
  induction 1 as [| w w' _ IH Hstep].
  - left. reflexivity.
  - eapply step_single; eassumption.
Qed.

(** C10.  In every state the client reaches, at most one distribution
    task is running, and a running task is the one the handle names.  A
    snapshot demand starts a task only if the handle is [None] and a
    camera address is configured; it leaves the running tasks as they
    are otherwise. *)
Theorem at_most_one_distribution_task (uri : bool) (w : webcam) :
  reachable uri w ->
  (List.length (running w) <= 1)%nat /\
  (forall t, In t (running w) -> _webcam_distribution_task_handle w = Some t) /\
  (forall now,
     running (on_webcam_snapshot now w) <> running w ->
     _webcam_distribution_task_handle w = None /\ webcam_uri w = true) /\
  (forall now, (List.length (running (on_webcam_snapshot now w)) <= 1)%nat).
Proof.
  intros Hreach. pose proof (reachable_single uri w Hreach) as Hw.
  repeat split.
  - destruct Hw as [-> | (t & -> & _)]; simpl; lia.
  - intros t Hin. apply (single_task_in w t Hw Hin).
  - destruct (_webcam_distribution_task_handle w) eqn:Hh; [| reflexivity].
    exfalso. apply H. unfold on_webcam_snapshot. simpl. rewrite Hh. reflexivity.
  - destruct (webcam_uri w) eqn:Hu; [reflexivity |].
    exfalso. apply H. unfold on_webcam_snapshot. simpl. rewrite Hu.
    rewrite andb_false_r. reflexivity.
  - intros now.
    destruct (on_webcam_snapshot_single now w Hw) as [-> | (t & -> & _)]; simpl; lia.
Qed.

(** Three demands in a row while the window is open: one task. *)
Lemma at_most_one_distribution_task_witness :
  let w := on_webcam_snapshot 2 (on_webcam_snapshot 1 (on_webcam_snapshot 0 (init true))) in
  (List.length (running w) <= 1)%nat /\
  (forall t, In t (running w) -> _webcam_distribution_task_handle w = Some t) /\
  (forall now,
     running (on_webcam_snapshot now w) <> running w ->
     _webcam_distribution_task_handle w = None /\ webcam_uri w = true) /\
  (forall now, (List.length (running (on_webcam_snapshot now w)) <= 1)%nat).
Proof.
  intros w.
  apply (at_most_one_distribution_task true w).
  unfold w. repeat (eapply reach_step; [| apply step_snapshot]). apply reach_init.
Defined.

Example three_demands_one_task :
  running (on_webcam_snapshot 2 (on_webcam_snapshot 1 (on_webcam_snapshot 0 (init true))))
  = [0%nat].
Proof. reflexivity. Qed.

End DistributionFacts.

(* ===================================================================== *)
(** * The file-transfer pipeline: the percent values                     *)
(* ===================================================================== *)

Module PercentFacts.
Import Telemetry FileTransfer.

Local Open Scope Q_scope.

Ltac half := unfold Qdiv; change (/ 2) with (1 # 2).

Ltac split_min a b :=
  let H := fresh "Hmin" in
  destruct (Q.min_spec a b) as [[? H] | [? H]]; rewrite ?H in *.

Ltac split_max a b :=
  let H := fresh "Hmax" in
  destruct (Q.max_spec a b) as [[? H] | [? H]]; rewrite ?H in *.

(** [max(0, min(50, x / 2))] *)
Lemma half_clamped_range (x : Q) : 0 <= Qmax 0 (Qmin 50 (x / 2)) <= 50.
Proof.
  split_max 0 (Qmin 50 (x / 2)); split_min 50 (x / 2); lra.
Qed.

Lemma half_clamped_mono (x y : Q) :
  x <= y -> Qmax 0 (Qmin 50 (x / 2)) <= Qmax 0 (Qmin 50 (y / 2)).
Proof.
  intros H. apply Q.max_le_compat; [lra |].
  apply Q.min_le_compat; [lra |]. half. lra.
Qed.

Lemma clamp_progress_range (x : Q) : 0 <= clamp_progress x <= 50.
Proof. apply half_clamped_range. Qed.

Lemma clamp_progress_mono (x y : Q) :
  x <= y -> clamp_progress x <= clamp_progress y.
Proof. apply half_clamped_mono. Qed.

(** Rounding stays between the floor and the next integer and keeps the
    order. *)
Lemma py_round_bounds (x : Q) :
  (Qfloor x <= py_round x <= Qfloor x + 1)%Z.
Proof.
  unfold py_round.
  destruct (x - inject_Z (Qfloor x) ?= 1 # 2); [destruct (Z.even (Qfloor x)) | |]; lia.
Qed.

Lemma py_round_mono (x y : Q) : x <= y -> (py_round x <= py_round y)%Z.
Proof.
  intros Hxy.
  pose proof (Qfloor_resp_le x y Hxy) as Hfl.
  destruct (Z.eq_dec (Qfloor x) (Qfloor y)) as [Heq | Hne].
  - unfold py_round. rewrite <- Heq.
    destruct (x - inject_Z (Qfloor x) ?= 1 # 2) eqn:Hx;
      destruct (y - inject_Z (Qfloor x) ?= 1 # 2) eqn:Hy;
      try (destruct (Z.even (Qfloor x)); lia); try lia;
      repeat match goal with
             | H : (_ ?= _) = Eq |- _ => apply Qeq_alt in H
             | H : (_ ?= _) = Lt |- _ => apply Qlt_alt in H
             | H : (_ ?= _) = Gt |- _ => apply Qgt_alt in H
             end; exfalso; lra.
  - pose proof (py_round_bounds x). pose proof (py_round_bounds y). lia.
Qed.

Lemma inject_Z_le (a b : Z) : (a <= b)%Z -> inject_Z a <= inject_Z b.
Proof. intros H. rewrite <- Zle_Qle. exact H. Qed.

Lemma upload_percent_range (progress : Q) :
  50 <= upload_percent progress <= 90.
Proof.
  unfold upload_percent.
  set (v := 50 + Qmax 0 (Qmin 50 (progress / 2))).
  assert (Hv : 50 <= v) by (pose proof (half_clamped_range progress); subst v; lra).
  assert (Hr : 50 <= inject_Z (py_round v)).
  { change 50 with (inject_Z 50). apply inject_Z_le.
    pose proof (py_round_bounds v) as [Hlo _].
    pose proof (Qfloor_resp_le 50 v Hv) as Hfl.
    change (Qfloor 50) with 50%Z in Hfl. lia. }
  split; [apply Q.min_glb; lra | apply Q.le_min_r].
Qed.

Lemma upload_percent_mono (p q : Q) :
  p <= q -> upload_percent p <= upload_percent q.
Proof.
  intros H. unfold upload_percent.
  apply Q.min_le_compat; [| lra].
  apply inject_Z_le, py_round_mono.
  pose proof (half_clamped_mono p q H). lra.
Qed.

Lemma waiting_percent_le (timeout now : Q) :
  waiting_percent timeout now <= 999 # 10.
Proof. apply Q.le_min_l. Qed.

Lemma waiting_percent_ge (start now : Q) :
  start <= now -> 90 <= waiting_percent (start + 400) now.
Proof.
  intros H. unfold waiting_percent. apply Q.min_glb; lra.
Qed.

Lemma waiting_percent_mono (timeout a b : Q) :
  a <= b -> waiting_percent timeout a <= waiting_percent timeout b.
Proof.
  intros H. unfold waiting_percent. apply Q.min_le_compat; lra.
Qed.

Example upload_percent_values :
  map upload_percent [0; 1; 3; 50; 79; 100; 250] = [50; 50; 52; 75; 90; 90; 90].
Proof. vm_compute. reflexivity. Qed.

End PercentFacts.

(* ===================================================================== *)
(** * The file-transfer pipeline: retries and terminal states            *)
(* ===================================================================== *)

Module TransferFacts.
Import Py FileTransfer Properties PercentFacts.

Local Open Scope string_scope.
Local Open Scope list_scope.
Local Open Scope Q_scope.

(** ** Concrete runs *)

Example smooth_run_trace :
  summary (_download_file_from_sp_and_upload_to_duet plain_demand smooth_run idle)
  = Some (Ok tt, READY, 100, [0; 0; 25; 50; 50; 75; 90; 100], [Upload 0]).
Proof. vm_compute. reflexivity. Qed.

Example rejected_run_trace :
  summary (_download_file_from_sp_and_upload_to_duet plain_demand rejected_run idle)
  = Some (Ok tt, ERROR, 75, [0; 0; 25; 50; 50; 75], [Upload 0]).
Proof. vm_compute. reflexivity. Qed.

Example retried_run_trace :
  summary (_download_file_from_sp_and_upload_to_duet plain_demand retried_run idle)
  = Some (Ok tt, READY, 100, [0; 0; 25; 50; 50; 75; 50; 75; 90; 100],
          [Upload 0; Reconnect; Upload 1]).
Proof. vm_compute. reflexivity. Qed.

Example polled_run_trace :
  summary (_download_file_from_sp_and_upload_to_duet auto_start_demand polled_run idle)
  = Some (Ok tt, READY, 100,
          [0; 0; 25; 50; 50; 75; 90; 361 # 4; 3611 # 40; 100],
          [Upload 0; StartPrint]).
Proof. vm_compute. reflexivity. Qed.

(** ** Writing a run of percent values *)

Lemma write_percents (g : transfer -> Q -> transfer) (f : Q -> Q)
  (Hg : forall acc x, g acc x = set_percent (f x) acc)
  (xs : list Q) (t : transfer) :
  percents (fold_left g xs t) = percents t ++ map f xs /\
  state (fold_left g xs t) = state t /\
  actions (fold_left g xs t) = actions t /\
  job_filename (fold_left g xs t) = job_filename t /\
  (forall P : Q -> Prop,
     P (percent t) -> (forall x, P (f x)) -> P (percent (fold_left g xs t))).
Proof.
  revert t. induction xs as [| x xs IH]; intros t; simpl.
  - rewrite app_nil_r. repeat split; auto.
  - rewrite Hg. destruct (IH (set_percent (f x) t)) as (H1 & H2 & H3 & H4 & H5).
    rewrite H1, H2, H3, H4. simpl. rewrite <- app_assoc. simpl.
    repeat split; auto.
    intros P _ HP. apply H5; [apply HP | exact HP].
Qed.

(** ** The upload loop *)

(** One turn of the loop. *)
Lemma upload_loop_step (uploads : nat -> upload_attempt)
  (retries attempt : nat) (t : transfer) :
  upload_loop uploads (S retries) attempt t =
  let a := uploads attempt in
  let t1 := fold_left (fun acc x => _upload_file_progress x acc)
                      (upload_progress a) (act (Upload attempt) t) in
  match upload_outcome a with
  | Ok response =>
      match getitem response (PStr "err") with
      | Ok err =>
          if negb (py_eq err (PInt 0))
          then (Ok Rejected, set_state ERROR t1)
          else (Ok Uploaded, t1)
      | Raise e => (Raise e, t1)
      end
  | Raise (ClientResponseError status) =>
      if retryable status then
        match reconnect_outcome a with
        | Ok _ => upload_loop uploads retries (S attempt) (act Reconnect t1)
        | Raise e => (Raise e, act Reconnect t1)
        end
      else (Raise (ClientResponseError status), t1)
  | Raise e => (Raise e, t1)
  end.
Proof. reflexivity. Qed.

Lemma upload_writes (a : upload_attempt) (t : transfer) :
  let t1 := fold_left (fun acc x => _upload_file_progress x acc)
                      (upload_progress a) t in
  percents t1 = percents t ++ map upload_percent (upload_progress a) /\
  state t1 = state t /\
  actions t1 = actions t /\
  job_filename t1 = job_filename t /\
  (forall P : Q -> Prop,
     P (percent t) -> (forall x, P (upload_percent x)) -> P (percent t1)).
Proof.
  apply (write_percents (fun acc x => _upload_file_progress x acc) upload_percent).
  reflexivity.
Qed.

(** The loop makes at most [retries] calls of [rr_upload_stream]. *)
Lemma upload_loop_attempts (uploads : nat -> upload_attempt)
  (retries attempt : nat) (t : transfer) :
  exists new,
    actions (snd (upload_loop uploads retries attempt t)) = actions t ++ new /\
    (List.length (filter is_upload new) <= retries)%nat.
Proof.
  revert attempt t. induction retries as [| retries IH]; intros attempt t.
  - exists []. simpl. rewrite app_nil_r. auto.
  - rewrite upload_loop_step. cbv zeta.
    destruct (upload_writes (uploads attempt) (act (Upload attempt) t))
      as (_ & _ & Hact & _).
    cbv zeta in Hact. simpl actions at 2 in Hact.
    set (t1 := fold_left _ _ _) in *.
    assert (Hone : exists new, actions t1 = actions t ++ new /\
                     (List.length (filter is_upload new) <= S retries)%nat).
    { exists [Upload attempt]. split; [exact Hact | simpl; lia]. }
    destruct (upload_outcome (uploads attempt)) as [response | e].
    + destruct (getitem response (PStr "err")) as [err | e]; [| exact Hone].
      destruct (negb (py_eq err (PInt 0))); exact Hone.
    + destruct e; try exact Hone.
      destruct (retryable status); [| exact Hone].
      destruct (reconnect_outcome (uploads attempt)).
      * destruct (IH (S attempt) (act Reconnect t1)) as (new & Hnew & Hlen).
        exists ([Upload attempt; Reconnect] ++ new). split.
        -- rewrite Hnew. simpl actions. rewrite Hact, <- !app_assoc. reflexivity.
        -- simpl. lia.
      * exists [Upload attempt; Reconnect]. split.
        -- simpl actions. rewrite Hact, <- app_assoc. reflexivity.
        -- simpl. lia.
Qed.

(** A failure with a status other than 401 and 500 leaves the loop at
    once, as the exception raised. *)
Lemma upload_loop_not_retryable (uploads : nat -> upload_attempt)
  (retries attempt : nat) (t : transfer) (status : Z) :
  upload_outcome (uploads attempt) = Raise (ClientResponseError status) ->
  retryable status = false ->
  fst (upload_loop uploads (S retries) attempt t) = Raise (ClientResponseError status) /\
  actions (snd (upload_loop uploads (S retries) attempt t))
  = actions t ++ [Upload attempt].
Proof.
  intros Hout Hno. rewrite upload_loop_step. cbv zeta. rewrite Hout, Hno.
  destruct (upload_writes (uploads attempt) (act (Upload attempt) t))
    as (_ & _ & Hact & _).
  split; [reflexivity | exact Hact].
Qed.

(** A failure with status 401 or 500 is followed by a reconnect and,
    while attempts are left, by the next upload. *)
Lemma upload_loop_retryable (uploads : nat -> upload_attempt)
  (retries attempt : nat) (t : transfer) (status : Z) :
  upload_outcome (uploads attempt) = Raise (ClientResponseError status) ->
  retryable status = true ->
  reconnect_outcome (uploads attempt) = Ok tt ->
  exists t1,
    actions t1 = actions t ++ [Upload attempt; Reconnect] /\
    upload_loop uploads (S retries) attempt t
    = upload_loop uploads retries (S attempt) t1.
Proof.
  intros Hout Hyes Hrec. rewrite upload_loop_step. cbv zeta.
  rewrite Hout, Hyes, Hrec.
  destruct (upload_writes (uploads attempt) (act (Upload attempt) t))
    as (_ & _ & Hact & _).
  eexists. split; [| reflexivity].
  simpl actions. cbv zeta in Hact. rewrite Hact. simpl.
  rewrite <- app_assoc. reflexivity.
Qed.

(** While reconnecting succeeds, no failure with status 401 or 500 ever
    leaves the loop as an exception. *)
Lemma upload_loop_swallows_retryable (uploads : nat -> upload_attempt)
  (retries attempt : nat) (t : transfer) (status : Z) :
  (forall k, reconnect_outcome (uploads k) = Ok tt) ->
  fst (upload_loop uploads retries attempt t) = Raise (ClientResponseError status) ->
  retryable status = false.
Proof.
  intros Hrec. revert attempt t.
  induction retries as [| retries IH]; intros attempt t.
  - simpl. discriminate.
  - rewrite upload_loop_step. cbv zeta.
    destruct (upload_outcome (uploads attempt)) as [response | e] eqn:Hout.
    + destruct (getitem response (PStr "err")) as [err | e] eqn:Herr.
      * destruct (negb (py_eq err (PInt 0))); discriminate.
      * simpl. intros H. inversion H; subst.
        apply PyFacts.getitem_str_key_raises in Herr as [Herr | Herr]; discriminate.
    + destruct e; simpl; try discriminate.
      destruct (retryable status0) eqn:Hre.
      * rewrite Hrec. apply IH.
      * simpl. intros H. inversion H; subst. exact Hre.
Qed.

(** C1, at a device that answers every upload with status 401.  Three
    uploads are made, each followed by a reconnect; then the loop ends
    without an exception, and the pipeline goes on to report the file as
    READY at 100 percent.  Nothing is raised and nothing is logged. *)
Theorem upload_retries_exhausted_reports_ready :
  fst (upload_loop (uploads unauthorized_run) 3 0 idle) = Ok Exhausted /\
  actions (snd (upload_loop (uploads unauthorized_run) 3 0 idle))
  = [Upload 0; Reconnect; Upload 1; Reconnect; Upload 2; Reconnect] /\
  summary (_download_file_from_sp_and_upload_to_duet plain_demand unauthorized_run idle)
  = Some (Ok tt, READY, 100,
          [0; 0; 25; 50; 50; 75; 50; 75; 50; 75; 100],
          [Upload 0; Reconnect; Upload 1; Reconnect; Upload 2; Reconnect]).
Proof. vm_compute. repeat split; reflexivity. Qed.

(** ** Non-decreasing runs of values *)

Lemma banded_nil (lo hi : Q) : banded lo hi [].
Proof. split; constructor. Qed.

Lemma banded_single (lo hi x : Q) : lo <= x <= hi -> banded lo hi [x].
Proof. intros H. split; repeat constructor; tauto. Qed.

Lemma banded_app (a b c : Q) (l1 l2 : list Q) :
  a <= b -> b <= c ->
  banded a b l1 -> banded b c l2 -> banded a c (l1 ++ l2).
Proof.
  intros Hab Hbc [Hs1 Hb1] [Hs2 Hb2]. split.
  - induction l1 as [| x l1 IH]; simpl; [exact Hs2 |].
    inversion Hs1; subst. inversion Hb1; subst. constructor.
    + apply IH; assumption.
    + apply Forall_app. split; [assumption |].
      eapply Forall_impl; [| exact Hb2]. simpl. intros y Hy. lra.
  - apply Forall_app. split.
    + eapply Forall_impl; [| exact Hb1]. simpl. intros x Hx. lra.
    + eapply Forall_impl; [| exact Hb2]. simpl. intros x Hx. lra.
Qed.

Lemma Qle_transitive : Relations_1.Transitive Qle.
Proof. intros x y z. apply Qle_trans. Qed.

Lemma banded_map (lo hi : Q) (f : Q -> Q) (l : list Q) :
  (forall x, In x l -> lo <= f x <= hi) ->
  (forall x y, x <= y -> f x <= f y) ->
  Sorted Qle l -> banded lo hi (map f l).
Proof.
  intros Hrange Hmono Hs.
  apply (Sorted_StronglySorted Qle_transitive) in Hs.
  split.
  - clear Hrange.
    induction Hs as [| x l Hs IH Hx]; simpl; constructor; [exact IH |].
    apply Forall_map. eapply Forall_impl; [| exact Hx]. simpl. apply Hmono.
  - apply Forall_map. apply Forall_forall. exact Hrange.
Qed.

Lemma banded_Sorted (lo hi : Q) (l : list Q) : banded lo hi l -> Sorted Qle l.
Proof. intros [H _]. apply StronglySorted_Sorted. exact H. Qed.

Lemma Sorted_app_l (l1 l2 : list Q) : Sorted Qle (l1 ++ l2) -> Sorted Qle l1.
Proof.
  intros H. apply (Sorted_StronglySorted Qle_transitive) in H.
  apply StronglySorted_Sorted.
  induction l1 as [| x l1 IH]; [constructor |].
  simpl in H. inversion H; subst. constructor; [apply IH; assumption |].
  apply Forall_app in H3. tauto.
Qed.

Lemma Sorted_app_r (l1 l2 : list Q) : Sorted Qle (l1 ++ l2) -> Sorted Qle l2.
Proof.
  induction l1 as [| x l1 IH]; simpl; [auto |].
  intros H. apply IH. inversion H; assumption.
Qed.

(** ** What the upload loop writes *)

Lemma upload_loop_spec (uploads : nat -> upload_attempt)
  (retries attempt : nat) (t : transfer) :
  exists ps rest,
    scripted_progress uploads retries attempt = ps ++ rest /\
    percents (snd (upload_loop uploads retries attempt t))
      = percents t ++ map upload_percent ps /\
    job_filename (snd (upload_loop uploads retries attempt t)) = job_filename t /\
    (forall P : Q -> Prop,
       P (percent t) -> (forall x, P (upload_percent x)) ->
       P (percent (snd (upload_loop uploads retries attempt t)))) /\
    (fst (upload_loop uploads retries attempt t) = Ok Rejected ->
       state (snd (upload_loop uploads retries attempt t)) = ERROR /\
       exists k response err,
         (attempt <= k < attempt + retries)%nat /\
         upload_outcome (uploads k) = Ok response /\
         getitem response (PStr "err") = Ok err /\
         py_eq err (PInt 0) = false) /\
    (fst (upload_loop uploads retries attempt t) <> Ok Rejected ->
       state (snd (upload_loop uploads retries attempt t)) = state t).
Proof.
  revert attempt t. induction retries as [| retries IH]; intros attempt t.
  - exists [], []. simpl. rewrite app_nil_r.
    repeat split; auto; discriminate.
  - rewrite upload_loop_step. cbv zeta. cbn [scripted_progress].
    destruct (upload_writes (uploads attempt) (act (Upload attempt) t))
      as (Hper & Hst & _ & Hjob & HP).
    cbv zeta in Hper, Hst, Hjob, HP.
    set (t1 := fold_left _ _ _) in *.
    simpl in Hper, Hst, Hjob, HP.
    assert (Hstop : forall r : result loop_exit, r <> Ok Rejected ->
      exists ps rest,
        upload_progress (uploads attempt)
          ++ scripted_progress uploads retries (S attempt) = ps ++ rest /\
        percents (snd (r, t1)) = percents t ++ map upload_percent ps /\
        job_filename (snd (r, t1)) = job_filename t /\
        (forall P : Q -> Prop,
           P (percent t) -> (forall x, P (upload_percent x)) ->
           P (percent (snd (r, t1)))) /\
        (fst (r, t1) = Ok Rejected ->
           state (snd (r, t1)) = ERROR /\
           exists k response err,
             (attempt <= k < attempt + S retries)%nat /\
             upload_outcome (uploads k) = Ok response /\
             getitem response (PStr "err") = Ok err /\
             py_eq err (PInt 0) = false) /\
        (fst (r, t1) <> Ok Rejected -> state (snd (r, t1)) = state t)).
    { intros r Hr.
      exists (upload_progress (uploads attempt)),
             (scripted_progress uploads retries (S attempt)).
      simpl. repeat split; auto; contradiction. }
    destruct (upload_outcome (uploads attempt)) as [response | e] eqn:Hout.
    + destruct (getitem response (PStr "err")) as [err | e] eqn:Herr;
        [| apply Hstop; discriminate].
      destruct (py_eq err (PInt 0)) eqn:Hzero; simpl negb; cbv iota;
        [apply Hstop; discriminate |].
      exists (upload_progress (uploads attempt)),
             (scripted_progress uploads retries (S attempt)).
      simpl. repeat split; auto.
      * exists attempt, response, err. repeat split; auto; lia.
      * intros H. contradiction.
    + destruct e; try (apply Hstop; discriminate).
      destruct (retryable status); [| apply Hstop; discriminate].
      destruct (reconnect_outcome (uploads attempt)).
      * destruct (IH (S attempt) (act Reconnect t1))
          as (ps & rest & Hscr & Hper' & Hjob' & HP' & Hrej & Hkeep).
        exists (upload_progress (uploads attempt) ++ ps), rest.
        split; [rewrite Hscr, app_assoc; reflexivity |].
        split; [rewrite Hper'; simpl percents;
                rewrite Hper, map_app, app_assoc; reflexivity |].
        repeat split; auto.
        -- rewrite Hjob'. exact Hjob.
        -- intros P H0 Hall. apply HP'; [| exact Hall]. simpl.
           apply HP; assumption.
        -- apply Hrej. assumption.
        -- destruct (Hrej H) as (_ & k & response & err & Hk & Hrest).
           exists k, response, err. split; [lia | exact Hrest].
        -- intros H. rewrite (Hkeep H). simpl. exact Hst.
      * destruct (Hstop (@Raise loop_exit e)) as (ps & rest & H); [discriminate |].
        exists ps, rest. exact H.
Qed.

(** ** What waiting for the file writes *)

Lemma wait_ready_spec (timeout t_last : Q) (ps : list poll) (t : transfer) :
  timeout <= t_last ->
  exists r t' done rest,
    wait_ready timeout ps t_last t = Some (r, t') /\
    ps = done ++ rest /\
    percents t'
      = percents t ++ map (fun p => waiting_percent timeout (t_progress p)) done /\
    state t' = state t /\
    actions t' = actions t /\
    (forall P : Q -> Prop,
       P (percent t) -> (forall now, P (waiting_percent timeout now)) ->
       P (percent t')).
Proof.
  intros Hlast. revert t. induction ps as [| p ps IH]; intros t.
  - simpl. destruct (Qlt_le_dec t_last timeout) as [Hlt | Hle]; [lra |].
    exists (Raise TimeoutError), t, [], []. simpl. rewrite app_nil_r.
    repeat split; auto.
  - assert (Hstop : forall r : result unit,
      exists r' t' done rest,
        Some (r, t) = Some (r', t') /\
        p :: ps = done ++ rest /\
        percents t'
          = percents t ++ map (fun p => waiting_percent timeout (t_progress p)) done /\
        state t' = state t /\
        actions t' = actions t /\
        (forall P : Q -> Prop,
           P (percent t) -> (forall now, P (waiting_percent timeout now)) ->
           P (percent t'))).
    { intros r. exists r, t, [], (p :: ps). simpl. rewrite app_nil_r.
      repeat split; auto. }
    assert (Hgo :
      exists r' t' done rest,
        wait_ready timeout ps t_last
          (set_percent (waiting_percent timeout (t_progress p)) t) = Some (r', t') /\
        p :: ps = done ++ rest /\
        percents t'
          = percents t ++ map (fun p => waiting_percent timeout (t_progress p)) done /\
        state t' = state t /\
        actions t' = actions t /\
        (forall P : Q -> Prop,
           P (percent t) -> (forall now, P (waiting_percent timeout now)) ->
           P (percent t'))).
    { destruct (IH (set_percent (waiting_percent timeout (t_progress p)) t))
        as (r' & t' & done & rest & Hrun & Hps & Hper & Hst & Hact & HP).
      exists r', t', (p :: done), rest. simpl in *.
      rewrite Hper, <- app_assoc. simpl.
      split; [exact Hrun |]. split; [congruence |].
      repeat split; auto.
      intros P _ Hall. apply HP; [apply Hall | exact Hall]. }
    simpl. destruct (Qlt_le_dec (t_check p) timeout); [| apply Hstop].
    destruct (fileinfo p) as [response | e].
    + destruct (getitem response (PStr "err")) as [err | e]; [| apply Hstop].
      destruct (py_eq err (PInt 0)); [apply Hstop | apply Hgo].
    + destruct (transient e); [apply Hgo | apply Hstop].
Qed.

(** ** The phases of the pipeline *)

Lemma download_phase (c : collaborators) (t0 : transfer) :
  percents (downloaded c t0)
    = percents t0 ++ 0 :: map clamp_progress (download_progress (download c)) /\
  state (downloaded c t0) = DOWNLOADING /\
  0 <= percent (downloaded c t0) <= 50 /\
  (Sorted Qle (download_progress (download c)) ->
   banded 0 50 (0 :: map clamp_progress (download_progress (download c)))).
Proof.
  unfold downloaded.
  destruct (write_percents (fun acc x => set_percent (clamp_progress x) acc)
              clamp_progress (fun _ _ => eq_refl) (download_progress (download c))
              (set_percent 0 (set_state DOWNLOADING t0)))
    as (Hper & Hst & _ & _ & HP).
  simpl in Hper, Hst, HP.
  split; [| split; [| split; [split |]]].
  - rewrite Hper, <- app_assoc. reflexivity.
  - exact Hst.
  - apply (HP (fun v => 0 <= v)); [lra | apply clamp_progress_range].
  - apply (HP (fun v => v <= 50)); [lra | apply clamp_progress_range].
  - intros Hs.
    change (0 :: map clamp_progress (download_progress (download c)))
      with ([0] ++ map clamp_progress (download_progress (download c))).
    apply (banded_app 0 0 50); try lra.
    + apply banded_single. lra.
    + apply banded_map; auto using clamp_progress_mono.
      intros x _. apply clamp_progress_range.
Qed.

Lemma upload_phase (c : collaborators) (t1 : transfer) :
  0 <= percent t1 <= 50 ->
  exists ps rest,
    scripted_progress (uploads c) 3 0 = ps ++ rest /\
    percents (snd (upload_loop (uploads c) 3 0 t1))
      = percents t1 ++ map upload_percent ps /\
    0 <= percent (snd (upload_loop (uploads c) 3 0 t1)) <= 90 /\
    (fst (upload_loop (uploads c) 3 0 t1) = Ok Rejected ->
       state (snd (upload_loop (uploads c) 3 0 t1)) = ERROR /\ device_rejects c) /\
    (fst (upload_loop (uploads c) 3 0 t1) <> Ok Rejected ->
       state (snd (upload_loop (uploads c) 3 0 t1)) = state t1) /\
    (Sorted Qle (scripted_progress (uploads c) 3 0) ->
       banded 50 90 (map upload_percent ps)).
Proof.
  intros Hrange.
  destruct (upload_loop_spec (uploads c) 3 0 t1)
    as (ps & rest & Hscr & Hper & _ & HP & Hrej & Hkeep).
  exists ps, rest.
  split; [exact Hscr |]. split; [exact Hper |]. split.
  { split.
    - apply (HP (fun v => 0 <= v)); [lra |].
      intros x. pose proof (upload_percent_range x). lra.
    - apply (HP (fun v => v <= 90)); [lra |].
      intros x. pose proof (upload_percent_range x). lra. }
  split.
  { intros H. split; [apply Hrej; assumption |].
    destruct (Hrej H) as (_ & k & response & err & Hk & Hrest).
    exists k, response, err. split; [lia | exact Hrest]. }
  split; [exact Hkeep |].
  intros Hs. rewrite Hscr in Hs. apply Sorted_app_l in Hs.
  apply banded_map; auto using upload_percent_mono.
  intros x _. apply upload_percent_range.
Qed.

Lemma waiting_phase (event : FileDemandData) (c : collaborators) (t2 : transfer) :
  t_start c + 400 <= t_final c ->
  percent t2 <= 90 ->
  exists r t3 ws,
    _auto_start_file event c t2 = Some (r, t3) /\
    percents t3 = percents t2 ++ ws /\
    state t3 = state t2 /\
    percent t3 <= 999 # 10 /\
    (Sorted Qle (t_start c :: map t_progress (polls c)) ->
       banded 90 (999 # 10) ws).
Proof.
  intros Hlast Hrange. unfold _auto_start_file. cbv zeta.
  destruct (wait_ready_spec (t_start c + 400) (t_final c) (polls c)
              (set_job_filename (file_name event) t2) Hlast)
    as (r & t3 & done & rest & Hrun & Hps & Hper & Hst & _ & HP).
  rewrite Hrun.
  assert (Hband : Sorted Qle (t_start c :: map t_progress (polls c)) ->
            banded 90 (999 # 10)
              (map (fun p => waiting_percent (t_start c + 400) (t_progress p)) done)).
  { intros Hs. rewrite Hps, map_app in Hs.
    change (t_start c :: map t_progress done ++ map t_progress rest)
      with ((t_start c :: map t_progress done) ++ map t_progress rest) in Hs.
    apply Sorted_app_l in Hs.
    pose proof (Sorted_extends Qle_transitive Hs) as Hfrom.
    apply Sorted_inv in Hs as [Hs _].
    rewrite <- map_map.
    apply banded_map; auto using waiting_percent_mono.
    intros x Hx. rewrite Forall_forall in Hfrom.
    split; [apply waiting_percent_ge; auto | apply waiting_percent_le]. }
  assert (Hle : percent t3 <= 999 # 10).
  { apply (HP (fun v => v <= 999 # 10)); [simpl; lra |].
    intros now. apply waiting_percent_le. }
  simpl in Hper, Hst.
  destruct r as [u | e].
  - exists (Ok tt), (act StartPrint t3),
      (map (fun p => waiting_percent (t_start c + 400) (t_progress p)) done).
    simpl. auto.
  - exists (Raise e), t3,
      (map (fun p => waiting_percent (t_start c + 400) (t_progress p)) done).
    auto.
Qed.

Lemma banded_weaken (a b a' b' : Q) (l : list Q) :
  a' <= a -> b <= b' -> banded a b l -> banded a' b' l.
Proof.
  intros Ha Hb [Hs Hr]. split; [exact Hs |].
  eapply Forall_impl; [| exact Hr]. simpl. intros x Hx. lra.
Qed.

(** The body of the pipeline, phase by phase. *)
Lemma pipeline_body_spec (event : FileDemandData) (c : collaborators) (t0 : transfer) :
  t_start c + 400 <= t_final c ->
  exists r t new,
    pipeline_body event c t0 = Some (r, t) /\
    percents t = percents t0 ++ new /\
    (r = Ok tt ->
       (upload_exit c t0 <> Ok Rejected /\ state t = READY /\ percent t = 100) \/
       (upload_exit c t0 = Ok Rejected /\
        state t = ERROR /\ percent t <= 90 /\ device_rejects c)) /\
    (forall e, r = Raise e -> state t = DOWNLOADING /\ percent t <= 999 # 10) /\
    (download_outcome (download c) = Ok tt ->
     upload_exit c t0 = Ok Rejected -> r = Ok tt) /\
    (Sorted Qle (download_progress (download c)) ->
     Sorted Qle (scripted_progress (uploads c) 3 0) ->
     Sorted Qle (t_start c :: map t_progress (polls c)) ->
     banded 0 100 new).
Proof.
  intros Hlast. unfold pipeline_body, upload_exit. cbv zeta.
  destruct (download_phase c t0) as (Hper1 & Hst1 & Hr1 & Hb1).
  set (t1 := downloaded c t0) in *.
  destruct (download_outcome (download c)) as [u | e].
  2: { exists (Raise e), t1, (0 :: map clamp_progress (download_progress (download c))).
       split; [reflexivity |]. split; [exact Hper1 |].
       split; [discriminate |]. split; [| split; [discriminate |]].
       - intros e' _. split; [exact Hst1 | lra].
       - intros Hd _ _. apply (banded_weaken 0 50); try lra. auto. }
  destruct (upload_phase c t1 Hr1)
    as (ps & rest & Hscr & Hper2 & Hr2 & Hrej & Hkeep & Hb2).
  destruct (upload_loop (uploads c) 3 0 t1) as [[ex | e] t2] eqn:HR;
    simpl in Hper2, Hr2, Hrej, Hkeep; simpl fst.
  2: { exists (Raise e), t2,
         ((0 :: map clamp_progress (download_progress (download c)))
          ++ map upload_percent ps).
       split; [reflexivity |].
       split; [rewrite Hper2, Hper1, <- app_assoc; reflexivity |].
       split; [discriminate |]. split; [| split; [discriminate |]].
       - intros e' _. rewrite Hkeep by discriminate. split; [exact Hst1 | lra].
       - intros Hd Hu _. apply (banded_app 0 50 100); try lra; auto.
         apply (banded_weaken 50 90); try lra. auto. }
  assert (Hgo : ex <> Rejected ->
    exists r t new,
      (if auto_start event
       then match _auto_start_file event c t2 with
            | Some (Ok _, t3) => Some (Ok tt, set_state READY (set_percent 100 t3))
            | other => other
            end
       else Some (Ok tt, set_state READY (set_percent 100 t2))) = Some (r, t) /\
      percents t = percents t0 ++ new /\
      (r = Ok tt ->
         (Ok ex <> Ok Rejected /\ state t = READY /\ percent t = 100) \/
         (Ok ex = Ok Rejected /\
          state t = ERROR /\ percent t <= 90 /\ device_rejects c)) /\
      (forall e, r = Raise e -> state t = DOWNLOADING /\ percent t <= 999 # 10) /\
      (Ok u = Ok tt -> Ok ex = Ok Rejected -> r = Ok tt) /\
      (Sorted Qle (download_progress (download c)) ->
       Sorted Qle (scripted_progress (uploads c) 3 0) ->
       Sorted Qle (t_start c :: map t_progress (polls c)) ->
       banded 0 100 new)).
  { intros Hex.
    assert (Hne : @Ok loop_exit ex <> Ok Rejected) by congruence.
    assert (Hst2 : state t2 = DOWNLOADING).
    { rewrite Hkeep; [exact Hst1 | exact Hne]. }
    destruct (auto_start event).
    - destruct (waiting_phase event c t2 Hlast (proj2 Hr2))
        as (r & t3 & ws & Hrun & Hper3 & Hst3 & Hle3 & Hb3).
      rewrite Hrun. destruct r as [u' | e].
      + exists (Ok tt), (set_state READY (set_percent 100 t3)),
          ((0 :: map clamp_progress (download_progress (download c)))
           ++ map upload_percent ps ++ ws ++ [100]).
        split; [reflexivity |]. split.
        { simpl. rewrite Hper3, Hper2, Hper1, <- !app_assoc. reflexivity. }
        split; [intros _; left; split; [exact Hne | split; reflexivity] |].
        split; [discriminate |]. split; [intros _ Habs; contradiction |].
        intros Hd Hu Hc.
        apply (banded_app 0 50 100); try lra; auto.
        apply (banded_app 50 90 100); try lra; auto.
        apply (banded_app 90 (999 # 10) 100); try lra; auto.
        apply banded_single. lra.
      + exists (Raise e), t3,
          ((0 :: map clamp_progress (download_progress (download c)))
           ++ map upload_percent ps ++ ws).
        split; [reflexivity |]. split.
        { rewrite Hper3, Hper2, Hper1, <- !app_assoc. reflexivity. }
        split; [discriminate |]. split; [| split; [intros _ Habs; contradiction |]].
        * intros e' _. rewrite Hst3. split; [exact Hst2 | exact Hle3].
        * intros Hd Hu Hc.
          apply (banded_app 0 50 100); try lra; auto.
          apply (banded_app 50 90 100); try lra; auto.
          apply (banded_weaken 90 (999 # 10)); try lra. auto.
    - exists (Ok tt), (set_state READY (set_percent 100 t2)),
        ((0 :: map clamp_progress (download_progress (download c)))
         ++ map upload_percent ps ++ [100]).
      split; [reflexivity |]. split.
      { simpl. rewrite Hper2, Hper1, <- !app_assoc. reflexivity. }
      split; [intros _; left; split; [exact Hne | split; reflexivity] |].
      split; [discriminate |]. split; [intros _ Habs; contradiction |].
      intros Hd Hu _.
      apply (banded_app 0 50 100); try lra; auto.
      apply (banded_app 50 90 100); try lra; auto.
      apply banded_single. lra. }
  destruct ex; try (apply Hgo; discriminate).
  exists (Ok tt), t2,
    ((0 :: map clamp_progress (download_progress (download c)))
     ++ map upload_percent ps).
  split; [reflexivity |].
  split; [rewrite Hper2, Hper1, <- app_assoc; reflexivity |].
  destruct (Hrej eq_refl) as [Herr Hdev].
  split; [intros _; right; split; [reflexivity |];
          split; [exact Herr | split; [lra | exact Hdev]] |].
  split; [discriminate |]. split; [reflexivity |].
  intros Hd Hu _. apply (banded_app 0 50 100); try lra; auto.
  apply (banded_weaken 50 90); try lra. auto.
Qed.

(** ** The pipeline under [async_supress] *)

(** The pipeline, by the way the upload loop is left. *)
Lemma pipeline_outcome_by_exit
  (event : FileDemandData) (c : collaborators) (t0 : transfer) :
  t_start c + 400 <= t_final c ->
  exists r t,
    _download_file_from_sp_and_upload_to_duet event c t0 = Some (r, t) /\
    (download_outcome (download c) = Ok tt ->
     upload_exit c t0 = Ok Rejected ->
       r = Ok tt /\ state t = ERROR /\ percent t <= 90 /\ device_rejects c) /\
    (body_returns event c t0 ->
     upload_exit c t0 = Ok Uploaded ->
       r = Ok tt /\ state t = READY /\ percent t = 100) /\
    (Sorted Qle (download_progress (download c)) ->
     Sorted Qle (scripted_progress (uploads c) 3 0) ->
     Sorted Qle (t_start c :: map t_progress (polls c)) ->
     exists new, percents t = percents t0 ++ new /\ Sorted Qle new).
Proof.
  intros Hlast.
  destruct (pipeline_body_spec event c t0 Hlast)
    as (r & t & new & Hrun & Hper & Hok & Hraise & Hrej & Hband).
  unfold _download_file_from_sp_and_upload_to_duet, async_supress, body_returns.
  rewrite Hrun.
  assert (Hsorted : Sorted Qle (download_progress (download c)) ->
            Sorted Qle (scripted_progress (uploads c) 3 0) ->
            Sorted Qle (t_start c :: map t_progress (polls c)) ->
            exists new0, percents t = percents t0 ++ new0 /\ Sorted Qle new0).
  { intros Hd Hu Hc. exists new. split; [exact Hper |].
    apply (banded_Sorted 0 100). auto. }
  destruct r as [[] | e].
  - exists (Ok tt), t. split; [reflexivity |].
    destruct (Hok eq_refl) as [(Hne & Hst & Hp) | (Hex & Hst & Hp & Hdev)].
    + split; [intros _ Habs; contradiction |].
      split; [intros _ _; auto | exact Hsorted].
    + split; [intros _ _; auto |].
      split; [intros _ Habs; congruence | exact Hsorted].
  - assert (Hcase : forall r' a,
      exists r0 t1,
        Some (r', act a t) = Some (r0, t1) /\
        (download_outcome (download c) = Ok tt ->
         upload_exit c t0 = Ok Rejected ->
           r0 = Ok tt /\ state t1 = ERROR /\ percent t1 <= 90 /\ device_rejects c) /\
        ((exists t2, Some (@Raise unit e, t) = Some (Ok tt, t2)) ->
         upload_exit c t0 = Ok Uploaded ->
           r0 = Ok tt /\ state t1 = READY /\ percent t1 = 100) /\
        (Sorted Qle (download_progress (download c)) ->
         Sorted Qle (scripted_progress (uploads c) 3 0) ->
         Sorted Qle (t_start c :: map t_progress (polls c)) ->
         exists new0, percents t1 = percents t0 ++ new0 /\ Sorted Qle new0)).
    { intros r' a. exists r', (act a t). split; [reflexivity |].
      split; [intros Hd Hx; specialize (Hrej Hd Hx); discriminate |].
      split; [intros (t2 & Habs); discriminate | exact Hsorted]. }
    destruct e; simpl; try apply Hcase.
    exists (@Raise unit KeyboardInterrupt), t. split; [reflexivity |].
    split; [intros Hd Hx; specialize (Hrej Hd Hx); discriminate |].
    split; [intros (t2 & Habs); discriminate | exact Hsorted].
Qed.

(** The loop gets to the attempt the device answers. *)
Lemma upload_loop_answered (uploads : nat -> upload_attempt)
  (response err : pyval) (k : nat) :
  forall (retries attempt : nat) (t : transfer),
  (k < retries)%nat ->
  (forall j, (j < k)%nat -> refused_and_reconnected (uploads (attempt + j)%nat)) ->
  upload_outcome (uploads (attempt + k)%nat) = Ok response ->
  getitem response (PStr "err") = Ok err ->
  fst (upload_loop uploads retries attempt t)
  = Ok (if py_eq err (PInt 0) then Uploaded else Rejected).
Proof.
  induction k as [| k IH]; intros retries attempt t Hlt Hbefore Hout Herr.
  - destruct retries as [| retries]; [lia |].
    rewrite Nat.add_0_r in Hout. cbn [upload_loop]. cbv zeta.
    rewrite Hout, Herr. destruct (py_eq err (PInt 0)); reflexivity.
  - destruct retries as [| retries]; [lia |].
    destruct (Hbefore 0%nat ltac:(lia)) as (status & Hst & Hcode & Hrec).
    rewrite Nat.add_0_r in Hst, Hrec. cbn [upload_loop]. cbv zeta.
    rewrite Hst, Hrec.
    assert (Hretry : retryable status = true)
      by (destruct Hcode as [-> | ->]; reflexivity).
    rewrite Hretry.
    apply IH.
    + lia.
    + intros j Hj. replace (S attempt + j)%nat with (attempt + S j)%nat by lia.
      apply Hbefore. lia.
    + replace (S attempt + k)%nat with (attempt + S k)%nat by lia. exact Hout.
    + exact Herr.
Qed.

(** The wait ends at the poll that finds the file ready. *)
Lemma wait_ready_file_ready (deadline t_last : Q) (before : list poll) (p : poll)
  (after : list poll) (response err : pyval) :
  forall t : transfer,
  Forall (poll_goes_on deadline) before ->
  t_check p < deadline ->
  fileinfo p = Ok response ->
  getitem response (PStr "err") = Ok err ->
  py_eq err (PInt 0) = true ->
  exists t', wait_ready deadline (before ++ p :: after) t_last t = Some (Ok tt, t').
Proof.
  induction before as [| q rest IH]; intros t Hbefore Hcheck Hinfo Herr Hzero.
  - cbn [app wait_ready]. cbv zeta.
    destruct (Qlt_le_dec (t_check p) deadline) as [_ | Hge];
      [| exfalso; apply (Qlt_not_le _ _ Hcheck Hge)].
    rewrite Hinfo, Herr, Hzero. eauto.
  - inversion Hbefore as [| q' rest' (Hq & Hgo) Hrest]; subst.
    cbn [app wait_ready]. cbv zeta.
    destruct (Qlt_le_dec (t_check q) deadline) as [_ | Hge];
      [| exfalso; apply (Qlt_not_le _ _ Hq Hge)].
    destruct Hgo as [(e & He & Hclass) | (resp & er & Hresp & Her & Hnz)].
    + rewrite He.
      assert (Htr : transient e = true) by (destruct Hclass as [-> | ->]; reflexivity).
      rewrite Htr. apply IH; auto.
    + rewrite Hresp, Her, Hnz. apply IH; auto.
Qed.

(** C3, as the code has it.  Let the recorded clock reach the deadline of
    the readiness wait.  Then the pipeline ends.  On the device-rejection
    path (the download succeeds and the device answers an upload, every
    attempt before it having been refused with status 401 or 500 and
    retried, with an error code that is not zero) the pipeline returns
    with the state ERROR at a percent of at most 90.  On a success path
    (the device answers such an upload with the error code zero and, for
    a demand that starts the print, reports the file ready before the
    deadline) it returns with the state READY at exactly 100.  The values
    written to [percent] are non-decreasing whenever the progress values
    of the download, those of the upload attempts taken together, and the
    clock readings are. *)
Theorem transfer_percent_and_terminal_state
  (event : FileDemandData) (c : collaborators) (t0 : transfer) :
  t_start c + 400 <= t_final c ->
  exists r t,
    _download_file_from_sp_and_upload_to_duet event c t0 = Some (r, t) /\
    (device_rejection_path c ->
       r = Ok tt /\ state t = ERROR /\ percent t <= 90) /\
    (success_path event c ->
       r = Ok tt /\ state t = READY /\ percent t = 100) /\
    (Sorted Qle (download_progress (download c)) ->
     Sorted Qle (scripted_progress (uploads c) 3 0) ->
     Sorted Qle (t_start c :: map t_progress (polls c)) ->
     exists new, percents t = percents t0 ++ new /\ Sorted Qle new).
Proof.
  intros Hlast.
  destruct (pipeline_outcome_by_exit event c t0 Hlast)
    as (r & t & Hrun & Hrej & Hok & Hsorted).
  exists r, t. split; [exact Hrun |].
  split; [| split; [| exact Hsorted]].
  - intros (Hdown & k & response & err & (Hk & Hbefore & Hout) & Herr & Hnz).
    assert (Hexit : upload_exit c t0 = Ok Rejected).
    { unfold upload_exit.
      rewrite (upload_loop_answered (uploads c) response err k 3 0
                 (downloaded c t0) Hk Hbefore Hout Herr).
      rewrite Hnz. reflexivity. }
    destruct (Hrej Hdown Hexit) as (H1 & H2 & H3 & _). auto.
  - intros (Hdown & (k & response & err & (Hk & Hbefore & Hout) & Herr & Hz) & Hauto).
    assert (Hexit : upload_exit c t0 = Ok Uploaded).
    { unfold upload_exit.
      rewrite (upload_loop_answered (uploads c) response err k 3 0
                 (downloaded c t0) Hk Hbefore Hout Herr).
      rewrite Hz. reflexivity. }
    apply Hok; [| exact Hexit].
    unfold body_returns, pipeline_body. cbv zeta. rewrite Hdown.
    unfold upload_exit in Hexit.
    destruct (upload_loop (uploads c) 3 0 (downloaded c t0)) as [ex t2].
    cbn [fst] in Hexit. rewrite Hexit.
    destruct (auto_start event) eqn:Hstart; [| eauto].
    destruct (Hauto eq_refl)
      as (before & p & after & resp & er & Hpolls & Hgo & Hcheck & Hinfo & Her & Hzero).
    unfold _auto_start_file. cbv zeta. rewrite Hpolls.
    destruct (wait_ready_file_ready (t_start c + 400) (t_final c) before p after
                resp er (set_job_filename (file_name event) t2)
                Hgo Hcheck Hinfo Her Hzero) as (t3 & Hwait).
    rewrite Hwait. eauto.
Qed.

(** A device that refuses the upload with [err = 1], and a device that
    accepts it and reports the file ready at the third poll. *)
Lemma transfer_percent_and_terminal_state_witness :
  (exists r t,
     _download_file_from_sp_and_upload_to_duet plain_demand rejected_run idle
       = Some (r, t) /\
     r = Ok tt /\ state t = ERROR /\ percent t <= 90) /\
  (exists r t,
     _download_file_from_sp_and_upload_to_duet auto_start_demand polled_run idle
       = Some (r, t) /\
     r = Ok tt /\ state t = READY /\ percent t = 100).
Proof.
  split.
  - destruct (transfer_percent_and_terminal_state plain_demand rejected_run idle)
      as (r & t & Hrun & Hrej & _).
    { vm_compute. discriminate. }
    exists r, t. split; [exact Hrun |]. apply Hrej.
    split; [reflexivity |].
    exists 0%nat, (PDict [("err", PInt 1)]), (PInt 1).
    split; [| split; reflexivity].
    split; [lia |]. split; [intros j Hj; lia | reflexivity].
  - destruct (transfer_percent_and_terminal_state auto_start_demand polled_run idle)
      as (r & t & Hrun & _ & Hok & _).
    { vm_compute. discriminate. }
    exists r, t. split; [exact Hrun |]. apply Hok.
    split; [reflexivity |]. split.
    + exists 0%nat, (PDict [("err", PInt 0)]), (PInt 0).
      split; [| split; reflexivity].
      split; [lia |]. split; [intros j Hj; lia | reflexivity].
    + intros _.
      exists [mk_poll 1000 (Raise TimeoutError) 1010;
              mk_poll 1011 (Ok (PDict [("err", PInt 1)])) 1011],
             (mk_poll 1020 (Ok (PDict [("err", PInt 0)])) 1020), [],
             (PDict [("err", PInt 0)]), (PInt 0).
      split; [reflexivity |]. split.
      * apply Forall_cons; [| apply Forall_cons; [| apply Forall_nil]].
        -- split; [vm_compute; reflexivity |].
           left. exists TimeoutError. auto.
        -- split; [vm_compute; reflexivity |].
           right. exists (PDict [("err", PInt 1)]), (PInt 1). auto.
      * split; [vm_compute; reflexivity |]. repeat split.
Defined.

(** The three lists of that run are non-decreasing. *)
Example polled_run_is_monotone :
  Sorted Qle (download_progress (download polled_run)) /\
  Sorted Qle (scripted_progress (uploads polled_run) 3 0) /\
  Sorted Qle (t_start polled_run :: map t_progress (polls polled_run)).
Proof.
  repeat split; vm_compute;
    repeat (constructor; try (vm_compute; discriminate)).
Qed.

(** C3 as stated fails.  An upload refused with status 401 after it has
    reported half of its progress is made again from the start, and the
    percent, which had reached 75, is written as 50; the second upload is
    refused with status 404, the exception ends the body, [async_supress]
    logs it, and the state stays DOWNLOADING.  The percent values of the
    run are not non-decreasing and the run does not end in READY or
    ERROR. *)
Lemma retried_upload_regresses_and_stays_downloading :
  exists r t,
    _download_file_from_sp_and_upload_to_duet plain_demand retried_then_refused_run idle
      = Some (r, t) /\
    ~ Sorted Qle (percents t) /\
    is_terminal (state t) = false.
Proof.
  eexists. eexists. split; [vm_compute; reflexivity |].
  split; [| reflexivity].
  intros H.
  do 5 (apply Sorted_inv in H as [H _]).
  apply Sorted_inv in H as [_ H]. inversion H as [| b l Hle]; subst.
  vm_compute in Hle. apply Hle. reflexivity.
Qed.

Example retried_then_refused_run_trace :
  summary (_download_file_from_sp_and_upload_to_duet plain_demand
             retried_then_refused_run idle)
  = Some (Ok tt, DOWNLOADING, 75, [0; 0; 25; 50; 50; 75; 50; 75],
          [Upload 0; Reconnect; Upload 1; LogException (ClientResponseError 404)]).
Proof. vm_compute. reflexivity. Qed.

(** With a second upload that succeeds the run ends READY, and the
    percent has fallen back all the same. *)
Example retried_upload_percent_regresses :
  exists r t,
    _download_file_from_sp_and_upload_to_duet plain_demand retried_run idle
      = Some (r, t) /\
    ~ Sorted Qle (percents t).
Proof.
  eexists. eexists. split; [vm_compute; reflexivity |].
  intros H.
  do 5 (apply Sorted_inv in H as [H _]).
  apply Sorted_inv in H as [_ H]. inversion H as [| b l Hle]; subst.
  vm_compute in Hle. apply Hle. reflexivity.
Qed.

(** An upload refused with status 404 ends the body by the exception;
    [async_supress] logs it and the state stays DOWNLOADING. *)
Example transfer_left_downloading_after_upload_error :
  exists t,
    _download_file_from_sp_and_upload_to_duet plain_demand not_found_run idle
      = Some (Ok tt, t) /\
    state t = DOWNLOADING /\
    is_terminal (state t) = false /\
    actions t = [Upload 0; LogException (ClientResponseError 404)].
Proof.
  eexists. split; [vm_compute; reflexivity |]. repeat split.
Qed.

End TransferFacts.

(* ===================================================================== *)
(** * More about the upload loop and the percent values                  *)
(* ===================================================================== *)

Module UploadLoopFacts.
Import Py FileTransfer Properties Shapes PercentFacts TransferFacts.

Local Open Scope list_scope.

Lemma alternating_step (k r : nat) :
  alternating k (S r) = Upload k :: Reconnect :: alternating (S k) r.
Proof. reflexivity. Qed.

Lemma alternating_length (k r : nat) : List.length (alternating k r) = (2 * r)%nat.
Proof.
  revert k. induction r as [| r IH]; intros k; [reflexivity |].
  rewrite alternating_step. simpl. rewrite IH. lia.
Qed.

Lemma upload_loop_calls (uploads : nat -> upload_attempt)
  (retries attempt : nat) (t : transfer) :
  exists m,
    (m <= 2 * retries)%nat /\
    (retries <> 0%nat -> (1 <= m)%nat) /\
    actions (snd (upload_loop uploads retries attempt t))
    = actions t ++ firstn m (alternating attempt retries).
Proof.
  revert attempt t. induction retries as [| retries IH]; intros attempt t.
  - exists 0%nat. simpl. rewrite app_nil_r. repeat split; auto. congruence.
  - rewrite upload_loop_step. cbv zeta. rewrite alternating_step.
    destruct (upload_writes (uploads attempt) (act (Upload attempt) t))
      as (_ & _ & Hact & _).
    cbv zeta in Hact. simpl actions at 2 in Hact.
    set (t1 := fold_left _ _ _) in *.
    assert (Hone :
      exists m,
        (m <= 2 * S retries)%nat /\
        (S retries <> 0%nat -> (1 <= m)%nat) /\
        actions t1
        = actions t ++ firstn m (Upload attempt :: Reconnect
                                   :: alternating (S attempt) retries)).
    { exists 1%nat. simpl. repeat split; auto; lia. }
    destruct (upload_outcome (uploads attempt)) as [response | e].
    + destruct (getitem response (PStr "err")) as [err | e]; [| exact Hone].
      destruct (negb (py_eq err (PInt 0))); exact Hone.
    + destruct e; try exact Hone.
      destruct (retryable status); [| exact Hone].
      destruct (reconnect_outcome (uploads attempt)).
      * destruct (IH (S attempt) (act Reconnect t1)) as (m & Hm & _ & Hrun).
        exists (S (S m)). split; [lia |]. split; [lia |].
        rewrite Hrun. simpl actions. rewrite Hact, <- !app_assoc. reflexivity.
      * exists 2%nat. split; [lia |]. split; [lia |].
        simpl actions. rewrite Hact, <- app_assoc. reflexivity.
Qed.

(** X1.  Whatever the device answers, the upload loop of the pipeline
    calls the device in the order upload 0, reconnect, upload 1,
    reconnect, upload 2, reconnect and stops somewhere in that list
    after at least the first upload: there are between one and three
    uploads, every reconnect directly follows an upload, and every upload
    but the first directly follows a reconnect. *)
Theorem upload_loop_alternates_upload_and_reconnect
  (uploads : nat -> upload_attempt) (t : transfer) :
  exists m,
    (1 <= m <= 6)%nat /\
    actions (snd (upload_loop uploads 3 0 t))
    = actions t ++ firstn m [Upload 0; Reconnect; Upload 1; Reconnect;
                             Upload 2; Reconnect].
Proof.
  destruct (upload_loop_calls uploads 3 0 t) as (m & Hm & Hone & Hrun).
  exists m. split; [split; [apply Hone; discriminate | simpl in Hm; lia] |].
  exact Hrun.
Qed.

(** X2.  An upload that fails with a status other than 401 and 500 ends
    the loop at once with that error: no reconnect and no further upload
    are made, and the state of the transfer is not touched. *)
Theorem upload_failure_not_retryable_propagates
  (uploads : nat -> upload_attempt) (retries attempt : nat) (t : transfer)
  (status : Z) :
  upload_outcome (uploads attempt) = Raise (ClientResponseError status) ->
  status <> 401%Z -> status <> 500%Z ->
  fst (upload_loop uploads (S retries) attempt t)
    = Raise (ClientResponseError status) /\
  actions (snd (upload_loop uploads (S retries) attempt t))
    = actions t ++ [Upload attempt] /\
  state (snd (upload_loop uploads (S retries) attempt t)) = state t.
Proof.
  intros Hout H401 H500.
  assert (Hno : retryable status = false).
  { unfold retryable. apply orb_false_iff. split; apply Z.eqb_neq; assumption. }
  rewrite upload_loop_step. cbv zeta. rewrite Hout, Hno.
  destruct (upload_writes (uploads attempt) (act (Upload attempt) t))
    as (_ & Hst & Hact & _).
  repeat split; [exact Hact | exact Hst].
Qed.

Lemma upload_failure_not_retryable_propagates_witness :
  fst (upload_loop (uploads not_found_run) 3 0 idle)
    = Raise (ClientResponseError 404) /\
  actions (snd (upload_loop (uploads not_found_run) 3 0 idle))
    = actions idle ++ [Upload 0] /\
  state (snd (upload_loop (uploads not_found_run) 3 0 idle)) = state idle.
Proof.
  apply (upload_failure_not_retryable_propagates (uploads not_found_run) 2 0 idle 404);
    [reflexivity | discriminate | discriminate].
Defined.

(** X3.  The percent written by the upload callback is a whole number
    between 50 and 90 and grows with the progress reported; a progress of
    0 or less is shown as 50 and a progress of 80 or more as 90.  Nothing
    but the percent is written. *)
Theorem upload_file_progress_band (progress : Q) (t : transfer) :
  (50 <= percent (_upload_file_progress progress t) <= 90)%Q /\
  (exists z : Z, (percent (_upload_file_progress progress t) == inject_Z z)%Q) /\
  (forall other : Q, (progress <= other)%Q ->
     (percent (_upload_file_progress progress t)
      <= percent (_upload_file_progress other t))%Q) /\
  ((progress <= 0)%Q -> (percent (_upload_file_progress progress t) == 50)%Q) /\
  ((80 <= progress)%Q -> (percent (_upload_file_progress progress t) == 90)%Q) /\
  state (_upload_file_progress progress t) = state t /\
  percents (_upload_file_progress progress t)
    = percents t ++ [percent (_upload_file_progress progress t)].
Proof.
  simpl. split; [apply upload_percent_range |].
  split.
  { unfold upload_percent.
    destruct (Q.min_spec (inject_Z (Telemetry.py_round
               (50 + Qmax 0 (Qmin 50 (progress / 2))))) 90) as [[_ H] | [_ H]].
    - eexists. exact H.
    - exists 90%Z. exact H. }
  split; [intros other H; apply upload_percent_mono; exact H |].
  split.
  { intros Hneg. unfold upload_percent.
    assert (Hc : (Qmax 0 (Qmin 50 (progress / 2)) == 0)%Q).
    { apply Q.max_l. apply Qle_trans with (progress / 2)%Q; [apply Q.le_min_r |].
      unfold Qdiv. change (/ 2)%Q with (1 # 2)%Q. lra. }
    assert (Hv : (50 + Qmax 0 (Qmin 50 (progress / 2)) == 50)%Q) by lra.
    assert (Hr : Telemetry.py_round (50 + Qmax 0 (Qmin 50 (progress / 2))) = 50%Z).
    { assert (Hle : (50 + Qmax 0 (Qmin 50 (progress / 2)) <= 50)%Q) by lra.
      assert (Hge : (50 <= 50 + Qmax 0 (Qmin 50 (progress / 2)))%Q) by lra.
      pose proof (py_round_mono _ _ Hle) as H1.
      pose proof (py_round_mono _ _ Hge) as H2.
      change (Telemetry.py_round 50) with 50%Z in H1, H2. lia. }
    rewrite Hr. reflexivity. }
  split; [| split; reflexivity].
  intros Hbig. unfold upload_percent. apply Q.min_r.
  assert (Hc : (40 <= Qmax 0 (Qmin 50 (progress / 2)))%Q).
  { apply Qle_trans with (Qmin 50 (progress / 2)); [| apply Q.le_max_r].
    apply Q.min_glb; [lra |]. unfold Qdiv. change (/ 2)%Q with (1 # 2)%Q. lra. }
  change 90%Q with (inject_Z 90). apply inject_Z_le.
  pose proof (py_round_bounds (50 + Qmax 0 (Qmin 50 (progress / 2)))) as [Hlo _].
  assert (Hfl : (90 <= Qfloor (50 + Qmax 0 (Qmin 50 (progress / 2))))%Z).
  { change 90%Z with (Qfloor 90). apply Qfloor_resp_le. lra. }
  lia.
Qed.

End UploadLoopFacts.

(* ===================================================================== *)
(** * More about waiting for the uploaded file                           *)
(* ===================================================================== *)

Module AutoStartFacts.
Import Py FileTransfer Properties PercentFacts TransferFacts.

Local Open Scope string_scope.
Local Open Scope list_scope.

(** Waiting writes percent values only, and what it raises is the
    deadline or an error of a poll that is not tolerated. *)
Lemma wait_ready_frames (timeout t_last : Q) (ps : list poll) (t t' : transfer)
  (r : result unit) :
  wait_ready timeout ps t_last t = Some (r, t') ->
  job_filename t' = job_filename t /\
  actions t' = actions t /\
  state t' = state t /\
  (forall e, r = Raise e -> e <> ClientConnectionError).
Proof.
  revert t. induction ps as [| p ps IH]; intros t; simpl.
  - destruct (Qlt_le_dec t_last timeout); [discriminate |].
    intros H. inversion H; subst. repeat split.
    intros e He. inversion He. discriminate.
  - assert (Hgo : wait_ready timeout ps t_last
                    (set_percent (waiting_percent timeout (t_progress p)) t)
                  = Some (r, t') ->
                  job_filename t' = job_filename t /\
                  actions t' = actions t /\
                  state t' = state t /\
                  (forall e, r = Raise e -> e <> ClientConnectionError)).
    { intros H. apply IH in H. exact H. }
    destruct (Qlt_le_dec (t_check p) timeout).
    + destruct (fileinfo p) as [response | e].
      * destruct (getitem response (PStr "err")) as [err | e] eqn:Herr.
        -- destruct (py_eq err (PInt 0)); [| exact Hgo].
           intros H. inversion H; subst. repeat split. discriminate.
        -- intros H. inversion H; subst. repeat split.
           intros e' He'. inversion He'; subst.
           apply PyFacts.getitem_str_key_raises in Herr as [-> | ->]; discriminate.
      * destruct (transient e) eqn:Htr; [exact Hgo |].
        intros H. inversion H; subst. repeat split.
        intros e' He'. inversion He'; subst. intros ->. discriminate.
    + intros H. inversion H; subst. repeat split.
      intros e He. inversion He. discriminate.
Qed.

(** X4.  When [_auto_start_file] ends, the job file name is the file of
    the demand, in every case.  The print is started, once, exactly when
    the wait returned; when it raised, nothing was started, and the
    error is never the connection error of a poll, which the wait
    tolerates. *)
Theorem auto_start_starts_print_only_when_ready
  (event : FileDemandData) (c : collaborators) (t t' : transfer) (r : result unit) :
  _auto_start_file event c t = Some (r, t') ->
  job_filename t' = Some (file_name event) /\
  state t' = state t /\
  (r = Ok tt -> actions t' = actions t ++ [StartPrint]) /\
  (forall e, r = Raise e ->
     actions t' = actions t /\ e <> ClientConnectionError).
Proof.
  unfold _auto_start_file. cbv zeta.
  destruct (wait_ready (t_start c + 400) (polls c) (t_final c)
              (set_job_filename (file_name event) t))
    as [[[u | e] t2] |] eqn:Hrun; [| | discriminate].
  - intros H. inversion H; subst.
    apply wait_ready_frames in Hrun as (Hjob & Hact & Hst & _).
    simpl in *.
    split; [exact Hjob |]. split; [exact Hst |].
    split; [intros _; rewrite Hact; reflexivity | intros e0 He; discriminate].
  - intros H. inversion H; subst.
    apply wait_ready_frames in Hrun as (Hjob & Hact & Hst & Herr).
    simpl in *.
    split; [exact Hjob |]. split; [exact Hst |].
    split; [discriminate |].
    intros e0 He. split; [exact Hact | apply Herr; exact He].
Qed.

Lemma auto_start_starts_print_only_when_ready_witness :
  exists t',
    job_filename t' = Some (file_name auto_start_demand) /\
    state t' = state idle /\
    (Ok tt = Ok tt -> actions t' = actions idle ++ [StartPrint]) /\
    (forall e, Ok tt = Raise e ->
       actions t' = actions idle /\ e <> ClientConnectionError).
Proof.
  eexists.
  apply (auto_start_starts_print_only_when_ready auto_start_demand polled_run idle).
  vm_compute. reflexivity.
Defined.

(** X5.  Let the recorded clock reach the deadline and never run
    backwards from the start of the wait.  Then [_auto_start_file] ends,
    and the percent values it writes are non-decreasing and lie between
    90 and 99.9: the transfer never shows 100 while it waits. *)
Theorem auto_start_percent_between_90_and_999
  (event : FileDemandData) (c : collaborators) (t : transfer) :
  (t_start c + 400 <= t_final c)%Q ->
  (percent t <= 90)%Q ->
  Sorted Qle (t_start c :: map t_progress (polls c)) ->
  exists r t' ws,
    _auto_start_file event c t = Some (r, t') /\
    percents t' = percents t ++ ws /\
    Sorted Qle ws /\
    Forall (fun x => 90 <= x <= 999 # 10)%Q ws /\
    (percent t' <= 999 # 10)%Q.
Proof.
  intros Hlast Hp Hclock.
  destruct (waiting_phase event c t Hlast Hp)
    as (r & t' & ws & Hrun & Hper & _ & Hle & Hband).
  exists r, t', ws. destruct (Hband Hclock) as [Hs Hr].
  repeat split; auto. apply StronglySorted_Sorted. exact Hs.
Qed.

Lemma auto_start_percent_between_90_and_999_witness :
  exists r t' ws,
    _auto_start_file auto_start_demand polled_run
      (set_percent 90 idle) = Some (r, t') /\
    percents t' = percents (set_percent 90 idle) ++ ws /\
    Sorted Qle ws /\
    Forall (fun x => 90 <= x <= 999 # 10)%Q ws /\
    (percent t' <= 999 # 10)%Q.
Proof.
  apply (auto_start_percent_between_90_and_999 auto_start_demand polled_run
           (set_percent 90 idle)).
  - vm_compute. discriminate.
  - vm_compute. discriminate.
  - vm_compute. repeat (constructor; try (vm_compute; discriminate)).
Defined.

End AutoStartFacts.

(* ===================================================================== *)
(** * More about the temperatures                                        *)
(* ===================================================================== *)

Module TemperatureMoreFacts.
Import Py Client Telemetry Properties.

Local Open Scope string_scope.
Local Open Scope list_scope.

Lemma update_nth_length {A} (n : nat) (f : A -> A) (l : list A) :
  List.length (update_nth n f l) = List.length l.
Proof.
  revert n. induction l as [| x l IH]; intros [| n]; simpl; auto.
Qed.

(** One turn of the tool loop keeps the bed, the ambient temperature and
    the number of tools. *)
Lemma update_tool_frame (om heaters : pyval) (idx : nat) (p : printer) :
  let r := update_tool om heaters idx p in
  List.length (tool_temperatures (snd r)) = List.length (tool_temperatures p) /\
  ambient (snd r) = ambient p /\
  bed_temperature (snd r) = bed_temperature p /\
  status (snd r) = status p.
Proof.
  unfold update_tool, bind, lift, modify_tool, modify. simpl.
  destruct (rbind (getitem om (PStr "tools")) _) as [hidx | e]; simpl; auto.
  destruct (rbind (getitem heaters hidx) _) as [cur | e]; simpl; auto.
  destruct (target_of heaters hidx 1) as [tgt | e]; simpl;
    rewrite ?update_nth_length; auto.
Qed.

Lemma update_tools_frame (om heaters : pyval) (count idx : nat) (p : printer) :
  let r := update_tools om heaters idx count p in
  List.length (tool_temperatures (snd r)) = List.length (tool_temperatures p) /\
  ambient (snd r) = ambient p /\
  bed_temperature (snd r) = bed_temperature p /\
  status (snd r) = status p.
Proof.
  revert idx p. induction count as [| count IH]; intros idx p; simpl.
  - auto.
  - unfold bind.
    pose proof (update_tool_frame om heaters idx p) as Hone. cbv zeta in Hone.
    destruct (update_tool om heaters idx p) as [[u | e] p1]; simpl in Hone |- *.
    + specialize (IH (S idx) p1). cbv zeta in IH.
      destruct Hone as (H1 & H2 & H3 & H4). destruct IH as (I1 & I2 & I3 & I4).
      rewrite I1, I2, I3, I4. auto.
    + exact Hone.
Qed.

(** X6.  Whatever the object model holds, the temperature step of the
    object-model handler keeps the number of tool temperature entries and
    the status.  The ambient temperature is set to 20 when the update ran
    to its end and is left as it was in every other case. *)
Theorem temperature_step_keeps_tool_count (om : pyval) (p : printer) :
  let r := objectmodel_temperature_step om p in
  List.length (tool_temperatures (snd r)) = List.length (tool_temperatures p) /\
  status (snd r) = status p /\
  (fst (_update_temperatures om p) = Ok tt -> ambient (snd r) = PInt 20) /\
  (fst (_update_temperatures om p) <> Ok tt -> ambient (snd r) = ambient p).
Proof.
  assert (Hup : let u := _update_temperatures om p in
            List.length (tool_temperatures (snd u))
              = List.length (tool_temperatures p) /\
            status (snd u) = status p /\
            (fst u = Ok tt -> ambient (snd u) = PInt 20) /\
            (fst u <> Ok tt -> ambient (snd u) = ambient p)).
  { unfold _update_temperatures, bind, lift, gets, modify_bed, modify. simpl.
    destruct (rbind (getitem om (PStr "heat")) (fun heat => getitem heat (PStr "heaters")))
      as [heaters | e]; simpl; [| repeat split; auto; discriminate].
    destruct (rbind (getitem om (PStr "heat")) _) as [bidx | e]; simpl;
      [| repeat split; auto; discriminate].
    destruct (rbind (getitem heaters bidx) _) as [cur | e]; simpl;
      [| repeat split; auto; discriminate].
    destruct (target_of heaters bidx 0) as [tgt | e]; simpl;
      [| repeat split; auto; discriminate].
    set (p1 := set_bed _ _).
    pose proof (update_tools_frame om heaters (List.length (tool_temperatures p)) 0 p1)
      as Hloop. cbv zeta in Hloop.
    change (tool_temperatures p1) with (tool_temperatures p).
    destruct (update_tools om heaters 0 (List.length (tool_temperatures p)) p1)
      as [[u | e] p2]; simpl in Hloop |- *;
      destruct Hloop as (H1 & H2 & H3 & H4).
    - split; [exact H1 |]. split; [exact H4 |].
      split; [reflexivity |]. intros H. destruct u. contradiction.
    - split; [exact H1 |]. split; [exact H4 |].
      split; [discriminate |]. intros _. exact H2. }
  cbv zeta in Hup |- *.
  unfold objectmodel_temperature_step, try_except.
  destruct (_update_temperatures om p) as [[u | e] p1]; simpl in Hup |- *.
  - exact Hup.
  - destruct Hup as (H1 & H2 & H3 & H4).
    destruct (is_KeyError e); simpl; [| auto].
    unfold reset_actuals, bind, gets, modify_bed, modify_tool, modify. simpl.
    destruct (tool_temperatures p1) as [| t ts] eqn:Hts; simpl.
    + rewrite Hts. auto.
    + rewrite <- H1, Hts. simpl. auto.
Qed.

(** X7.  When the object model has no ['heat'] entry and the session has
    a tool, the step returns: the actual temperature of the bed and of
    the first tool are 0.0, while both targets, the other tools and the
    ambient temperature keep the values of the last report. *)
Theorem temperature_step_without_heat (om : pyval) (p : printer)
  (t : temperature) (ts : list temperature) :
  getitem om (PStr "heat") = Raise KeyError ->
  tool_temperatures p = t :: ts ->
  objectmodel_temperature_step om p
  = (Ok tt,
     set_tools (set_actual (PFloat 0) t :: ts)
       (set_bed (set_actual (PFloat 0) (bed_temperature p)) p)).
Proof.
  intros Hheat Htools.
  unfold objectmodel_temperature_step, try_except, _update_temperatures,
    bind, lift. rewrite Hheat. simpl.
  unfold reset_actuals, bind, gets, modify_bed, modify_tool, modify. simpl.
  rewrite Htools. simpl. rewrite Htools. reflexivity.
Qed.

Lemma temperature_step_without_heat_witness :
  objectmodel_temperature_step (PDict [("state", PDict [])]) one_tool_printer
  = (Ok tt,
     set_tools [set_actual (PFloat 0) (mk_temperature (PFloat 200) (PFloat 210))]
       (set_bed (set_actual (PFloat 0) (bed_temperature one_tool_printer))
          one_tool_printer)).
Proof.
  apply (temperature_step_without_heat (PDict [("state", PDict [])]) one_tool_printer
           (mk_temperature (PFloat 200) (PFloat 210)) []); reflexivity.
Defined.

End TemperatureMoreFacts.

(* ===================================================================== *)
(** * More about the command filter                                      *)
(* ===================================================================== *)

Module CommandFilterMoreFacts.
Import Py CommandFilter Properties CommandFilterFacts.

Local Open Scope string_scope.
Local Open Scope list_scope.

(** What the loop hands to the device, for any device. *)
Lemma process_items_sent
  (reply : list string -> string -> result string)
  (items : list gcode_item) (response : list string) (s : session) :
  exists new,
    sent (snd (fst (process_items reply items response s))) = sent s ++ new /\
    in_setup (snd (fst (process_items reply items response s))) = in_setup s /\
    short_id (snd (fst (process_items reply items response s))) = short_id s /\
    (in_setup s = true -> Forall (eq (identification_prompt s)) new) /\
    (in_setup s = false ->
       Forall (fun cmd => exists item,
                 In item items /\ is_allowed item = true /\ cmd = compress item) new).
Proof.
  revert response s. induction items as [| item rest IH]; intros response s.
  - exists []. simpl. rewrite app_nil_r. repeat split; auto.
  - rewrite process_items_cons.
    assert (Hskip : forall response',
      exists new,
        sent (snd (fst (process_items reply rest response' s))) = sent s ++ new /\
        in_setup (snd (fst (process_items reply rest response' s))) = in_setup s /\
        short_id (snd (fst (process_items reply rest response' s))) = short_id s /\
        (in_setup s = true -> Forall (eq (identification_prompt s)) new) /\
        (in_setup s = false ->
           Forall (fun cmd => exists it,
                     In it (item :: rest) /\ is_allowed it = true /\ cmd = compress it)
                  new)).
    { intros response'.
      destruct (IH response' s) as (new & H1 & H2 & H3 & H4 & H5).
      exists new. repeat split; auto.
      intros Hs. eapply Forall_impl; [| exact (H5 Hs)].
      intros cmd (it & Hin & Hal & Hc). exists it. simpl. auto. }
    assert (Hsend : forall cmd,
      (in_setup s = true -> cmd = identification_prompt s) ->
      (in_setup s = false -> is_allowed item = true /\ cmd = compress item) ->
      exists new,
        sent (snd (fst
          match duet_gcode reply cmd s with
          | (Ok r, s') => process_items reply rest (response ++ [r]) s'
          | (Raise e, s') => (Raise e, s', response)
          end)) = sent s ++ new /\
        in_setup (snd (fst
          match duet_gcode reply cmd s with
          | (Ok r, s') => process_items reply rest (response ++ [r]) s'
          | (Raise e, s') => (Raise e, s', response)
          end)) = in_setup s /\
        short_id (snd (fst
          match duet_gcode reply cmd s with
          | (Ok r, s') => process_items reply rest (response ++ [r]) s'
          | (Raise e, s') => (Raise e, s', response)
          end)) = short_id s /\
        (in_setup s = true -> Forall (eq (identification_prompt s)) new) /\
        (in_setup s = false ->
           Forall (fun cmd => exists it,
                     In it (item :: rest) /\ is_allowed it = true /\ cmd = compress it)
                  new)).
    { intros cmd Hprompt Hallowed. unfold duet_gcode.
      set (s1 := mk_session (in_setup s) (short_id s) (sent s ++ [cmd]) (upgrades s)).
      assert (Hhead :
        (in_setup s = true -> Forall (eq (identification_prompt s)) [cmd]) /\
        (in_setup s = false ->
           Forall (fun cmd => exists it,
                     In it (item :: rest) /\ is_allowed it = true /\ cmd = compress it)
                  [cmd])).
      { split; intros Hs; constructor; auto.
        - symmetry. auto.
        - exists item. simpl. destruct (Hallowed Hs). auto. }
      destruct (reply (sent s) cmd) as [r | e].
      - destruct (IH (response ++ [r]) s1) as (new & H1 & H2 & H3 & H4 & H5).
        exists (cmd :: new). rewrite H1, H2, H3. subst s1. simpl.
        rewrite <- app_assoc. simpl. repeat split; auto.
        + intros Hs. constructor; [symmetry; auto |].
          apply H4 in Hs. exact Hs.
        + intros Hs. constructor.
          * exists item. simpl. destruct (Hallowed Hs). auto.
          * eapply Forall_impl; [| exact (H5 Hs)].
            intros c (it & Hin & Hal & Hc). exists it. simpl. auto.
      - exists [cmd]. simpl. repeat split; tauto. }
    destruct (is_allowed item && negb (in_setup s)) eqn:Hfwd.
    + apply andb_true_iff in Hfwd as [Hal Hns]. apply negb_true_iff in Hns.
      apply Hsend; [congruence | auto].
    + destruct (is_M300 item && in_setup s) eqn:Hid.
      * apply andb_true_iff in Hid as [_ Hs].
        apply Hsend; [auto | congruence].
      * destruct (String.eqb (code item) "M997"); [| apply Hskip].
        simpl. exists []. rewrite app_nil_r. repeat split; auto.
Qed.

(** X8.  Whatever the device answers and whatever the batch holds:
    while the session is in setup, the only command the handler sends is
    the identification prompt; outside setup, every command it sends is
    the text of a token of the batch whose code is on the allow-list. *)
Theorem deferred_gcode_sends_only_allowed
  (reply : list string -> string -> result string)
  (items : list gcode_item) (s : session) :
  exists new,
    sent (snd (fst (deferred_gcode reply items s))) = sent s ++ new /\
    (in_setup s = true -> Forall (eq (identification_prompt s)) new) /\
    (in_setup s = false ->
       Forall (fun cmd => exists item,
                 In item items /\ mem (code item) allowed_commands = true /\
                 cmd = compress item) new).
Proof.
  unfold deferred_gcode.
  destruct (process_items_sent reply items [] s) as (new & H1 & _ & _ & H4 & H5).
  exists new. auto.
Qed.

(** X9.  The self-upgrade code ends the batch: what follows it in the
    batch has no effect at all, and the handler does not return. *)
Theorem deferred_gcode_stops_at_self_upgrade
  (reply : list string -> string -> result string)
  (before after : list gcode_item) (text : string) (s : session) :
  deferred_gcode reply (before ++ mk_item "M997" text :: after) s
  = deferred_gcode reply (before ++ [mk_item "M997" text]) s /\
  fst (fst (deferred_gcode reply (before ++ mk_item "M997" text :: after) s))
  <> Ok tt.
Proof.
  unfold deferred_gcode. generalize (@nil string) as response. revert s.
  induction before as [| item rest IH]; intros s response.
  - split; [reflexivity | simpl; discriminate].
  - simpl app. rewrite !process_items_cons.
    destruct (is_allowed item && negb (in_setup s)).
    + unfold duet_gcode. destruct (reply (sent s) (compress item)).
      * apply IH.
      * split; [reflexivity | simpl; discriminate].
    + destruct (is_M300 item && in_setup s).
      * unfold duet_gcode. destruct (reply (sent s) (identification_prompt s)).
        -- apply IH.
        -- split; [reflexivity | simpl; discriminate].
      * destruct (String.eqb (code item) "M997").
        -- split; [reflexivity | simpl; discriminate].
        -- apply IH.
Qed.

End CommandFilterMoreFacts.

(* ===================================================================== *)
(** * More about connecting                                              *)
(* ===================================================================== *)

Module IdentityMoreFacts.
Import Py Identity Properties.

Local Open Scope string_scope.
Local Open Scope list_scope.

Lemma set_printer_name_frame (model : string -> option string)
  (network : pyval) (c : client) :
  let r := _set_printer_name model network c in
  duet_unique_id (snd r) = duet_unique_id c /\
  emitted (snd r) = emitted c /\
  status (snd r) = status c.
Proof.
  unfold _set_printer_name, bind, lift, modify. simpl.
  destruct (getitem network (PStr "name")) as [name | e]; simpl; auto.
  destruct name; simpl; auto.
  destruct (model s); simpl; auto.
Qed.

Lemma set_firmware_info_frame (board : pyval) (c : client) :
  let r := _set_firmware_info board c in
  duet_unique_id (snd r) = duet_unique_id c /\
  emitted (snd r) = emitted c /\
  status (snd r) = status c.
Proof.
  unfold _set_firmware_info, bind, lift, modify. simpl.
  destruct (getitem board (PStr "firmwareName")) as [n | e]; simpl; auto.
  destruct (getitem board (PStr "firmwareVersion")) as [v | e]; simpl; auto.
Qed.

(** X10.  Once a unique id is stored, connecting never replaces it and
    never emits a configuration-changed event, whatever the device
    reports and whatever fails on the way; the status is either left as
    it was or forced to OFFLINE together with the [ValueError] of a
    mismatch. *)
Theorem duet_on_connect_keeps_stored_id
  (setup_prompt cookie : result unit) (model : string -> option string)
  (om : pyval) (c : client) :
  Client.is_None (duet_unique_id c) = false ->
  let r := _duet_on_connect setup_prompt cookie model om c in
  duet_unique_id (snd r) = duet_unique_id c /\
  emitted (snd r) = emitted c /\
  (status (snd r) = status c \/
   (status (snd r) = Client.OFFLINE /\ fst r = Raise ValueError)).
Proof.
  intros Hstored r. subst r.
  unfold _duet_on_connect, bind, gets, lift. simpl.
  destruct (if in_setup c then setup_prompt else cookie) as [u | e]; simpl; auto.
  destruct (rbind (getitem om (PStr "boards")) _) as [board | e]; simpl; auto.
  destruct (getitem om (PStr "network")) as [network | e]; simpl; auto.
  rewrite Hstored.
  unfold _validate_duet_unique_id, bind, gets, lift, log_error, modify. simpl.
  destruct (getitem board (PStr "uniqueId")) as [uid | e] eqn:Huid; simpl; auto.
  destruct (py_eq (duet_unique_id c) uid); simpl.
  - pose proof (set_printer_name_frame model network c) as Hname.
    cbv zeta in Hname.
    destruct (_set_printer_name model network c) as [[u1 | e] c1];
      simpl in Hname |- *; [| tauto].
    pose proof (set_firmware_info_frame board c1) as Hfw. cbv zeta in Hfw.
    destruct Hname as (N1 & N2 & N3). destruct Hfw as (F1 & F2 & F3).
    rewrite F1, F2, F3, N1, N2, N3. auto.
  - simpl. auto.
Qed.

Lemma duet_on_connect_keeps_stored_id_witness :
  let r := _duet_on_connect (Ok tt) (Ok tt) (fun _ => None)
             (board_om "B") (client_with_id (PStr "A")) in
  duet_unique_id (snd r) = duet_unique_id (client_with_id (PStr "A")) /\
  emitted (snd r) = emitted (client_with_id (PStr "A")) /\
  (status (snd r) = status (client_with_id (PStr "A")) \/
   (status (snd r) = Client.OFFLINE /\ fst r = Raise ValueError)).
Proof.
  apply (duet_on_connect_keeps_stored_id (Ok tt) (Ok tt) (fun _ => None)
           (board_om "B") (client_with_id (PStr "A"))).
  reflexivity.
Defined.

End IdentityMoreFacts.

(* ===================================================================== *)
(** * More about the status mapper                                       *)
(* ===================================================================== *)

Module StatusMapperMoreFacts.
Import Py Client Properties PyFacts StatusMapperFacts.

Local Open Scope string_scope.

(** X11.  When the object model has no device status to read (an entry
    is missing, or a value on the way is no dictionary), the mapper
    returns and the status becomes OFFLINE, whether or not the session
    counts as printing. *)
Theorem map_duet_state_without_status (om : pyval) (p : printer) (e : exn) :
  rbind (getitem om (PStr "state")) (fun st => getitem st (PStr "status")) = Raise e ->
  _map_duet_state_to_printer_status om p = (Ok tt, set_status OFFLINE p).
Proof.
  intros Hraise.
  assert (Hcaught : key_or_type_error e = true).
  { apply key_or_type_error_true.
    apply rbind_raise in Hraise as [H | (st & _ & H)];
      eapply getitem_str_key_raises; eassumption. }
  unfold _map_duet_state_to_printer_status, bind, lift, modify, read_printer_state.
  rewrite Hraise, Hcaught.
  destruct (_is_printing_returns om p) as (b & Hb & _). rewrite Hb.
  destruct b; reflexivity.
Qed.

Lemma map_duet_state_without_status_witness :
  _map_duet_state_to_printer_status (PDict [("state", PNone)])
    one_tool_printer
  = (Ok tt, set_status OFFLINE one_tool_printer).
Proof.
  apply (map_duet_state_without_status (PDict [("state", PNone)])
           one_tool_printer TypeError).
  reflexivity.
Defined.

(** X12.  The two tables differ on [simulating], [busy] and
    [changingTool] only: for every other device state the new status
    does not depend on whether the session counts as printing. *)
Theorem status_tables_differ_on_three_states (s : string) (b1 b2 : bool) :
  s <> "simulating" -> s <> "busy" -> s <> "changingTool" ->
  table_get (select_status_mapping b1) (PStr s) OFFLINE
  = table_get (select_status_mapping b2) (PStr s) OFFLINE.
Proof.
  intros H1 H2 H3.
  apply String.eqb_neq in H1, H2, H3.
  assert (H : forall b,
    table_get (select_status_mapping b) (PStr s) OFFLINE
    = table_get (select_status_mapping false) (PStr s) OFFLINE).
  { intros [|]; [| reflexivity].
    unfold select_status_mapping, table_get,
      duet_state_simplyprint_status_while_printing_mapping,
      duet_state_simplyprint_status_mapping.
    cbn [table_find]. rewrite H1, H2, H3. reflexivity. }
  rewrite (H b1), (H b2). reflexivity.
Qed.

Lemma status_tables_differ_on_three_states_witness :
  table_get (select_status_mapping true) (PStr "paused") OFFLINE
  = table_get (select_status_mapping false) (PStr "paused") OFFLINE.
Proof.
  apply (status_tables_differ_on_three_states "paused" true false); discriminate.
Defined.

End StatusMapperMoreFacts.

(* ===================================================================== *)
(** * More about snapshot demands                                        *)
(* ===================================================================== *)

Module SnapshotDemandFacts.
Import Webcam Properties.

Local Open Scope list_scope.

Lemma step_without_uri (w w' : webcam) :
  step w w' ->
  running w = [] /\ _webcam_distribution_task_handle w = None /\ webcam_uri w = false ->
  running w' = [] /\ _webcam_distribution_task_handle w' = None /\
  webcam_uri w' = false /\ (requested w <= requested w')%nat.
Proof.
  intros Hstep (Hrun & Hh & Huri). destruct Hstep; simpl.
  - unfold on_webcam_snapshot. simpl. rewrite Hh, Huri. simpl.
    repeat split; auto.
  - rewrite Hrun in H. contradiction.
  - rewrite Hrun in H. contradiction.
  - rewrite Hrun in H. contradiction.
  - auto.
  - auto.
Qed.

(** X13.  With no camera address configured, no distribution task is
    ever started: in every state the client reaches there is no running
    task and no handle.  Each snapshot demand still extends the window to
    ten seconds from now and queues one more request, and nothing takes
    requests from the queue. *)
Theorem snapshot_demands_without_camera (w : webcam) :
  reachable false w ->
  running w = [] /\
  _webcam_distribution_task_handle w = None /\
  (forall now,
     requested (on_webcam_snapshot now w) = S (requested w) /\
     _webcam_timeout (on_webcam_snapshot now w) = (now + 10)%Q /\
     running (on_webcam_snapshot now w) = []) /\
  (forall w', step w w' -> (requested w <= requested w')%nat).
Proof.
  intros Hreach.
  assert (Hinv : running w = [] /\ _webcam_distribution_task_handle w = None /\
                 webcam_uri w = false).
  { induction Hreach as [| w w' _ IH Hstep].
    - repeat split.
    - destruct (step_without_uri w w' Hstep IH) as (H1 & H2 & H3 & _). auto. }
  destruct Hinv as (Hrun & Hh & Huri).
  split; [exact Hrun |]. split; [exact Hh |]. split.
  - intros now. unfold on_webcam_snapshot. simpl. rewrite Hh, Huri. simpl. auto.
  - intros w' Hstep.
    destruct (step_without_uri w w' Hstep (conj Hrun (conj Hh Huri)))
      as (_ & _ & _ & H). exact H.
Qed.

Lemma snapshot_demands_without_camera_witness :
  let w := on_webcam_snapshot 1 (on_webcam_snapshot 0 (init false)) in
  running w = [] /\
  _webcam_distribution_task_handle w = None /\
  (forall now,
     requested (on_webcam_snapshot now w) = S (requested w) /\
     _webcam_timeout (on_webcam_snapshot now w) = (now + 10)%Q /\
     running (on_webcam_snapshot now w) = []) /\
  (forall w', step w w' -> (requested w <= requested w')%nat).
Proof.
  intros w.
  apply (snapshot_demands_without_camera w).
  unfold w. repeat (eapply reach_step; [| apply step_snapshot]). apply reach_init.
Defined.

End SnapshotDemandFacts.

(* ===================================================================== *)
(** * The filament sensor                                                *)
(* ===================================================================== *)

Module SensorFacts.
Import Py PyMore Sensors Shapes.

Local Open Scope string_scope.
Local Open Scope list_scope.

Lemma zero_lt_int (z : Z) : py_gt (PInt z) (PInt 0) = Ok (0 <? z)%Z.
Proof.
  unfold py_gt. simpl.
  destruct (Qlt_le_dec (inject_Z 0) (inject_Z z)) as [H | H];
    unfold Qlt, Qle in H; simpl in H; f_equal; symmetry;
    [apply Z.ltb_lt | apply Z.ltb_ge]; lia.
Qed.

Lemma float_lt (x y : Q) : py_lt (PFloat x) (PFloat y) = Ok (Qltb x y).
Proof. reflexivity. Qed.

(** What the loop body does with a monitor of the firmware. *)
Lemma check_monitor_reported (status : Client.PrinterStatus) (m : monitor)
  (s : sensor_state) :
  check_monitor status (monitor_om m) s =
  if runs_out status m then (Ok Break, mk_sensor_state (Some RUNOUT) true)
  else if enabled m then (Ok Next, mk_sensor_state (Some LOADED) true)
  else (Ok Next, s).
Proof.
  unfold check_monitor, runs_out, bind, lift, modify, ret.
  cbn [monitor_om py_get dict_get String.eqb Ascii.eqb Bool.eqb rbind].
  rewrite zero_lt_int. fold (enabled m).
  destruct (enabled m); [| reflexivity].
  cbn [andb py_eq]. destruct (String.eqb (status_text m) "ok"); [| reflexivity].
  cbn [negb orb].
  unfold drifted, below_configured.
  destruct (calibrated m) as [[lo hi] |].
  - cbn [truthy percentages andb].
    destruct (is_PAUSED status); [| reflexivity].
    cbn [py_get dict_get String.eqb Ascii.eqb Bool.eqb rbind percentages].
    rewrite !float_lt.
    destruct (Qltb lo (fst (configured m))); [reflexivity |].
    destruct (Qltb hi (snd (configured m))); reflexivity.
  - cbn [truthy andb]. rewrite andb_false_r. reflexivity.
Qed.

Lemma check_monitors_reported (status : Client.PrinterStatus) (ms : list monitor)
  (s : sensor_state) :
  check_monitors status (map monitor_om ms) s =
  (Ok tt,
   mk_sensor_state
     (if existsb (runs_out status) ms then Some RUNOUT
      else if existsb enabled ms then Some LOADED
      else filament_sensor s)
     (has_filament_settings s || existsb enabled ms)).
Proof.
  revert s. induction ms as [| m ms IH]; intros s.
  - simpl. rewrite orb_false_r. destruct s; reflexivity.
  - cbn [map check_monitors existsb]. unfold bind.
    rewrite check_monitor_reported.
    destruct (runs_out status m) eqn:Hout.
    + assert (Hen : enabled m = true).
      { unfold runs_out in Hout. apply andb_true_iff in Hout. tauto. }
      rewrite Hen. cbn [orb]. rewrite orb_true_r. reflexivity.
    + destruct (enabled m) eqn:Hen.
      * rewrite IH. cbn [orb filament_sensor has_filament_settings].
        rewrite orb_true_r.
        destruct (existsb (runs_out status) ms); [reflexivity |].
        destruct (existsb enabled ms); reflexivity.
      * rewrite IH. reflexivity.
Qed.

(** X14.  For the filament monitors as the firmware reports them, the
    update returns, and the sensor state is RUNOUT when some monitor
    runs out, LOADED when none does and some monitor is enabled, and left
    as it was when no monitor is enabled.  A monitor runs out when it is
    enabled and its status is not ["ok"] or, with the printer paused, its
    calibrated minimum or maximum is below the configured one.  The
    filament settings flag is raised as soon as a monitor is enabled. *)
Theorem update_filament_sensor_reports_runout
  (status : Client.PrinterStatus) (ms : list monitor) (s : sensor_state) :
  _update_filament_sensor status (monitors_om ms) s =
  (Ok tt,
   mk_sensor_state
     (if existsb (runs_out status) ms then Some RUNOUT
      else if existsb enabled ms then Some LOADED
      else filament_sensor s)
     (has_filament_settings s || existsb enabled ms)).
Proof.
  unfold _update_filament_sensor, monitors_om, bind, lift.
  cbn [py_get dict_get String.eqb Ascii.eqb Bool.eqb rbind iterate].
  apply check_monitors_reported.
Qed.

(** X15.  An object model without a ['sensors'] entry, or whose sensors
    list no filament monitor, leaves the sensor state and the settings
    flag as they are, and nothing is raised. *)
Theorem update_filament_sensor_without_monitors
  (status : Client.PrinterStatus) (d : list (string * pyval)) (s : sensor_state) :
  dict_get "sensors" d = None \/
  (exists sd, dict_get "sensors" d = Some (PDict sd) /\
              (dict_get "filamentMonitors" sd = None \/
               dict_get "filamentMonitors" sd = Some (PList []))) ->
  _update_filament_sensor status (PDict d) s = (Ok tt, s).
Proof.
  intros [Hnone | (sd & Hsd & [Hm | Hm])];
    unfold _update_filament_sensor, bind, lift; simpl;
    rewrite ?Hnone, ?Hsd; simpl; rewrite ?Hm; reflexivity.
Qed.

Lemma update_filament_sensor_without_monitors_witness :
  _update_filament_sensor Client.PRINTING (PDict [("state", PDict [])])
    (mk_sensor_state (Some LOADED) true)
  = (Ok tt, mk_sensor_state (Some LOADED) true).
Proof.
  apply (update_filament_sensor_without_monitors Client.PRINTING
           [("state", PDict [])] (mk_sensor_state (Some LOADED) true)).
  left. reflexivity.
Defined.

Example second_monitor_runs_out :
  _update_filament_sensor Client.PRINTING
    (monitors_om [mk_monitor 1 "ok" None (0, 0);
                  mk_monitor 2 "noFilament" None (0, 0);
                  mk_monitor 1 "ok" None (0, 0)])
    (mk_sensor_state None false)
  = (Ok tt, mk_sensor_state (Some RUNOUT) true).
Proof. reflexivity. Qed.

(** A monitor that is no dictionary ([null]) raises [AttributeError]. *)
Example null_monitor_raises :
  fst (_update_filament_sensor Client.PRINTING
         (PDict [("sensors", PDict [("filamentMonitors", PList [PNone])])])
         (mk_sensor_state None false))
  = Raise AttributeError.
Proof. reflexivity. Qed.

End SensorFacts.

(* ===================================================================== *)
(** * The job information                                                *)
(* ===================================================================== *)

Module JobFacts.
Import Py PyMore Jobs Properties Shapes PyFacts StatusMapperFacts JobProgressFacts.

Local Open Scope string_scope.
Local Open Scope list_scope.

(** The mapper either sets the status found in the selected table or
    raises and leaves the printer as it was. *)
Lemma map_duet_state_run (om : pyval) (p : Client.printer) :
  match Client.read_printer_state om with
  | Ok key =>
      exists b, Client._is_printing om p = (Ok b, p) /\
        Client._map_duet_state_to_printer_status om p =
        match Client.table_get (Client.select_status_mapping b) key Client.OFFLINE with
        | Ok st => (Ok tt, Client.set_status st p)
        | Raise e => (Raise e, p)
        end
  | Raise e => Client._map_duet_state_to_printer_status om p = (Raise e, p)
  end.
Proof.
  unfold Client._map_duet_state_to_printer_status, bind, lift, modify.
  destruct (Client.read_printer_state om) as [key | e]; [| reflexivity].
  destruct (_is_printing_returns om p) as (b & Hb & _).
  exists b. split; [exact Hb |]. rewrite Hb.
  destruct (Client.table_get (Client.select_status_mapping b) key Client.OFFLINE);
    reflexivity.
Qed.

(** The status update, run: the three branches written out. *)
Lemma update_printer_status_run (om : pyval) (s : tracked) :
  (exists e,
     (Client.read_printer_state om = Raise e \/
      exists key b,
        Client.read_printer_state om = Ok key /\
        Client.table_get (Client.select_status_mapping b) key Client.OFFLINE
        = Raise e) /\
     _update_printer_status om s = (Raise e, s)) \/
  (exists key b st,
     Client.read_printer_state om = Ok key /\
     Client._is_printing om (printer s) = (Ok b, printer s) /\
     Client.table_get (Client.select_status_mapping b) key Client.OFFLINE = Ok st /\
     _update_printer_status om s =
     (Ok tt,
      if is_status st Client.CANCELLING
         && is_status (Client.status (printer s)) Client.PRINTING
      then mk_tracked (Client.set_status st (printer s)) (set_cancelled (job s))
      else if is_status st Client.OPERATIONAL
              && (started (job s)
                  || is_status (Client.status (printer s)) Client.PRINTING)
      then mk_tracked (Client.set_job_progress 100 (Client.set_status st (printer s)))
                      (set_finished (job s))
      else mk_tracked (Client.set_status st (printer s)) (job s))).
Proof.
  pose proof (map_duet_state_run om (printer s)) as Hmap.
  unfold _update_printer_status, bind, gets, on_printer.
  destruct (Client.read_printer_state om) as [key | e].
  - destruct Hmap as (b & Hb & Hmap).
    destruct (Client.table_get (Client.select_status_mapping b) key Client.OFFLINE)
      as [st | e] eqn:Hget; rewrite Hmap.
    + right. exists key, b, st. repeat (split; [reflexivity || assumption |]).
      destruct s as [p j]. unfold _mark_job_as_finished, modify_job, on_printer,
        bind, modify, ret, set_printer, set_job. cbn [printer job].
      cbn [Client.status Client.set_status].
      destruct (is_status st Client.CANCELLING
                && is_status (Client.status p) Client.PRINTING);
        [reflexivity |].
      destruct (is_status st Client.OPERATIONAL); [| reflexivity].
      cbn [andb printer job].
      destruct (started j || is_status (Client.status p) Client.PRINTING);
        reflexivity.
    + left. exists e. split; [right; exists key, b; auto |].
      destruct s; reflexivity.
  - left. exists e. rewrite Hmap. split; [left; reflexivity |].
    destruct s; reflexivity.
Qed.

Lemma table_find_cancelling (b : bool) (k : string) :
  Client.table_find k (Client.select_status_mapping b) = Some Client.CANCELLING ->
  k = "cancelling".
Proof.
  destruct b; unfold Client.select_status_mapping,
    Client.duet_state_simplyprint_status_while_printing_mapping,
    Client.duet_state_simplyprint_status_mapping; cbn [Client.table_find];
    repeat match goal with
           | |- context [String.eqb k ?c] =>
               destruct (String.eqb_spec k c); [subst; try discriminate; auto |]
           end; discriminate.
Qed.

Lemma table_get_cancelling (b : bool) (key : pyval) :
  Client.table_get (Client.select_status_mapping b) key Client.OFFLINE
  = Ok Client.CANCELLING ->
  key = PStr "cancelling".
Proof.
  intros Hget. destruct key; simpl in Hget; try discriminate.
  destruct (Client.table_find s (Client.select_status_mapping b)) eqn:Hfind;
    [| discriminate].
  inversion Hget; subst. apply table_find_cancelling in Hfind. congruence.
Qed.

Lemma is_status_eq (a b : Client.PrinterStatus) : is_status a b = true <-> a = b.
Proof. destruct a, b; simpl; split; congruence. Qed.

Lemma is_status_neq (a b : Client.PrinterStatus) : is_status a b = false <-> a <> b.
Proof. destruct a, b; simpl; split; congruence. Qed.

(** X16.  After the status update the job is marked cancelled exactly
    when it was marked before, or the status was PRINTING and the device
    reports the state [cancelling]: a cancellation out of any other
    status (PAUSED included) is not recorded, and the mark is never taken
    back. *)
Theorem update_printer_status_records_cancel (om : pyval) (s : tracked) :
  cancelled (job (snd (_update_printer_status om s))) = true <->
  cancelled (job s) = true \/
  (Client.status (printer s) = Client.PRINTING /\
   Client.read_printer_state om = Ok (PStr "cancelling")).
Proof.
  destruct (update_printer_status_run om s)
    as [(e & Hwhy & Hrun) | (key & b & st & Hkey & Hb & Hget & Hrun)];
    rewrite Hrun; cbn [snd].
  - split; [auto |]. intros [H | [_ Hc]]; [exact H | exfalso].
    destruct Hwhy as [Hr | (key & b & Hr & Hget)]; [congruence |].
    rewrite Hr in Hc. inversion Hc; subst. discriminate.
  - destruct (is_status st Client.CANCELLING) eqn:Hnew;
      destruct (is_status (Client.status (printer s)) Client.PRINTING) eqn:Hold;
      cbn [andb].
    + apply is_status_eq in Hnew, Hold. subst st.
      apply table_get_cancelling in Hget. subst key.
      cbn [job set_cancelled cancelled]. tauto.
    + apply is_status_neq in Hold.
      destruct (is_status st Client.OPERATIONAL && _); cbn [job set_finished cancelled];
        tauto.
    + apply is_status_eq in Hold. apply is_status_neq in Hnew.
      assert (Hnot : key <> PStr "cancelling").
      { intros ->. unfold Client._is_printing in Hb. rewrite Hold in Hb.
        simpl in Hb. inversion Hb; subst b. simpl in Hget.
        inversion Hget; subst st. auto. }
      assert (Hno : ~ Client.read_printer_state om = Ok (PStr "cancelling"))
        by congruence.
      destruct (is_status st Client.OPERATIONAL && _); cbn [job set_finished cancelled];
        tauto.
    + apply is_status_neq in Hold.
      destruct (is_status st Client.OPERATIONAL && _); cbn [job set_finished cancelled];
        tauto.
Qed.

(** X17.  The status update marks the job finished exactly when the
    mapper returned with the new status OPERATIONAL and either the job was
    started or the old status was PRINTING; it then sets the progress to
    100, and otherwise leaves the progress as it was.  The finished mark is
    never taken back and the started mark is not touched. *)
Theorem update_printer_status_marks_finished (om : pyval) (s : tracked) :
  let r := _update_printer_status om s in
  let marks :=
    fst r = Ok tt /\ Client.status (printer (snd r)) = Client.OPERATIONAL /\
    (started (job s) = true \/ Client.status (printer s) = Client.PRINTING) in
  (finished (job (snd r)) = true <-> finished (job s) = true \/ marks) /\
  (marks -> Client.job_progress (printer (snd r)) = 100) /\
  (~ marks -> Client.job_progress (printer (snd r)) = Client.job_progress (printer s)) /\
  started (job (snd r)) = started (job s).
Proof.
  cbv zeta.
  destruct (update_printer_status_run om s)
    as [(e & Hwhy & Hrun) | (key & b & st & Hkey & Hb & Hget & Hrun)];
    rewrite Hrun; cbn [fst snd].
  - split; [| split; [| split; [| reflexivity]]];
      intuition (try discriminate; try congruence).
  - destruct (is_status st Client.CANCELLING) eqn:Hnew;
      destruct (is_status (Client.status (printer s)) Client.PRINTING) eqn:Hold;
      destruct (is_status st Client.OPERATIONAL) eqn:Hop;
      destruct (started (job s)) eqn:Hst;
      cbn [andb orb];
      cbn [job printer set_cancelled set_finished finished started Client.status
           Client.set_status Client.set_job_progress Client.job_progress];
      rewrite ?Hst;
      first [apply -> is_status_eq in Hnew | apply -> is_status_neq in Hnew];
      first [apply -> is_status_eq in Hold | apply -> is_status_neq in Hold];
      first [apply -> is_status_eq in Hop | apply -> is_status_neq in Hop];
      (split; [| split; [| split; [| reflexivity]]]);
      intuition (try discriminate; try congruence).
Qed.

(** A job cancelled while paused: the cancellation is not recorded, and
    once the device is idle again the job is reported finished at 100. *)
Example cancel_from_pause_ends_as_finished :
  let s1 := snd (_update_printer_status (status_om "cancelling") paused_job) in
  let s2 := snd (_update_printer_status (status_om "idle") s1) in
  Client.status (printer s1) = Client.CANCELLING /\ cancelled (job s1) = false /\
  Client.status (printer s2) = Client.OPERATIONAL /\ cancelled (job s2) = false /\
  finished (job s2) = true /\ Client.job_progress (printer s2) = 100.
Proof. vm_compute. repeat split. Qed.

(** ** The times left *)

Lemma first_truthy_or_zero (vs : list pyval) :
  truthy (first_truthy vs) = true \/ first_truthy vs = PInt 0.
Proof.
  unfold first_truthy. destruct (find truthy vs) as [v |] eqn:Hfind; [| auto].
  left. apply find_some in Hfind. tauto.
Qed.

Lemma update_times_left_dict (tl : list (string * pyval)) (s : tracked) :
  _update_times_left (PDict tl) s =
  (Ok tt,
   set_job (set_time (first_truthy [entry "filament" tl; entry "slicer" tl;
                                    entry "file" tl]) (job s)) s).
Proof.
  unfold _update_times_left, bind, lift, modify_job, modify, py_or, first_truthy,
    entry.
  cbn [py_get rbind find].
  destruct (truthy match dict_get "filament" tl with Some v => v | None => PNone end);
    [reflexivity |].
  cbn [rbind].
  destruct (truthy match dict_get "slicer" tl with Some v => v | None => PNone end);
    [reflexivity |].
  cbn [rbind].
  destruct (truthy match dict_get "file" tl with Some v => v | None => PNone end);
    reflexivity.
Qed.

Lemma update_times_left_other (v : pyval) (s : tracked) :
  (forall tl, v <> PDict tl) -> _update_times_left v s = (Raise AttributeError, s).
Proof.
  intros Hv. destruct v; try reflexivity. exfalso. eapply Hv. reflexivity.
Qed.

Lemma update_job_times_left_run (js : pyval) (s : tracked) :
  _update_job_times_left js s =
  match getitem js (PStr "timesLeft") with
  | Ok (PDict tl) =>
      (Ok tt,
       set_job (set_time (first_truthy [entry "filament" tl; entry "slicer" tl;
                                        entry "file" tl]) (job s)) s)
  | Ok _ => (Raise AttributeError, s)
  | Raise _ => (Ok tt, set_job (set_time (PInt 0) (job s)) s)
  end.
Proof.
  unfold _update_job_times_left, try_except, bind at 1, lift.
  destruct (getitem js (PStr "timesLeft")) as [v | e] eqn:Hget.
  - destruct v; try reflexivity. rewrite update_times_left_dict. reflexivity.
  - apply getitem_str_key_raises in Hget as [-> | ->]; reflexivity.
Qed.

(** X18.  The update of the time left never touches the printer.  With a
    dictionary under [timesLeft] it returns and stores the first of the
    filament, slicer and file estimates that counts as true, 0 when none
    does; when [timesLeft] cannot be read it returns and stores 0; when
    [timesLeft] holds anything but a dictionary ([None] included) it
    raises [AttributeError] and stores nothing.  A stored time is never a
    false value other than the integer 0. *)
Theorem update_job_times_left_first_estimate (js : pyval) (s : tracked) :
  let r := _update_job_times_left js s in
  printer (snd r) = printer s /\
  (forall tl, getitem js (PStr "timesLeft") = Ok (PDict tl) ->
     r = (Ok tt,
          set_job (set_time (first_truthy [entry "filament" tl; entry "slicer" tl;
                                           entry "file" tl]) (job s)) s)) /\
  (forall e, getitem js (PStr "timesLeft") = Raise e ->
     r = (Ok tt, set_job (set_time (PInt 0) (job s)) s)) /\
  (forall v, getitem js (PStr "timesLeft") = Ok v -> (forall tl, v <> PDict tl) ->
     r = (Raise AttributeError, s)) /\
  (fst r = Ok tt ->
     truthy (time (job (snd r))) = true \/ time (job (snd r)) = PInt 0).
Proof.
  cbv zeta. rewrite update_job_times_left_run.
  destruct (getitem js (PStr "timesLeft")) as [v | e].
  - assert (Hcases : (exists tl, v = PDict tl) \/ (forall tl, v <> PDict tl)).
    { destruct v; try (right; intros tl H; discriminate H). left. eauto. }
    destruct Hcases as [(tl & ->) | Hv].
    + split; [reflexivity |]. split; [intros tl' H; inversion H; reflexivity |].
      split; [intros e H; discriminate H |].
      split; [intros v H Hv; inversion H; subst; exfalso; eapply Hv; reflexivity |].
      intros _. cbn [snd job set_job time set_time]. apply first_truthy_or_zero.
    + assert (Hrun : match v with
                     | PDict tl =>
                         (Ok tt,
                          set_job (set_time (first_truthy
                            [entry "filament" tl; entry "slicer" tl; entry "file" tl])
                            (job s)) s)
                     | _ => (@Raise unit AttributeError, s)
                     end = (Raise AttributeError, s)).
      { destruct v; try reflexivity. exfalso. eapply Hv. reflexivity. }
      rewrite Hrun.
      split; [reflexivity |].
      split; [intros tl H; inversion H; subst; exfalso; eapply Hv; reflexivity |].
      split; [intros e H; discriminate H |].
      split; [reflexivity |]. intros H. discriminate H.
  - split; [reflexivity |]. split; [intros tl H; discriminate H |].
    split; [reflexivity |]. split; [intros v H; discriminate H |].
    intros _. right. reflexivity.
Qed.

Example times_left_skips_zero_estimate :
  time (job (snd (_update_job_times_left
    (PDict [("timesLeft", PDict [("filament", PInt 0); ("slicer", PNone);
                                 ("file", PInt 540)])]) paused_job)))
  = PInt 540.
Proof. reflexivity. Qed.

Example times_left_null_raises :
  _update_job_times_left (PDict [("timesLeft", PNone)]) paused_job
  = (Raise AttributeError, paused_job).
Proof. reflexivity. Qed.

(** ** The file name and the layer *)

Lemma py_lt_number (d : pyval) (q : Q) :
  num_of d = Some q ->
  py_lt d (PInt 10) = Ok (if Qlt_le_dec q 10 then true else false).
Proof.
  destruct d; simpl; intros H; inversion H; subst; reflexivity.
Qed.

(** What is no finite number is below 10 only when it is the negative
    infinity; NaN and the positive infinity are not, and the comparison
    of anything else with 10 raises [TypeError]. *)
Lemma py_lt_not_number (d : pyval) :
  num_of d = None ->
  py_lt d (PInt 10) =
  match d with
  | PInf negative => Ok negative
  | PNaN => Ok false
  | _ => Raise TypeError
  end.
Proof.
  destruct d; simpl; intros H; try discriminate H; reflexivity.
Qed.

Lemma getitem_str_key_dict (c : pyval) (k : string) (v : pyval) :
  getitem c (PStr k) = Ok v -> exists d, c = PDict d.
Proof.
  destruct c; simpl; intros H; try discriminate H; eauto.
Qed.

(** The file name update, by what it reads. *)
Lemma update_job_filename_run (path_name : string -> string) (js : pyval)
  (s : tracked) :
  _update_job_filename path_name js s =
  match rbind (getitem js (PStr "file")) (fun file => getitem file (PStr "fileName")) with
  | Ok (PStr path) =>
      (Ok tt,
       let named := set_job (set_filename (PStr (path_name path)) (job s)) s in
       match rbind (py_get js "duration" (PInt 0)) (fun d => py_lt d (PInt 10)) with
       | Ok true => set_job (set_started (job named)) named
       | _ => named
       end)
  | _ => (Ok tt, s)
  end.
Proof.
  unfold _update_job_filename, try_except, bind, lift, modify_job, modify, ret.
  destruct (rbind (getitem js (PStr "file")) _) as [v | e] eqn:Hread.
  - destruct v; try reflexivity.
    apply rbind_ok in Hread as (file & Hfile & _).
    apply getitem_str_key_dict in Hfile as (d & ->).
    cbn [py_get rbind].
    destruct (match dict_get "duration" d with Some v => v | None => PInt 0 end)
      as [| b | z | q | t | l | d' | n |] eqn:Hd; simpl; try reflexivity.
    + destruct (Qlt_le_dec (if b then 1 else 0) (inject_Z 10)); reflexivity.
    + destruct (Qlt_le_dec (inject_Z z) (inject_Z 10)); reflexivity.
    + destruct (Qlt_le_dec q (inject_Z 10)); reflexivity.
    + destruct n; reflexivity.
  - apply rbind_raise in Hread as [H | (f & _ & H)];
      apply getitem_str_key_raises in H as [-> | ->]; reflexivity.
Qed.

(** X19.  The file name update never raises and never touches the
    printer, the cancelled and finished marks, the time or the layer.
    When [job.file.fileName] holds a string the name becomes the last
    component of that path, and the job is marked started exactly when it
    was already, or the duration (0 when absent) is a number below 10 (a
    finite one, or the negative infinity); in every other case (no file,
    no name, a null name) nothing changes. *)
Theorem update_job_filename_never_raises (path_name : string -> string)
  (js : pyval) (s : tracked) :
  let r := _update_job_filename path_name js s in
  let read := rbind (getitem js (PStr "file"))
                (fun file => getitem file (PStr "fileName")) in
  fst r = Ok tt /\
  printer (snd r) = printer s /\
  cancelled (job (snd r)) = cancelled (job s) /\
  finished (job (snd r)) = finished (job s) /\
  time (job (snd r)) = time (job s) /\
  layer (job (snd r)) = layer (job s) /\
  (forall path, read = Ok (PStr path) ->
     filename (job (snd r)) = PStr (path_name path) /\
     (started (job (snd r)) = true <->
      started (job s) = true \/
      (exists d q, py_get js "duration" (PInt 0) = Ok d /\ num_of d = Some q /\
                   (q < 10)%Q) \/
      py_get js "duration" (PInt 0) = Ok (PInf true))) /\
  ((forall path, read <> Ok (PStr path)) -> snd r = s).
Proof.
  cbv zeta. rewrite update_job_filename_run.
  destruct (rbind (getitem js (PStr "file")) _) as [v | e] eqn:Hread.
  - assert (Hcases : (exists path, v = PStr path) \/ (forall path, v <> PStr path)).
    { destruct v; try (right; intros path H; discriminate H). left. eauto. }
    destruct Hcases as [(path & ->) | Hv].
    + apply rbind_ok in Hread as (file & Hfile & _).
      apply getitem_str_key_dict in Hfile as (d & ->).
      cbn [py_get rbind fst snd].
      set (d0 := match dict_get "duration" d with Some v => v | None => PInt 0 end).
      destruct (num_of d0) as [q |] eqn:Hnum.
      * rewrite (py_lt_number d0 q Hnum).
        destruct (Qlt_le_dec q 10) as [Hlt | Hge];
          cbn [printer job set_job set_started set_filename cancelled finished
               started time layer filename];
          (repeat (split; [reflexivity |])); split.
        -- intros path' H. inversion H; subst. split; [reflexivity |].
           split; [| reflexivity]. intros _. right. left. exists d0, q. auto.
        -- intros H. exfalso. eapply H. reflexivity.
        -- intros path' H. inversion H; subst. split; [reflexivity |].
           split; [auto |].
           intros [H' | [(d1 & q1 & Hd1 & Hq1 & Hlt) | Hd1]]; [exact H' | |].
           ++ inversion Hd1; subst d1. rewrite Hnum in Hq1. inversion Hq1; subst q1.
              exfalso. apply (Qlt_not_le _ _ Hlt Hge).
           ++ cbn [py_get] in Hd1. inversion Hd1 as [Hd0].
              try unfold d0 in *. rewrite Hd0 in Hnum. discriminate Hnum.
        -- intros H. exfalso. eapply H. reflexivity.
      * rewrite (py_lt_not_number d0 Hnum).
        assert (Hinf : d0 = PInf true \/ d0 <> PInf true).
        { destruct d0 as [| | | | | | | [|] |];
            try (right; discriminate); left; reflexivity. }
        destruct Hinf as [Hd0 | Hd0].
        -- rewrite Hd0.
           cbn [printer job set_job set_started set_filename cancelled finished
                started time layer filename].
           (repeat (split; [reflexivity |])); split.
           ++ intros path' H. inversion H; subst. split; [reflexivity |].
              split; [| reflexivity]. intros _. right. right.
              reflexivity.
           ++ intros H. exfalso. eapply H. reflexivity.
        -- assert (Hrun : match match d0 with
                                | PInf negative => Ok negative
                                | PNaN => Ok false
                                | _ => Raise TypeError
                                end with
                          | Ok true =>
                              set_job (set_started (job (set_job
                                (set_filename (PStr (path_name path)) (job s)) s)))
                                (set_job (set_filename (PStr (path_name path)) (job s)) s)
                          | _ => set_job (set_filename (PStr (path_name path)) (job s)) s
                          end
                          = set_job (set_filename (PStr (path_name path)) (job s)) s).
           { destruct d0 as [| | | | | | | [|] |]; try reflexivity.
             exfalso. apply Hd0. reflexivity. }
           cbv zeta. rewrite Hrun.
           cbn [printer job set_job set_started set_filename cancelled finished
                started time layer filename].
           (repeat (split; [reflexivity |])); split.
           ++ intros path' H. inversion H; subst. split; [reflexivity |].
              split; [auto |].
              intros [H' | [(d1 & q1 & Hd1 & Hq1 & _) | Hd1]]; [exact H' | |].
              ** inversion Hd1; subst d1. rewrite Hnum in Hq1. discriminate Hq1.
              ** cbn [py_get] in Hd1. inversion Hd1 as [Hd1'].
                 try unfold d0 in *. contradiction.
           ++ intros H. exfalso. eapply H. reflexivity.
    + destruct v; try (exfalso; eapply Hv; reflexivity);
        cbn [fst snd]; (repeat (split; [reflexivity |])); split;
        try (intros path H; discriminate H); reflexivity.
  - cbn [fst snd]. (repeat (split; [reflexivity |])); split;
      [intros path H; discriminate H | reflexivity].
Qed.

Example filename_of_fresh_job :
  let r := _update_job_filename (fun _ => "part.gcode")
             (PDict [("file", PDict [("fileName", PStr "0:/gcodes/part.gcode")]);
                     ("duration", PInt 3)])
             (mk_tracked one_tool_printer
                (mk_job_info false false false (PInt 0) PNone (PInt 0))) in
  filename (job (snd r)) = PStr "part.gcode" /\ started (job (snd r)) = true.
Proof. split; reflexivity. Qed.

Example filename_null_changes_nothing :
  _update_job_filename (fun p => p)
    (PDict [("file", PDict [("fileName", PNone)]); ("duration", PNone)]) paused_job
  = (Ok tt, paused_job).
Proof. reflexivity. Qed.

(** ** The whole job update *)

Lemma keeps_refl (s : tracked) : keeps s s.
Proof. unfold keeps. tauto. Qed.

Lemma keeps_trans (s1 s2 s3 : tracked) : keeps s1 s2 -> keeps s2 s3 -> keeps s1 s3.
Proof.
  unfold keeps. intros (H1 & H2 & H3 & H4) (H5 & H6 & H7 & H8).
  repeat split; try congruence. auto.
Qed.

(** Two steps that keep the marks and raise nothing else, in sequence. *)
Lemma bind_keeps {A B} (m : eff tracked A) (k : A -> eff tracked B) (s : tracked) :
  keeps s (snd (m s)) -> escapes_as_expected (fst (m s)) ->
  (forall a s', keeps s' (snd (k a s')) /\ escapes_as_expected (fst (k a s'))) ->
  keeps s (snd (bind m k s)) /\ escapes_as_expected (fst (bind m k s)).
Proof.
  unfold bind. destruct (m s) as [[a | e] s1]; cbn [fst snd]; intros Hk He Hnext.
  - destruct (Hnext a s1) as (Hk2 & He2). split; [| exact He2].
    eapply keeps_trans; eauto.
  - split; [exact Hk |]. intros e' H. inversion H; subst. apply He. reflexivity.
Qed.

Lemma progress_keeps (fos : string -> option pyfloat) (js : pyval) (s : tracked) :
  keeps s (snd (on_printer (Telemetry._update_job_progress fos js) s)) /\
  escapes_as_expected (fst (on_printer (Telemetry._update_job_progress fos js) s)).
Proof.
  unfold on_printer. rewrite update_job_progress_cases.
  assert (Hraise : forall e,
            Telemetry.progress_caught e = true \/ e = ValueError \/ e = OverflowError ->
            let r := if Telemetry.progress_caught e
                     then (Ok tt, Client.set_job_progress 0 (printer s))
                     else (@Raise unit e, printer s) in
            keeps s (snd (let (r0, p) := r in (r0, set_printer p s))) /\
            escapes_as_expected (fst (let (r0, p) := r in (r0, set_printer p s)))).
  { intros e He. cbv zeta. destruct (Telemetry.progress_caught e) eqn:Hcaught; cbn [fst snd].
    - split; [unfold keeps; cbn; tauto | intros e' H; discriminate H].
    - split; [unfold keeps; cbn; tauto |]. intros e' H. inversion H; subst e'.
      destruct He as [He | [-> | ->]]; [discriminate He | auto | auto]. }
  destruct (rbind (getitem js (PStr "file")) _) as [t | et] eqn:Ht.
  - destruct (rbind (getitem js (PStr "rawExtrusion")) _) as [c | ec] eqn:Hc.
    + destruct (Telemetry.py_div (fmul c 100) t) as [ratio | ed] eqn:Hd.
      * destruct c; cbn [fst snd];
          (split; [unfold keeps; cbn; tauto |]); intros e H; inversion H; auto.
      * apply Hraise. destruct (py_div_raises _ _ _ Hd) as [-> | ->]; auto.
    + apply Hraise. apply (current_raises fos js ec Hc).
  - apply Hraise. destruct (total_raises js et Ht) as [H | ->]; auto.
Qed.

Lemma times_left_keeps (js : pyval) (s : tracked) :
  keeps s (snd (_update_job_times_left js s)) /\
  escapes_as_expected (fst (_update_job_times_left js s)).
Proof.
  rewrite update_job_times_left_run.
  destruct (getitem js (PStr "timesLeft")) as [v | e].
  - destruct v; cbn [fst snd];
      (split; [unfold keeps; cbn; tauto |]); intros e H; inversion H; auto.
  - cbn [fst snd]. split; [unfold keeps; cbn; tauto |]. intros e' H; discriminate H.
Qed.

Lemma filename_keeps (path_name : string -> string) (js : pyval) (s : tracked) :
  keeps s (snd (_update_job_filename path_name js s)) /\
  escapes_as_expected (fst (_update_job_filename path_name js s)).
Proof.
  rewrite update_job_filename_run.
  destruct (rbind (getitem js (PStr "file")) _) as [v | e].
  - destruct v; cbn [fst snd];
      try (split; [apply keeps_refl | intros e H; discriminate H]).
    split; [| intros e H; discriminate H].
    destruct (rbind (py_get js "duration" (PInt 0)) _) as [[|] | e];
      unfold keeps; cbn; tauto.
  - cbn [fst snd]. split; [apply keeps_refl | intros e' H; discriminate H].
Qed.

Lemma layer_keeps (js : pyval) (s : tracked) :
  keeps s (snd (_update_job_layer js s)) /\
  escapes_as_expected (fst (_update_job_layer js s)).
Proof.
  unfold _update_job_layer, bind, lift, modify_job, modify.
  destruct js; cbn [py_get fst snd];
    (split; [unfold keeps; cbn; tauto |]); intros e H; inversion H; auto.
Qed.

Lemma update_job_info_keeps (path_name : string -> string)
  (float_of_string : string -> option pyfloat) (om : pyval) (s : tracked) :
  keeps s (snd (_update_job_info path_name float_of_string om s)) /\
  escapes_as_expected (fst (_update_job_info path_name float_of_string om s)).
Proof.
  unfold _update_job_info.
  apply bind_keeps.
  - apply keeps_refl.
  - unfold lift. cbn [fst]. destruct om; cbn [py_get]; intros e H; inversion H; auto.
  - intros js s1. apply bind_keeps; try apply progress_keeps.
    intros _ s2. apply bind_keeps; try apply times_left_keeps.
    intros _ s3. apply bind_keeps; try apply filename_keeps.
    intros _ s4. apply layer_keeps.
Qed.

Lemma update_job_info_keeps_status (path_name : string -> string)
  (float_of_string : string -> option pyfloat) (om : pyval) (s : tracked) :
  Client.status (printer (snd (_update_job_info path_name float_of_string om s)))
  = Client.status (printer s).
Proof.
  destruct (update_job_info_keeps path_name float_of_string om s) as ((H & _) & _).
  exact H.
Qed.

(** X20.  The whole job update changes neither the status nor the
    cancelled and finished marks and never clears the started mark; the
    only exceptions that leave it are [AttributeError] (an object model, a
    job or a [timesLeft] that is no dictionary), [ValueError] (an
    extrusion that is a text denoting no number, or NaN) and
    [OverflowError] (an integer beyond the range of the floats in the
    filament total or the extrusion, or an infinite extrusion).  For an
    object model without a [job] it returns with progress 0, time 0 and
    layer 0 and the file name unchanged. *)
Theorem update_job_info_keeps_marks (path_name : string -> string)
  (float_of_string : string -> option pyfloat) (om : pyval) (s : tracked) :
  let r := _update_job_info path_name float_of_string om s in
  keeps s (snd r) /\
  escapes_as_expected (fst r) /\
  (forall d, om = PDict d -> dict_get "job" d = None ->
     r = (Ok tt,
          mk_tracked (Client.set_job_progress 0 (printer s))
                     (set_layer (PInt 0) (set_time (PInt 0) (job s))))).
Proof.
  cbv zeta.
  destruct (update_job_info_keeps path_name float_of_string om s) as (Hk & He).
  split; [exact Hk |]. split; [exact He |].
  intros d -> Hjob. unfold _update_job_info, bind at 1, lift.
  cbn [py_get]. rewrite Hjob. destruct s as [p j]. reflexivity.
Qed.

End JobFacts.

(* ===================================================================== *)
(** * The object-model handler                                           *)
(* ===================================================================== *)

Module ObjectModelFacts.
Import Py PyMore Jobs ObjectModel Properties Shapes PyFacts StatusMapperFacts
  JobFacts.

Local Open Scope string_scope.
Local Open Scope list_scope.

Lemma same_job_refl (p : Client.printer) : same_job p p.
Proof. unfold same_job. tauto. Qed.

Lemma same_job_trans (p1 p2 p3 : Client.printer) :
  same_job p1 p2 -> same_job p2 p3 -> same_job p1 p3.
Proof.
  unfold same_job. intros (H1 & H2 & H3) (H4 & H5 & H6).
  repeat split; congruence.
Qed.

Lemma bind_same_job {A B} (m : Client.M A) (k : A -> Client.M B) :
  (forall p, same_job p (snd (m p))) ->
  (forall a p, same_job p (snd (k a p))) ->
  forall p, same_job p (snd (bind m k p)).
Proof.
  intros Hm Hk p. unfold bind. specialize (Hm p).
  destruct (m p) as [[a | e] p1]; cbn [snd] in *; [| exact Hm].
  eapply same_job_trans; [exact Hm | apply Hk].
Qed.

Ltac same_job_step :=
  first [ apply bind_same_job; [| intros ? ]
        | intros ?; apply same_job_refl
        | intros ?; unfold same_job; cbn; tauto ].

Lemma update_tools_same_job (om heaters : pyval) (count idx : nat) :
  forall p, same_job p (snd (Telemetry.update_tools om heaters idx count p)).
Proof.
  revert idx. induction count as [| count IH]; intros idx; cbn [Telemetry.update_tools].
  - intros p. apply same_job_refl.
  - apply bind_same_job; [| intros _; apply IH].
    unfold Telemetry.update_tool, Telemetry.modify_tool.
    repeat same_job_step.
Qed.

Lemma temperature_step_same_job (om : pyval) :
  forall p, same_job p (snd (Telemetry.objectmodel_temperature_step om p)).
Proof.
  assert (Hup : forall p, same_job p (snd (Telemetry._update_temperatures om p))).
  { unfold Telemetry._update_temperatures, Telemetry.modify_bed.
    apply bind_same_job; [intros p; apply same_job_refl | intros heaters].
    apply bind_same_job; [intros p; apply same_job_refl | intros bidx].
    apply bind_same_job; [intros p; apply same_job_refl | intros cur].
    apply bind_same_job; [intros p; unfold same_job; cbn; tauto | intros _].
    apply bind_same_job; [intros p; apply same_job_refl | intros tgt].
    apply bind_same_job; [intros p; unfold same_job; cbn; tauto | intros _].
    apply bind_same_job; [intros p; apply same_job_refl | intros n].
    apply bind_same_job; [apply update_tools_same_job | intros _].
    intros p; unfold same_job; cbn; tauto. }
  assert (Hreset : forall p, same_job p (snd (Telemetry.reset_actuals p))).
  { unfold Telemetry.reset_actuals, Telemetry.modify_bed.
    apply bind_same_job; [intros p; unfold same_job; cbn; tauto | intros _].
    apply bind_same_job; [intros p; apply same_job_refl | intros ts].
    destruct ts; intros p; [apply same_job_refl |].
    unfold Telemetry.modify_tool, same_job; cbn; tauto. }
  intros p. unfold Telemetry.objectmodel_temperature_step, try_except.
  specialize (Hup p).
  destruct (Telemetry._update_temperatures om p) as [[u | e] p1]; cbn [snd] in *;
    [exact Hup |].
  destruct (Telemetry.is_KeyError e); cbn [snd]; [| exact Hup].
  eapply same_job_trans; [exact Hup | apply Hreset].
Qed.

Lemma on_printer_run {A} (m : eff Client.printer A) (t : Jobs.tracked) :
  on_printer m t = (fst (m (printer t)), set_printer (snd (m (printer t))) t).
Proof. unfold on_printer. destruct (m (printer t)). reflexivity. Qed.

(** The handler, run: the job update is reached only after the status
    update, the sensor update and the temperature step returned and
    [_is_printing] answered yes; up to there only the status update writes
    to the job. *)
Lemma duet_on_objectmodel_run (path_name : string -> string)
  (float_of_string : string -> option pyfloat) (old_om om : pyval) (s : session) :
  let r := _duet_on_objectmodel path_name float_of_string old_om om s in
  let t1 := snd (_update_printer_status om (tracked s)) in
  (same_job (printer t1) (printer (tracked (snd r))) /\
   job (tracked (snd r)) = job t1) \/
  (exists t4,
     same_job (printer t1) (printer t4) /\ job t4 = job t1 /\
     Client._is_printing om (printer t4) = (Ok true, printer t4) /\
     tracked (snd r) = snd (_update_job_info path_name float_of_string om t4)).
Proof.
  cbv zeta.
  unfold _duet_on_objectmodel, bind, on_tracked, on_sensors, gets,
    _mesh_compensation_status, modify, ret.
  destruct (_update_printer_status om (tracked s)) as [[[] | e] t1];
    cbn [snd tracked sensors mesh_checks];
    [| left; split; [apply same_job_refl | reflexivity]].
  destruct (Sensors._update_filament_sensor _ om (sensors s)) as [[[] | e] f2];
    cbn [snd tracked sensors mesh_checks];
    [| left; split; [apply same_job_refl | reflexivity]].
  pose proof (temperature_step_same_job om (printer t1)) as Htemp.
  rewrite (on_printer_run (Telemetry.objectmodel_temperature_step om) t1).
  destruct (Telemetry.objectmodel_temperature_step om (printer t1))
    as [[[] | e] p4]; cbn [fst snd tracked sensors mesh_checks] in *;
    [| left; split; [exact Htemp | reflexivity]].
  rewrite (on_printer_run (Client._is_printing om) (set_printer p4 t1)).
  destruct (_is_printing_returns om (printer (set_printer p4 t1))) as (b & Hb & _).
  rewrite Hb. cbn [fst snd tracked sensors mesh_checks].
  assert (Hsame : set_printer (printer (set_printer p4 t1)) (set_printer p4 t1)
                  = set_printer p4 t1) by reflexivity.
  rewrite Hsame.
  destruct b.
  - right. exists (set_printer p4 t1).
    split; [exact Htemp |]. split; [reflexivity |]. split; [exact Hb |].
    destruct (_update_job_info path_name float_of_string om _) as [r5 t5].
    reflexivity.
  - left. cbn. split; [exact Htemp | reflexivity].
Qed.

(** The status update writes none of the job details. *)
Lemma update_printer_status_details (om : pyval) (s : Jobs.tracked) :
  same_job_details s (snd (_update_printer_status om s)).
Proof.
  destruct (update_printer_status_run om s)
    as [(e & _ & Hrun) | (key & b & st & _ & _ & _ & Hrun)]; rewrite Hrun;
    cbn [snd]; [unfold same_job_details; tauto |].
  destruct (is_status st Client.CANCELLING && _);
    [unfold same_job_details; cbn; tauto |].
  destruct (is_status st Client.OPERATIONAL && _);
    unfold same_job_details; cbn; tauto.
Qed.

(** X21.  When the status is PRINTING and the object model reports the
    state [idle] and no job file name, the handler leaves the status
    OPERATIONAL, the job marked finished and the progress at 100, whatever
    else the object model holds and whether or not a later step of the
    handler raises. *)
Theorem objectmodel_records_end_of_print (path_name : string -> string)
  (float_of_string : string -> option pyfloat) (old_om om : pyval) (s : session) :
  Client.status (printer (tracked s)) = Client.PRINTING ->
  Client.read_printer_state om = Ok (PStr "idle") ->
  ~ reports_job_filename om ->
  print_ended
    (tracked (snd (_duet_on_objectmodel path_name float_of_string old_om om s))).
Proof.
  intros Hold Hidle Hnone.
  assert (Hfirst : print_ended (snd (_update_printer_status om (tracked s)))).
  { destruct (update_printer_status_run om (tracked s))
      as [(e & Hwhy & Hrun) | (key & b & st & Hkey & Hb & Hget & Hrun)].
    - exfalso. destruct Hwhy as [Hr | (key & b & Hr & Hget)]; [congruence |].
      rewrite Hidle in Hr. inversion Hr; subst key. destruct b; discriminate Hget.
    - rewrite Hidle in Hkey. inversion Hkey; subst key.
      unfold Client._is_printing in Hb. rewrite Hold in Hb. cbn in Hb.
      inversion Hb; subst b. cbn in Hget. inversion Hget; subst st.
      rewrite Hrun, Hold. cbn [snd is_status andb]. rewrite Bool.orb_true_r.
      unfold print_ended; cbn. tauto. }
  pose proof (duet_on_objectmodel_run path_name float_of_string old_om om s) as Hrun.
  cbv zeta in Hrun.
  destruct Hfirst as (Hst & Hfin & Hprog).
  destruct Hrun as [((H1 & H2 & _) & Hjob) | (t4 & (H1 & _) & _ & Hb & _)].
  - unfold print_ended. rewrite Hjob. split; [congruence |]. split; [exact Hfin |].
    congruence.
  - exfalso.
    destruct (_is_printing_returns om (printer t4)) as (b & Hb' & Hiff).
    rewrite Hb in Hb'. inversion Hb'; subst b.
    destruct Hiff as [Hiff _]. destruct (Hiff eq_refl) as [Hin | Hrep];
      [| exact (Hnone Hrep)].
    rewrite H1, Hst in Hin. discriminate Hin.
Qed.

Lemma objectmodel_records_end_of_print_witness :
  print_ended
    (tracked (snd (_duet_on_objectmodel (fun p => p) (fun _ => None)
                     (status_om "processing") (status_om "idle") printing_session))).
Proof.
  apply objectmodel_records_end_of_print.
  - reflexivity.
  - reflexivity.
  - intros (job & file & v & Hjob & _). discriminate Hjob.
Defined.

(** X22.  When the handler ends with a status outside PRINTING, PAUSED,
    PAUSING and RESUMING and the object model reports no job file name,
    it has written none of the job details: the time, the file name, the
    layer, the started mark and the filament length are as before. *)
Theorem objectmodel_job_details_only_while_printing
  (path_name : string -> string) (float_of_string : string -> option pyfloat)
  (old_om om : pyval) (s : session) :
  let r := _duet_on_objectmodel path_name float_of_string old_om om s in
  Client.in_printing_states (Client.status (printer (tracked (snd r)))) = false ->
  ~ reports_job_filename om ->
  same_job_details (tracked s) (tracked (snd r)).
Proof.
  cbv zeta. intros Hfinal Hnone.
  pose proof (update_printer_status_details om (tracked s)) as Hfirst.
  pose proof (duet_on_objectmodel_run path_name float_of_string old_om om s) as Hrun.
  cbv zeta in Hrun.
  destruct Hfirst as (F1 & F2 & F3 & F4 & F5).
  destruct Hrun as [((_ & _ & H3) & Hjob) | (t4 & (H1 & _) & _ & Hb & Hlast)].
  - unfold same_job_details. rewrite Hjob. repeat split; congruence.
  - exfalso.
    destruct (_is_printing_returns om (printer t4)) as (b & Hb' & Hiff).
    rewrite Hb in Hb'. inversion Hb'; subst b.
    destruct Hiff as [Hiff _]. destruct (Hiff eq_refl) as [Hin | Hrep];
      [| exact (Hnone Hrep)].
    pose proof (update_job_info_keeps_status path_name float_of_string om t4) as Hk.
    rewrite Hlast in Hfinal. rewrite Hk in Hfinal. congruence.
Qed.

Lemma objectmodel_job_details_only_while_printing_witness :
  same_job_details (tracked printing_session)
    (tracked (snd (_duet_on_objectmodel (fun p => p) (fun _ => None)
                     (status_om "processing") (status_om "idle") printing_session))).
Proof.
  apply (objectmodel_job_details_only_while_printing (fun p => p) (fun _ => None)
           (status_om "processing") (status_om "idle") printing_session).
  - reflexivity.
  - intros (job & file & v & Hjob & _). discriminate Hjob.
Defined.

End ObjectModelFacts.

(* ===================================================================== *)
(** * The printer task                                                   *)
(* ===================================================================== *)

Module WatchdogFacts.
Import Py Watchdog Shapes.

Local Open Scope list_scope.
Local Open Scope Q_scope.

Ltac crunch_in H :=
  repeat (cbn [_printer_timeout calls fst snd negb] in H;
          match type of H with
          | context [match ?o with Ok _ => _ | Raise _ => _ end] =>
              is_var o; destruct o as [[] | ?]
          | context [if ?b then _ else _] => is_var b; destruct b
          | context [negb ?b] => is_var b; destruct b
          | context [if Qlt_le_dec ?a ?b then _ else _] =>
              destruct (Qlt_le_dec a b)
          | context [if connection_errors ?e then _ else _] =>
              destruct (connection_errors e) eqn:?
          end).

Ltac settle :=
  intros;
  repeat match goal with
         | H : Raise _ = Raise _ |- _ => inversion H; clear H; subst
         | H : Ok _ = Raise _ |- _ => discriminate H
         | H : Raise _ = Ok _ |- _ => discriminate H
         | H : true = false |- _ => discriminate H
         | H : false = true |- _ => discriminate H
         end;
  try congruence;
  try (exfalso; eapply Qlt_not_le; eassumption);
  intuition (try discriminate; try congruence;
             try (exfalso; eapply Qlt_not_le; eassumption)).

(** The [try] block of a turn, by what it adds to the calls and does to
    the deadline. *)
Lemma tick_device_run (t : turn) (s : watch) :
  exists new,
    calls (snd (tick_device t s)) = calls s ++ new /\
    (In SetOffline new <-> _printer_timeout s < now t) /\
    (In Connect new -> connected t = false) /\
    (In Tick new -> connected t = true \/ connect_outcome t = Ok tt) /\
    (forall e, In Connect new -> connect_outcome t = Raise e ->
       connection_errors e = true -> In Close new /\ ~ In Tick new) /\
    (In Tick new /\ tick_outcome t = Ok tt ->
       _printer_timeout (snd (tick_device t s)) = now_after_tick t + 60 * 5) /\
    (~ (In Tick new /\ tick_outcome t = Ok tt) ->
       _printer_timeout (snd (tick_device t s)) = _printer_timeout s).
Proof.
  remember (tick_device t s) as r eqn:Hr.
  destruct t, s as [deadline made].
  cbn [stopped now close_outcome connected connect_outcome close_after_failure
       sleep_after_failure tick_outcome now_after_tick pause_outcome
       close_on_cancel sleep_after_exception].
  unfold tick_device, _ensure_duet_connection, try_except,
    await, record_call, set_printer_timeout, bind, lift, modify, gets, ret in Hr.
  cbn [stopped now close_outcome connected connect_outcome close_after_failure
       sleep_after_failure tick_outcome now_after_tick pause_outcome
       close_on_cancel sleep_after_exception] in Hr.
  crunch_in Hr; subst r; cbn [snd calls _printer_timeout];
    rewrite <- ?app_assoc; cbn [app];
    eexists; (split; [reflexivity |]);
    cbn [In];
    (split; [| split; [| split; [| split; [| split]]]]); settle.
Qed.


(** The [except] clauses of a turn: they keep the deadline and add
    nothing, a [Close], or a logged exception and a pause of 10 s. *)
Lemma printer_task_turn_handlers (t : turn) (s : watch) :
  exists extra,
    calls (snd (printer_task_turn t s)) = calls (snd (tick_device t s)) ++ extra /\
    _printer_timeout (snd (printer_task_turn t s))
      = _printer_timeout (snd (tick_device t s)) /\
    (extra = [] \/ extra = [Close] \/ exists e, extra = [LogException e; Sleep 10]) /\
    (fst (printer_task_turn t s) = Raise CancelledError ->
       extra = [Close] \/ exists e, extra = [LogException e; Sleep 10]) /\
    ((forall e, fst (tick_device t s) = Raise e -> is_Exception e = true) ->
     sleep_after_exception t = Ok tt ->
     fst (printer_task_turn t s) = Ok tt).
Proof.
  unfold printer_task_turn.
  destruct (tick_device t s) as [[[] | e] s1]; cbn [fst snd].
  - exists []. rewrite app_nil_r. repeat split; auto. intros H; discriminate H.
  - assert (Hlogged :
      is_Exception e = true ->
      let r := (record_call (LogException e) ;;; await (Sleep 10)
                  (sleep_after_exception t))%eff s1 in
      calls (snd r) = calls s1 ++ [LogException e; Sleep 10] /\
      _printer_timeout (snd r) = _printer_timeout s1 /\
      (sleep_after_exception t = Ok tt -> fst r = Ok tt) /\
      (fst r = Raise CancelledError ->
       exists e', [LogException e; Sleep 10] = [LogException e'; Sleep 10])).
    { intros _. unfold await, record_call, bind, lift, modify. cbn.
      rewrite <- app_assoc. cbn [app]. repeat split; eauto. }
    destruct e; cbn [is_Exception];
      try (specialize (Hlogged eq_refl); cbv zeta in Hlogged;
           destruct Hlogged as (L1 & L2 & L3 & L4);
           eexists; split; [exact L1 |]; split; [exact L2 |];
           split; [right; right; eauto |]; split; [intros H; right; eauto |];
           intros _ Hs; exact (L3 Hs)).
    + exists []. rewrite app_nil_r. repeat split; auto. intros H; discriminate H.
    + exists [Close]. unfold await, record_call, bind, lift, modify. cbn.
      destruct (close_on_cancel t) as [[] | e]; cbn;
        (split; [reflexivity |]; split; [reflexivity |];
         split; [auto |]; split; [auto |];
         intros H; specialize (H CancelledError eq_refl); discriminate H).
    + exists []. rewrite app_nil_r. split; [reflexivity |]. split; [reflexivity |].
      split; [auto |]. split; [intros H; discriminate H |].
      intros H. specialize (H KeyboardInterrupt eq_refl). discriminate H.
Qed.

Lemma in_app_extra (c : call) (new extra : list call) :
  (extra = [] \/ extra = [Close] \/ exists e, extra = [LogException e; Sleep 10]) ->
  c <> Close -> (forall e, c <> LogException e) -> (forall q, c <> Sleep q) ->
  (In c (new ++ extra) <-> In c new).
Proof.
  intros Hextra H1 H2 H3. rewrite in_app_iff.
  split; [| auto]. intros [H | H]; [exact H | exfalso].
  destruct Hextra as [-> | [-> | (e & ->)]]; cbn [In] in H.
  - exact H.
  - destruct H as [H | []]. congruence.
  - destruct H as [H | [H | []]]; [apply (H2 e) | apply (H3 10)]; congruence.
Qed.

(** One turn, by what it adds to the calls and does to the deadline. *)
Lemma printer_task_turn_run (t : turn) (s : watch) :
  exists new,
    calls (snd (printer_task_turn t s)) = calls s ++ new /\
    (In SetOffline new <-> _printer_timeout s < now t) /\
    (In Connect new -> connected t = false) /\
    (In Tick new -> connected t = true \/ connect_outcome t = Ok tt) /\
    (forall e, In Connect new -> connect_outcome t = Raise e ->
       connection_errors e = true -> In Close new /\ ~ In Tick new) /\
    (In Tick new /\ tick_outcome t = Ok tt ->
       _printer_timeout (snd (printer_task_turn t s)) = now_after_tick t + 60 * 5) /\
    (~ (In Tick new /\ tick_outcome t = Ok tt) ->
       _printer_timeout (snd (printer_task_turn t s)) = _printer_timeout s).
Proof.
  destruct (tick_device_run t s) as (new & Hcalls & H1 & H2 & H3 & H4 & H5 & H6).
  destruct (printer_task_turn_handlers t s) as (extra & Hc & Ht & Hextra & _).
  exists (new ++ extra).
  assert (Hoff : In SetOffline (new ++ extra) <-> In SetOffline new)
    by (apply in_app_extra; auto; discriminate).
  assert (Hcon : In Connect (new ++ extra) <-> In Connect new)
    by (apply in_app_extra; auto; discriminate).
  assert (Htick : In Tick (new ++ extra) <-> In Tick new)
    by (apply in_app_extra; auto; discriminate).
  rewrite Hc, Hcalls, Ht, Hoff, Hcon, Htick, app_assoc.
  split; [reflexivity |]. split; [exact H1 |]. split; [exact H2 |].
  split; [exact H3 |]. split; [| split; [exact H5 | exact H6]].
  intros e Hin Hout Herr. apply Hcon in Hin.
  destruct (H4 e Hin Hout Herr) as (Hclose & Hno).
  split; [apply in_app_iff; auto |]. intros Hin'. apply Hno, Htick, Hin'.
Qed.



(** X24.  When the printer task ends with [CancelledError], the last
    thing it did is to close the connection to the device, or to start the
    10 s pause that follows a logged exception: a cancellation that
    arrives during that pause is passed on without closing. *)
Theorem printer_task_cancelled_closes (turns : list turn) (s : watch) :
  fst (_duet_printer_task turns s) = Raise CancelledError ->
  exists before,
    calls (snd (_duet_printer_task turns s)) = before ++ [Close] \/
    exists e, calls (snd (_duet_printer_task turns s))
              = before ++ [LogException e; Sleep 10].
Proof.
  revert s. induction turns as [| t rest IH]; intros s; [intros H; discriminate H |].
  cbn [_duet_printer_task]. destruct (stopped t); [intros H; discriminate H |].
  unfold bind.
  destruct (printer_task_turn_handlers t s) as (extra & Hc & _ & _ & Hcancel & _).
  destruct (printer_task_turn t s) as [[[] | e] s1]; cbn [fst snd] in *.
  - apply IH.
  - intros H. inversion H; subst e.
    destruct (Hcancel eq_refl) as [-> | (e & ->)].
    + exists (calls (snd (tick_device t s))). left. exact Hc.
    + exists (calls (snd (tick_device t s))). right. exists e. exact Hc.
Qed.

Lemma printer_task_cancelled_closes_witness :
  exists before,
    calls (snd (_duet_printer_task [quiet_turn 10; cancelled_turn 20] fresh_watch))
      = before ++ [Close] \/
    exists e, calls (snd (_duet_printer_task [quiet_turn 10; cancelled_turn 20]
                            fresh_watch))
              = before ++ [LogException e; Sleep 10].
Proof.
  apply printer_task_cancelled_closes. reflexivity.
Defined.

Example cancelled_while_ticking_closes :
  _duet_printer_task [cancelled_turn 20] fresh_watch
  = (Raise CancelledError, mk_watch 300 [Tick; Close]).
Proof. reflexivity. Qed.

Example cancelled_in_pause_does_not_close :
  _duet_printer_task [cancelled_in_pause_turn 20] fresh_watch
  = (Raise CancelledError, mk_watch 300 [Tick; LogException KeyError; Sleep 10]).
Proof. reflexivity. Qed.

(** X25.  In a turn of the printer task the device is ticked only when
    it is connected or the connection has just been made; a connection is
    attempted only when the device is not connected; and after a
    connection attempt that fails with a connection, response or timeout
    error the connection is closed and the device is not ticked. *)
Theorem printer_task_ticks_only_when_connected (t : turn) (s : watch) :
  exists new,
    calls (snd (printer_task_turn t s)) = calls s ++ new /\
    (In Connect new -> connected t = false) /\
    (In Tick new -> connected t = true \/ connect_outcome t = Ok tt) /\
    (forall e, In Connect new -> connect_outcome t = Raise e ->
       connection_errors e = true -> In Close new /\ ~ In Tick new).
Proof.
  destruct (printer_task_turn_run t s) as (new & H0 & _ & H2 & H3 & H4 & _).
  exists new. auto.
Qed.

(** X26.  A turn of the printer task sets the status to OFFLINE exactly
    when the deadline has passed, and moves the deadline, to five minutes
    after the tick, exactly when the device was ticked and the tick
    returned; in every other case the deadline stays where it was. *)
Theorem printer_task_deadline (t : turn) (s : watch) :
  exists new,
    calls (snd (printer_task_turn t s)) = calls s ++ new /\
    (In SetOffline new <-> _printer_timeout s < now t) /\
    (In Tick new /\ tick_outcome t = Ok tt ->
       _printer_timeout (snd (printer_task_turn t s)) = now_after_tick t + 60 * 5) /\
    (~ (In Tick new /\ tick_outcome t = Ok tt) ->
       _printer_timeout (snd (printer_task_turn t s)) = _printer_timeout s).
Proof.
  destruct (printer_task_turn_run t s) as (new & H0 & H1 & _ & _ & _ & H5 & H6).
  exists new. auto.
Qed.

Example unreachable_device_goes_offline :
  _duet_printer_task [unreachable_turn 200; unreachable_turn 301] fresh_watch
  = (Ok tt, mk_watch 300 [Connect; Close; Sleep 30;
                          SetOffline; Close; Connect; Close; Sleep 30]).
Proof. reflexivity. Qed.

End WatchdogFacts.

(* ===================================================================== *)
(** * The distribution loop                                              *)
(* ===================================================================== *)

Module DistributionLoopFacts.
Import Py Distribution Shapes.

Local Open Scope nat_scope.
Local Open Scope list_scope.

Section Loop.

Variable frame : Type.
Variable image : Type.
Variable reencode : frame -> result image.

Lemma get_qsize (q q' : Webcam.queue frame) (x : frame) :
  Webcam.get q = Some (x, q') -> Webcam.qsize q = S (Webcam.qsize q').
Proof.
  unfold Webcam.get, Webcam.qsize. destruct (Webcam.items q) as [| y tl] eqn:Hq;
    intros H; [discriminate H |]. inversion H; subst. reflexivity.
Qed.

(** Fetching an image takes at most one frame out of the buffer and
    touches nothing else. *)
Lemma fetch_webcam_image_frame (t : turn frame) (s : cam frame image) :
  let r := _fetch_webcam_image reencode t s in
  _requested_webcam_snapshots (snd r) = _requested_webcam_snapshots s /\
  deliveries (snd r) = deliveries s /\
  logged (snd r) = logged s /\
  (Webcam.qsize (_webcam_frame s) <= S (Webcam.qsize (_webcam_frame (snd r))))%nat.
Proof.
  unfold _fetch_webcam_image, next_frame, try_except, bind, lift, ret.
  destruct (Webcam.get (_webcam_frame s)) as [[raw q] |] eqn:Hget.
  - apply get_qsize in Hget.
    destruct (reencode raw); cbn; rewrite Hget; auto.
  - destruct (waiting t) as [raw | e]; cbn.
    + destruct (reencode raw); cbn; auto.
    + destruct (is_TimeoutError e); cbn; auto.
Qed.

Lemma accounts_refl (res : result unit) (s : cam frame image) :
  accounts s (res, s) [].
Proof.
  unfold accounts. cbn [fst snd List.length]. rewrite app_nil_r.
  split; [apply Permutation_refl |]. repeat split; lia.
Qed.

Lemma accounts_trans (s1 s2 : cam frame image)
  (r : result unit * cam frame image)
  (taken1 taken2 : list WebcamSnapshotRequest) :
  accounts s1 (Ok tt, s2) taken1 -> accounts s2 r taken2 ->
  accounts s1 r (taken2 ++ taken1).
Proof.
  unfold accounts. cbn [fst snd]. intros (P1 & D1 & M1 & F1) (P2 & D2 & M2 & F2).
  rewrite length_app. split; [| repeat split; lia].
  rewrite app_assoc. eapply Permutation_trans; [exact P1 |].
  apply Permutation_app_tail. exact P2.
Qed.

(** The head request taken: one request, at most one delivery and at
    most one frame, and a delivery or an exception. *)
Lemma accounts_taken (s s' : cam frame image) (res : result unit)
  (request : WebcamSnapshotRequest) (rest : list WebcamSnapshotRequest) :
  _requested_webcam_snapshots s = request :: rest ->
  _requested_webcam_snapshots s' = rest ->
  logged s' = logged s ->
  (deliveries s' = deliveries s /\ (exists e, res = Raise e) \/
   exists d, deliveries s' = deliveries s ++ [d]) ->
  Webcam.qsize (_webcam_frame s) <= S (Webcam.qsize (_webcam_frame s')) ->
  accounts s (res, s') [request].
Proof.
  unfold accounts. cbn [fst snd List.length]. intros -> -> -> Hd Hf.
  split; [apply Permutation_cons_append |].
  destruct Hd as [(-> & e & ->) | (d & ->)].
  - repeat split; lia.
  - rewrite length_app. cbn [List.length]. destruct res; repeat split; lia.
Qed.

(** The [try] block of a turn logs nothing. *)
Lemma distribute_accounts (t : turn frame) (s : cam frame image) :
  exists taken,
    accounts s (distribute reencode t s) taken /\
    logged (snd (distribute reencode t s)) = logged s.
Proof.
  unfold distribute, bind, gets, modify, lift. cbn beta iota.
  destruct (_requested_webcam_snapshots s) as [| request rest] eqn:Hreq.
  - exists []. cbn [snd]. split; [apply accounts_refl | reflexivity].
  - pose proof (fetch_webcam_image_frame t (set_requests rest s)) as Hfetch.
    cbv zeta in Hfetch. cbn [set_requests _requested_webcam_snapshots deliveries
      logged _webcam_frame] in Hfetch.
    destruct Hfetch as (F1 & F2 & F3 & F4).
    destruct (snapshot_id request).
    + exists [request].
      destruct (_fetch_webcam_image reencode t (set_requests rest s))
        as [[img | e] s2]; cbn [snd] in *.
      * unfold _send_webcam_snapshot_to_endpoint, deliver, bind, modify, lift.
        cbn [snd deliveries logged].
        split; [| exact F3].
        apply (accounts_taken _ _ _ _ _ Hreq); cbn; auto.
        right. rewrite F2. eauto.
      * split; [| exact F3].
        apply (accounts_taken _ _ _ _ _ Hreq); auto. left. eauto.
    + destruct (is_ready t).
      * exists [request].
        destruct (_fetch_webcam_image reencode t (set_requests rest s))
          as [[img | e] s2]; cbn [snd] in *.
        -- unfold _send_webcam_snapshot, deliver, bind, modify, lift.
           destruct img as [jpg |].
           ++ destruct (limiter_outcome t) as [[] | e]; cbn [snd deliveries logged];
                (split; [| exact F3]);
                apply (accounts_taken _ _ _ _ _ Hreq); cbn; auto.
              ** right. rewrite F2. eauto.
              ** left. eauto.
           ++ cbn [snd]. split; [| exact F3].
              apply (accounts_taken _ _ _ _ _ Hreq); auto. left. eauto.
        -- split; [| exact F3].
           apply (accounts_taken _ _ _ _ _ Hreq); auto. left. eauto.
      * exists []. cbn [snd].
        split; [| reflexivity].
        unfold accounts. cbn. rewrite app_nil_r, Hreq.
        split; [apply Permutation_cons_append |].
        destruct (wait_for_outcome t); repeat split; lia.
Qed.

Lemma distribution_turn_accounts (t : turn frame) (s : cam frame image) :
  exists taken, accounts s (distribution_turn reencode t s) taken.
Proof.
  destruct (distribute_accounts t s) as (taken & Hacc & Hlog).
  exists taken. unfold distribution_turn.
  destruct (distribute reencode t s) as [[[] | e] s1]; cbn [snd] in *; [exact Hacc |].
  destruct (is_Exception e); [| exact Hacc].
  unfold log_exception, bind, modify, lift.
  unfold accounts in *. cbn [fst snd _requested_webcam_snapshots deliveries logged
    _webcam_frame] in *.
  destruct Hacc as (P & D & M & F).
  rewrite length_app. cbn [List.length].
  split; [exact P |]. destruct (sleep_after_exception t); repeat split; lia.
Qed.

(** X27.  The distribution loop never repeats a request and takes a
    request off the queue only to answer it.  After any number of turns,
    and whether or not the loop was left by an exception, the requests
    that were pending are those still pending together with the ones
    taken off the queue in between (a request put back because the rate
    limiter was not ready is still pending); the loop makes at most one
    delivery and takes at most one frame out of the buffer for each
    request taken; and every request taken is matched by a delivery, by
    a logged exception, or by the exception that ended the loop.  A
    request can thus be dropped without a delivery, with its exception
    logged. *)
Theorem distribution_loop_accounts_for_requests (turns : list (turn frame))
  (s : cam frame image) :
  exists taken,
    Permutation (_requested_webcam_snapshots s)
      (_requested_webcam_snapshots (snd (distribution_loop reencode turns s))
       ++ taken) /\
    List.length (deliveries (snd (distribution_loop reencode turns s)))
      <= List.length (deliveries s) + List.length taken /\
    List.length taken + List.length (deliveries s) + List.length (logged s)
      <= List.length (deliveries (snd (distribution_loop reencode turns s)))
         + List.length (logged (snd (distribution_loop reencode turns s)))
         + match fst (distribution_loop reencode turns s) with
           | Ok _ => 0
           | Raise _ => 1
           end /\
    Webcam.qsize (_webcam_frame s)
      <= Webcam.qsize (_webcam_frame (snd (distribution_loop reencode turns s)))
         + List.length taken.
Proof.
  change (exists taken, accounts s (distribution_loop reencode turns s) taken).
  revert s. induction turns as [| t rest IH]; intros s;
    cbn [distribution_loop].
  - exists []. apply accounts_refl.
  - destruct (loop_test t); [| exists []; apply accounts_refl].
    unfold bind.
    destruct (distribution_turn_accounts t s) as (taken1 & H1).
    destruct (distribution_turn reencode t s) as [[[] | e] s1].
    + destruct (IH s1) as (taken2 & H2).
      exists (taken2 ++ taken1). eapply accounts_trans; eauto.
    + exists taken1. exact H1.
Qed.

End Loop.

(** A live request met while the rate limiter is not ready goes to the
    back of the queue; the request with an id is answered next, with the
    oldest frame of the buffer. *)
Example live_request_is_put_back :
  let live := mk_request None None in
  let wanted := mk_request (Some "7"%string) None in
  let t := mk_turn true (Raise TimeoutError) false (Ok tt) (Ok tt) (Ok tt) (Ok tt)
             (Ok tt) (Ok tt) in
  let s := mk_cam [live; wanted] (Webcam.mk_queue 3 [11; 12]) [] [] in
  distribution_loop (fun raw : nat => Ok raw) [t; t] s
  = (Ok tt, mk_cam [live] (Webcam.mk_queue 3 [12])
              [PostSnapshot (Some 11) wanted] []).
Proof. reflexivity. Qed.

(** A live request answered while no frame arrives within 60 s: nothing
    is sent, the [TypeError] is logged and the request is gone. *)
Example live_request_without_frame_is_dropped :
  let live := mk_request None None in
  let t := mk_turn true (Raise TimeoutError) true (Ok tt) (Ok tt) (Ok tt) (Ok tt)
             (Ok tt) (Ok tt) in
  let s := mk_cam (image := nat) [live] (Webcam.mk_queue 3 (@nil nat)) [] [] in
  distribution_loop (fun raw : nat => Ok raw) [t] s
  = (Ok tt, mk_cam [] (Webcam.mk_queue 3 []) [] [TypeError]).
Proof. reflexivity. Qed.

End DistributionLoopFacts.
